(** * GraphQL Mesh runtime: [getMesh] and the Neo4J source handler

  A shallow embedding of
    - packages/runtime/src/get-mesh.ts
    - packages/handlers/neo4j/src/index.ts
  JavaScript objects with optional keys become records with [option]
  fields, thrown values become the [Throw] branch of [Outcome], mutable
  closures and class fields become explicit state, and calls into the
  libraries the code imports (graphql, graphql-tools, neo4j-driver) are
  taken as section variables or recorded as events. *)

From Stdlib Require Import ZArith.
From stdpp Require Import base option list gmap strings.

Set Warnings "-register-all".
Open Scope string_scope.

(** ** JavaScript prelude *)
Module Js.

(** A dynamically typed value (arguments, roots, contexts, results). *)
Inductive JsValue : Type :=
| JUndefined
| JNull
| JBool (b : bool)
| JNum (n : Z)
| JStr (s : string)
| JArr (xs : list JsValue)
| JObj (fields : list (string * JsValue)).

(** [if (v)] on a value. *)
Definition truthy (v : JsValue) : bool :=
  match v with
  | JUndefined | JNull => false
  | JBool b => b
  | JNum n => negb (n =? 0)%Z
  | JStr s => negb (String.eqb s "")
  | JArr _ | JObj _ => true
  end.

(** [if (s)] on an optional string parameter ([s?: string]):
    [undefined] and the empty string are falsy. *)
Definition truthy_string (s : option string) : bool :=
  match s with
  | None => false
  | Some s => negb (String.eqb s "")
  end.

(** [if (b)] on an optional boolean. *)
Definition truthy_bool (b : option bool) : bool :=
  match b with
  | Some true => true
  | _ => false
  end.

(** The result of running code that may throw. *)
Inductive Outcome (E A : Type) : Type :=
| Ok (a : A)
| Throw (e : E).
Arguments Ok {E A} a.
Arguments Throw {E A} e.

(** Stateful code that may throw: side effects made before a [throw]
    stay in the state. *)
Definition M (S E A : Type) : Type := S -> Outcome E A * S.

Definition ret {S E A} (a : A) : M S E A := fun s => (Ok a, s).
Definition throw {S E A} (e : E) : M S E A := fun s => (Throw e, s).
Definition bind {S E A B} (c : M S E A) (k : A -> M S E B) : M S E B :=
  fun s =>
    match c s with
    | (Ok a, s') => k a s'
    | (Throw e, s') => (Throw e, s')
    end.
Definition get {S E} : M S E S := fun s => (Ok s, s).
Definition modify {S E} (f : S -> S) : M S E unit := fun s => (Ok tt, f s).

(** [try { c } catch (e) { h e }] *)
Definition try_catch {S E A} (c : M S E A) (h : E -> M S E A) : M S E A :=
  fun s =>
    match c s with
    | (Ok a, s') => (Ok a, s')
    | (Throw e, s') => h e s'
    end.

(** Lifting a library call whose result is already known. *)
Definition lift {S E A} (o : Outcome E A) : M S E A := fun s => (o, s).

End Js.
Export Js.

Declare Scope js_scope.
Delimit Scope js_scope with js.
Notation "x <- c ;; k" := (bind c (fun x => k))
  (at level 20, c at level 99, k at level 200, only parsing) : js_scope.
Notation "' p <- c ;; k" := (bind c (fun p => k))
  (at level 20, p pattern, c at level 99, k at level 200, only parsing) : js_scope.
Notation "c ;; k" := (bind c (fun _ => k))
  (at level 100, k at level 200, only parsing, right associativity) : js_scope.
Open Scope js_scope.

(** ** The parts of the graphql library the runtime touches *)
Module GraphQL.

Inductive OperationTypeNode : Type := query | mutation | subscription.

Definition operationTypeName (o : OperationTypeNode) : string :=
  match o with
  | query => "query"
  | mutation => "mutation"
  | subscription => "subscription"
  end.

(** A selection set is a list of fields, each with its own sub-selection.
    Source locations are not part of the model. *)
Inductive SelectionNode : Type :=
| FieldNode (fieldName : string) (subSelection : list SelectionNode).

Definition SelectionSetNode : Type := list SelectionNode.

Record OperationDefinitionNode : Type := {
  operation : OperationTypeNode;
  name : option string;
  selectionSet : SelectionSetNode;
}.

Inductive DefinitionNode : Type :=
| OperationDefinition (o : OperationDefinitionNode)
| FragmentDefinition (fragmentName : string) (fragmentSelection : SelectionSetNode).

Record DocumentNode : Type := { definitions : list DefinitionNode }.

Record GraphQLError : Type := { message : string }.

(** [getOperationAST(documentAST, operationName)] of graphql-js: with a
    name, the operation of that name; without one, the operation of the
    document if it is the only one, and [null] as soon as a second one is
    met. *)
Fixpoint getOperationAST_from (defs : list DefinitionNode)
    (operationName : option string)
    (found : option OperationDefinitionNode) : option OperationDefinitionNode :=
  match defs with
  | [] => found
  | OperationDefinition o :: rest =>
      match operationName with
      | None =>
          match found with
          | Some _ => None
          | None => getOperationAST_from rest operationName (Some o)
          end
      | Some n =>
          if decide (name o = Some n) then Some o
          else getOperationAST_from rest operationName found
      end
  | FragmentDefinition _ _ :: rest => getOperationAST_from rest operationName found
  end.

Definition getOperationAST (documentAST : DocumentNode)
    (operationName : option string) : option OperationDefinitionNode :=
  getOperationAST_from (definitions documentAST) operationName None.

(** The result of an execution. A key may be missing ([None]); the
    [errors] key may also be there and hold [undefined] ([Some None]). *)
Record ExecutionResult : Type := {
  data : option JsValue;
  errors : option (option (list GraphQLError));
}.

(** [result.data] and [result.errors] as property reads. *)
Definition read_data (r : ExecutionResult) : JsValue :=
  match data r with
  | Some v => v
  | None => JUndefined
  end.

Definition read_errors (r : ExecutionResult) : option (list GraphQLError) :=
  match errors r with
  | Some (Some es) => Some es
  | _ => None
  end.

(** ['data' in r] and ['errors' in r]. *)
Definition has_data_key (r : ExecutionResult) : bool := bool_decide (is_Some (data r)).
Definition has_errors_key (r : ExecutionResult) : bool := bool_decide (is_Some (errors r)).

End GraphQL.
Export GraphQL.

(** What JavaScript code can throw here. *)
Inductive JsError : Type :=
| Error (msg : string)
| TypeError (msg : string)
| GraphQLSyntaxError (msg : string)
| GraphQLMeshSdkError (errs : option (list GraphQLError)) (document : DocumentNode)
    (variables : JsValue) (partialData : JsValue) (msg : string).

Abbreviation Result := (Outcome JsError).

(** ** Schemas as the runtime sees them *)
Module Schema.

Record GraphQLField : Type := { type : string }.

(** [getFields()] keeps the fields in definition order. *)
Record GraphQLObjectType : Type := {
  typeName : string;
  getFields : list (string * GraphQLField);
}.

Record GraphQLSchema : Type := {
  getQueryType : option GraphQLObjectType;
  getMutationType : option GraphQLObjectType;
  getSubscriptionType : option GraphQLObjectType;
}.

End Schema.
Export Schema.

(** ** Mesh Execution Facade and SDK Requester
    ([meshExecute], [GraphQLMeshSdkError], [localRequester]) *)
Module Facade.

Inductive GraphQLOperation : Type :=
| OfDocument (document : DocumentNode)
| OfSDL (sdl : string).

Record ExecutionArgs : Type := {
  document : DocumentNode;
  contextValue : JsValue;
  rootValue : JsValue;
  variableValues : JsValue;
  schema : GraphQLSchema;
  operationName : option string;
}.

(** What the facade does to the world around it. Debug traces are left
    out: they are built lazily and only read their arguments. *)
Inductive Effect : Type :=
| LiveQueryExecute (executionParams : ExecutionArgs)
| LoggerError (query : string) (variables : JsValue).

Abbreviation Run := (M (list Effect) JsError).

Definition emit (e : Effect) : Run unit := modify (fun trace => (trace ++ [e])%list).

(** A parameter with a default value: the default is taken for [undefined]. *)
Definition orDefault (v default : JsValue) : JsValue :=
  match v with
  | JUndefined => default
  | _ => v
  end.

Definition EMPTY_ROOT_VALUE : JsValue := JObj [].
Definition EMPTY_CONTEXT_VALUE : JsValue := JObj [].
Definition EMPTY_VARIABLES_VALUE : JsValue := JObj [].

Section WithEnvironment.

(** graphql's [parse] and [print], and the cached printer of the utils. *)
Variable parse : string -> Result DocumentNode.
Variable print : DocumentNode -> string.
Variable printWithCache : DocumentNode -> string.

(** Captured by the closures of [getMesh]. *)
Variable unifiedSchema : GraphQLSchema.
Variable liveQueryExecute : ExecutionArgs -> Result ExecutionResult.

(** Modelled from the spec: [getDocumentNodeAndSDL] of @graphql-mesh/utils
    is not among the sources. The facade "normalizes the input operation to
    a parsed document (parsing an SDL string if needed)"; the other half of
    the pair is the text of the operation. *)
Definition getDocumentNodeAndSDL (documentOrSDL : GraphQLOperation)
    : Result (DocumentNode * string) :=
  match documentOrSDL with
  | OfDocument d => Ok (d, print d)
  | OfSDL s =>
      match parse s with
      | Ok d => Ok (d, s)
      | Throw e => Throw e
      end
  end.

Definition meshExecute (documentOrSDL : GraphQLOperation)
    (variableValues contextValue rootValue : JsValue)
    (operationName : option string) : Run ExecutionResult :=
  let variableValues := orDefault variableValues EMPTY_VARIABLES_VALUE in
  let contextValue := orDefault contextValue EMPTY_CONTEXT_VALUE in
  let rootValue := orDefault rootValue EMPTY_ROOT_VALUE in
  '(document, sdl) <- lift (getDocumentNodeAndSDL documentOrSDL) ;;
  operationName <-
    (if negb (truthy_string operationName) then
       match getOperationAST document None with
       | Some operationAst => ret (name operationAst)
       | None => throw (TypeError "Cannot read properties of null (reading 'name')")
       end
     else ret operationName) ;;
  let executionParams := {|
    document := document;
    contextValue := contextValue;
    rootValue := rootValue;
    variableValues := variableValues;
    schema := unifiedSchema;
    operationName := operationName;
  |} in
  emit (LiveQueryExecute executionParams) ;;
  lift (liveQueryExecute executionParams).

(** [new GraphQLMeshSdkError(errors, document, variables, data)]: the
    message is built, from [getOperationAST(document)], before [super]
    is called. [super] is the constructor of [AggregateError], which
    iterates over [errors]: with [errors] undefined it throws. *)
Definition new_GraphQLMeshSdkError (errors : option (list GraphQLError))
    (document : DocumentNode) (variables data : JsValue) : Result JsError :=
  match getOperationAST document None with
  | None => Throw (TypeError "Cannot read properties of null (reading 'operation')")
  | Some operationAst =>
      let shownName :=
        if truthy_string (name operationAst) then default "" (name operationAst) else "" in
      let message :=
        "GraphQL Mesh SDK " +:+ operationTypeName (operation operationAst)
          +:+ " " +:+ shownName +:+ " failed!" in
      match errors with
      | None =>
          Throw (TypeError
                   "undefined is not iterable (cannot read property Symbol(Symbol.iterator))")
      | Some es => Ok (GraphQLMeshSdkError (Some es) document variables data message)
      end
  end.

Definition localRequester (document : DocumentNode) (variables : JsValue)
    (contextValue rootValue : JsValue) (operationName : option string)
    : Run JsValue :=
  executionResult <-
    meshExecute (OfDocument document) variables contextValue rootValue operationName ;;
  if has_data_key executionResult || has_errors_key executionResult then
    if truthy (read_data executionResult)
       && negb (bool_decide (is_Some (read_errors executionResult)))
    then ret (read_data executionResult)
    else
      emit (LoggerError (printWithCache document) variables) ;;
      e <- lift (new_GraphQLMeshSdkError (read_errors executionResult)
                   document variables (read_data executionResult)) ;;
      throw e
  else throw (Error "Not implemented").

End WithEnvironment.

End Facade.

(** ** Data model of the runtime *)
Module Mesh.

(** Opaque collaborators, known by a handle only. *)
Inductive Executor : Type := ExecutorHandle (id : nat).
Inductive MergeConfig : Type := MergeConfigHandle (id : nat).
Inductive ContextBuilder : Type := ContextBuilderHandle (id : nat).

Record MeshTransform : Type := {
  transformName : string;
  noWrap : bool;
}.

(** What a handler's [getMeshSource()] resolves to. A key that the object
    does not have is [None]; [batch] may also be present and hold
    [undefined] ([Some None]). *)
Module MeshSource.
Record t : Type := {
  schema : GraphQLSchema;
  executor : option Executor;
  contextVariables : option (list string);
  batch : option (option bool);
  contextBuilder : option ContextBuilder;
}.
End MeshSource.

(** A handler object: its identity and what the promise returned by its
    [getMeshSource()] settles to, some time after the call. *)
Record MeshHandler : Type := {
  handlerId : nat;
  getMeshSource : Result MeshSource.t;
}.

(** An element of [options.sources]. *)
Module ApiSource.
Record t : Type := {
  name : string;
  handler : MeshHandler;
  transforms : list MeshTransform;
  merge : option MergeConfig;
}.
End ApiSource.

Module RawSourceOutput.
Record t : Type := {
  name : string;
  schema : GraphQLSchema;
  executor : option Executor;
  transforms : list MeshTransform;
  contextVariables : list string;
  handler : MeshHandler;
  batch : option bool;
  merge : option MergeConfig;
}.
End RawSourceOutput.

(** The unified schema with [extensions.sourceMap]. The map is keyed by the
    identity of the raw source objects, that is by their position in the
    [rawSources] array they were pushed to. *)
Record UnifiedSchema : Type := {
  unified : GraphQLSchema;
  sourceMap : gmap nat GraphQLSchema;
}.

Record MergerInput : Type := {
  mi_rawSources : list RawSourceOutput.t;
  mi_typeDefs : option (list DocumentNode);
  mi_resolvers : JsValue;
  mi_transforms : list MeshTransform;
}.

Record LiveQueryInvalidation : Type := {
  field : string;
  invalidate : list string;
}.

Record GraphQLResolveInfo : Type := {
  fieldName : option string;
  parentType : option GraphQLObjectType;
}.

Record ResolverData : Type := {
  root : JsValue;
  args : JsValue;
  context : JsValue;
  info : option GraphQLResolveInfo;
}.

(** The payload of a [resolverDone] event. *)
Record ResolverDoneEvent : Type := {
  result : JsValue;
  resolverData : option ResolverData;
}.

(** [{ ...resolverData, result }] *)
Module Interpolation.
Record t : Type := {
  root : JsValue;
  args : JsValue;
  context : JsValue;
  info : option GraphQLResolveInfo;
  result : JsValue;
}.
End Interpolation.

Definition ResolverDataBasedFactory (A : Type) : Type := Interpolation.t -> A.

End Mesh.
Export Mesh.

(** ** Live Query Invalidation Wiring *)
Module LiveQuery.

(** The live query store, as far as the runtime drives it: the batches it
    was asked to invalidate, oldest first. *)
Definition Store : Type := list (list string).

Definition liveQueryStore_invalidate (identifiers : list string)
    : M Store JsError unit :=
  modify (fun calls => (calls ++ [identifiers])%list).

Section Wiring.

(** [getInterpolatedStringFactory] of @graphql-mesh/utils compiles a
    template with [{variable}] placeholders. *)
Variable getInterpolatedStringFactory : string -> ResolverDataBasedFactory string.

(** [options.liveQueryInvalidations?.forEach(...)] filling the
    [Map<string, ResolverDataBasedFactory<string>[]>]. *)
Definition liveQueryInvalidationFactoryMap
    (liveQueryInvalidations : option (list LiveQueryInvalidation))
    : gmap string (list (ResolverDataBasedFactory string)) :=
  foldl
    (fun factoryMap liveQueryInvalidation =>
       let rawInvalidationPaths := invalidate liveQueryInvalidation in
       let factories := map getInterpolatedStringFactory rawInvalidationPaths in
       <[field liveQueryInvalidation := factories]> factoryMap)
    ∅
    (default [] liveQueryInvalidations).

End Wiring.

(** [resolverData?.info?.parentType && resolverData?.info?.fieldName]:
    what the guard lets through. *)
Definition carried (event : ResolverDoneEvent)
    : option (ResolverData * GraphQLObjectType * string) :=
  match resolverData event with
  | Some rd =>
      match info rd with
      | Some i =>
          match parentType i with
          | Some pt => if truthy_string (fieldName i) then Some (rd, pt, default "" (fieldName i)) else None
          | None => None
          end
      | None => None
      end
  | None => None
  end.

Definition spread (rd : ResolverData) (result : JsValue) : Interpolation.t :=
  {| Interpolation.root := root rd;
     Interpolation.args := args rd;
     Interpolation.context := context rd;
     Interpolation.info := info rd;
     Interpolation.result := result |}.

(** The listener subscribed to [resolverDone]. *)
Definition resolverDoneSubscriber
    (liveQueryInvalidationFactoryMap : gmap string (list (ResolverDataBasedFactory string)))
    (event : ResolverDoneEvent) : M Store JsError unit :=
  match carried event with
  | Some (rd, pt, fieldName) =>
      let path := typeName pt +:+ "." +:+ fieldName in
      match liveQueryInvalidationFactoryMap !! path with
      | Some invalidationPathFactories =>
          let invalidationPaths :=
            map (fun invalidationPathFactory =>
                   invalidationPathFactory (spread rd (result event)))
                invalidationPathFactories in
          liveQueryStore_invalidate invalidationPaths
      | None => ret tt
      end
  | None => ret tt
  end.

End LiveQuery.

(** ** In-Context SDK Generator *)
Module Sdk.

Inductive SelectionSetParam : Type :=
| ParamString (s : string)
| ParamDocument (d : DocumentNode)
| ParamSelectionSet (s : SelectionSetNode).

Inductive SelectionSetParamOrFactory : Type :=
| Param (p : SelectionSetParam)
| Factory (f : SelectionSetNode -> SelectionSetParam).

(** [if (selectionSet)]: only [undefined] and the empty string are falsy. *)
Definition truthy_selectionSet (s : option SelectionSetParamOrFactory) : bool :=
  match s with
  | None => false
  | Some (Param (ParamString s)) => negb (String.eqb s "")
  | Some _ => true
  end.

(** [new WrapQuery(path, wrapper, extractor)] *)
Record WrapQuery : Type := {
  wq_path : list string;
  wq_wrapper : SelectionSetNode -> Result SelectionSetNode;
  wq_extractor : JsValue -> JsValue;
}.

Record CommonDelegateOptions : Type := {
  schema : RawSourceOutput.t;
  rootValue : JsValue;
  operation : OperationTypeNode;
  fieldName : string;
  returnType : string;
  context : JsValue;
  transformedSchema : GraphQLSchema;
  info : option GraphQLResolveInfo;
}.

Module IDelegateToSchemaOptions.
Record t : Type := {
  common : CommonDelegateOptions;
  args : JsValue;
  transforms : option (list WrapQuery);
}.
End IDelegateToSchemaOptions.

Module BatchDelegateOptions.
Record t : Type := {
  common : CommonDelegateOptions;
  key : string;
  argsFromKeys : list string -> JsValue;
  valuesFromResults : option (JsValue -> option (list string) -> JsValue);
  transforms : option (list WrapQuery);
}.
End BatchDelegateOptions.

(** The argument object of a generated field callable. *)
Module Call.
Record t : Type := {
  root : JsValue;
  args : JsValue;
  context : JsValue;
  info : option GraphQLResolveInfo;
  selectionSet : option SelectionSetParamOrFactory;
  key : option string;
  argsFromKeys : option (list string -> JsValue);
  valuesFromResults : option (JsValue -> option (list string) -> JsValue);
}.
End Call.

(** Calls into the delegation libraries, in the order they are made. *)
Inductive Effect : Type :=
| DelegateToSchema (options : IDelegateToSchemaOptions.t)
| BatchDelegateToSchema (options : BatchDelegateOptions.t).

Abbreviation Run := (M (list Effect) JsError).

Definition emit (e : Effect) : Run unit := modify (fun trace => (trace ++ [e])%list).

Definition identical {T : Type} (val : T) : T := val.

Section WithLibraries.

Variable parse : string -> Result DocumentNode.
Variable print : DocumentNode -> string.
Variable delegateToSchema : IDelegateToSchemaOptions.t -> Result JsValue.
Variable batchDelegateToSchema : BatchDelegateOptions.t -> Result JsValue.

(** [parseSelectionSet] of @graphql-tools/utils: the selection set of the
    first definition of the parsed text. *)
Definition parseSelectionSet (selectionSet : string) : Result SelectionSetNode :=
  match parse selectionSet with
  | Ok d =>
      match definitions d with
      | OperationDefinition o :: _ => Ok (GraphQL.selectionSet o)
      | FragmentDefinition _ s :: _ => Ok s
      | [] => Throw (TypeError "Cannot read properties of undefined (reading 'selectionSet')")
      end
  | Throw e => Throw e
  end.

Definition normalizeSelectionSetParam (selectionSetParam : SelectionSetParam)
    : Result SelectionSetNode :=
  match selectionSetParam with
  | ParamString s => parseSelectionSet s
  | ParamDocument d => parseSelectionSet (print d)
  | ParamSelectionSet s => Ok s
  end.

Definition normalizeSelectionSetParamOrFactory
    (selectionSetParamOrFactory : SelectionSetParamOrFactory)
    : SelectionSetNode -> Result SelectionSetNode :=
  fun subtree =>
    match selectionSetParamOrFactory with
    | Factory f =>
        let selectionSetParam := f subtree in
        normalizeSelectionSetParam selectionSetParam
    | Param p => normalizeSelectionSetParam p
    end.

(** [options.transforms], set only under [if (selectionSet)]. *)
Definition selectionSetTransforms (fieldName : string)
    (selectionSet : option SelectionSetParamOrFactory) : option (list WrapQuery) :=
  match selectionSet with
  | Some s =>
      if truthy_selectionSet selectionSet then
        let selectionSetFactory := normalizeSelectionSetParamOrFactory s in
        let path := [fieldName] in
        let wrapQueryTransform :=
          {| wq_path := path; wq_wrapper := selectionSetFactory; wq_extractor := identical |} in
        Some [wrapQueryTransform]
      else None
  | None => None
  end.

(** [commonDelegateOptions], for the variables the closure captures in
    [getMesh] and the argument object of the call. *)
Definition commonDelegateOptions (rawSource : RawSourceOutput.t)
    (transformedSchema : GraphQLSchema) (operationType : OperationTypeNode)
    (fieldName : string) (rootTypeField : GraphQLField)
    (call : Call.t) : CommonDelegateOptions :=
  {| schema := rawSource;
     rootValue := Call.root call;
     operation := operationType;
     fieldName := fieldName;
     returnType := type rootTypeField;
     context := Call.context call;
     transformedSchema := transformedSchema;
     info := Call.info call |}.

(** [rawSourceContext[rootType.name][fieldName]] *)
Definition inContextSdkField (rawSource : RawSourceOutput.t)
    (transformedSchema : GraphQLSchema) (operationType : OperationTypeNode)
    (fieldName : string) (rootTypeField : GraphQLField)
    (call : Call.t) : Run JsValue :=
  let commonDelegateOptions :=
    commonDelegateOptions rawSource transformedSchema operationType fieldName
      rootTypeField call in
  let notBatched :=
    let options := {|
      IDelegateToSchemaOptions.common := commonDelegateOptions;
      IDelegateToSchemaOptions.args := Call.args call;
      IDelegateToSchemaOptions.transforms :=
        selectionSetTransforms fieldName (Call.selectionSet call);
    |} in
    emit (DelegateToSchema options) ;;
    result <- lift (delegateToSchema options) ;;
    match Call.valuesFromResults call with
    | Some valuesFromResults => ret (valuesFromResults result None)
    | None => ret result
    end in
  (* if (key && argsFromKeys) *)
  match Call.key call, Call.argsFromKeys call with
  | Some key, Some argsFromKeys =>
      if truthy_string (Some key) then
        let batchDelegationOptions := {|
          BatchDelegateOptions.common := commonDelegateOptions;
          BatchDelegateOptions.key := key;
          BatchDelegateOptions.argsFromKeys := argsFromKeys;
          BatchDelegateOptions.valuesFromResults := Call.valuesFromResults call;
          BatchDelegateOptions.transforms :=
            selectionSetTransforms fieldName (Call.selectionSet call);
        |} in
        emit (BatchDelegateToSchema batchDelegationOptions) ;;
        lift (batchDelegateToSchema batchDelegationOptions)
      else notBatched
  | _, _ => notBatched
  end.

End WithLibraries.

End Sdk.

(** ** [getMesh] *)
Module Runtime.

Record GetMeshOptions : Type := {
  sources : list ApiSource.t;
  merger : MergerInput -> Result UnifiedSchema;
  additionalTypeDefs : option (list DocumentNode);
  additionalResolvers : JsValue;
  transforms : list MeshTransform;
  liveQueryInvalidations : option (list LiveQueryInvalidation);
}.

(** What [getMesh] does to the world around it, in order. [LoggerError]
    carries the name of the child logger it was written to. Debug traces
    are left out. *)
Inductive Event : Type :=
| GetMeshSourceCalled (apiName : string)
| ConsoleLog (e : JsError)
| LoggerError (loggerName : string) (line : string)
| GetUnifiedSchemaCalled (input : MergerInput)
| PubSubSubscribed (topic : string).

(** The mutable locals of [getMesh] that its closures share, and the
    events so far. *)
Record State : Type := {
  rawSources : list RawSourceOutput.t;
  failed : bool;
  events : list Event;
}.

Definition initial : State := {| rawSources := []; failed := false; events := [] |}.

Abbreviation Run := (M State JsError).

Definition emit (e : Event) : Run unit :=
  modify (fun st => {| rawSources := rawSources st; failed := failed st;
                       events := (events st ++ [e])%list |}).

Definition rawSources_push (r : RawSourceOutput.t) : Run unit :=
  modify (fun st => {| rawSources := (rawSources st ++ [r])%list; failed := failed st;
                       events := events st |}).

Definition set_failed : Run unit :=
  modify (fun st => {| rawSources := rawSources st; failed := true; events := events st |}).

(** [e.message || e] inside a template string. With an empty message the
    error itself is printed: [Error.prototype.toString] gives the name of
    the error ([GraphQLMeshSdkError] inherits the name [AggregateError]),
    while a [GraphQLError] has a [toString] of its own that prints its
    message, here the empty one. *)
Definition messageOrString (e : JsError) : string :=
  match e with
  | Error m => if String.eqb m "" then "Error" else m
  | TypeError m => if String.eqb m "" then "TypeError" else m
  | GraphQLSyntaxError m => m
  | GraphQLMeshSdkError _ _ _ _ m => if String.eqb m "" then "AggregateError" else m
  end.


Definition SCHEMAS_FAILED : string :=
  "Schemas couldn't be generated successfully. Check for the logs by running Mesh with DEBUG=1 environmental variable to get more verbose output.".

(** Modelled from the spec: [groupTransforms] of @graphql-mesh/utils is not
    among the sources. It must "partition its configured transforms into
    wrap (apply during merge) and no-wrap (apply immediately to the raw
    schema)"; the pair is (wrapTransforms, noWrapTransforms). A partition
    of a list does not throw. *)
Definition groupTransforms (transforms : list MeshTransform)
    : list MeshTransform * list MeshTransform :=
  (filter (fun t => noWrap t = false) transforms,
   filter (fun t => noWrap t = true) transforms).

(** Running a list of steps in order. *)
Fixpoint forEach {A : Type} (f : A -> Run unit) (xs : list A) : Run unit :=
  match xs with
  | [] => ret tt
  | x :: rest => f x ;; forEach f rest
  end.

(** The mesh context and the context of a raw source: JavaScript objects,
    here maps from their string keys to what they hold (the two marker
    symbols are not string keys and are left out). *)
Definition Callable : Type := Sdk.Call.t -> Sdk.Run JsValue.

Inductive RawSourceContextEntry : Type :=
| TheRawSource (rawSource : RawSourceOutput.t)
| RootFields (fields : gmap string Callable).

Inductive MeshContextEntry : Type :=
| ThePubSub
| TheCache
| TheLiveQueryStore
| SourceContext (rawSourceContext : gmap string RawSourceContextEntry).

(** The object [getMesh] returns, as far as it is used here: [subscribe],
    [cache], [pubsub], [destroy], [liveQueryStore] and [contextBuilder] are
    left out. *)
Record MeshInstance : Type := {
  execute : Facade.GraphQLOperation -> JsValue -> JsValue -> JsValue -> option string
            -> Facade.Run ExecutionResult;
  schema : GraphQLSchema;
  instance_rawSources : list RawSourceOutput.t;
  sdkRequester : DocumentNode -> JsValue -> JsValue -> JsValue -> option string
                 -> Facade.Run JsValue;
  (** not a key of the returned object: the context handed to the resolver
      hooks, and the map the merger attached to the unified schema *)
  meshContext : gmap string MeshContextEntry;
  instance_sourceMap : gmap nat GraphQLSchema;
  onResolverDone : ResolverDoneEvent -> M LiveQuery.Store JsError unit;
}.

Section WithLibraries.

Variable parse : string -> Result DocumentNode.
Variable print : DocumentNode -> string.
Variable printWithCache : DocumentNode -> string.
Variable delegateToSchema : Sdk.IDelegateToSchemaOptions.t -> Result JsValue.
Variable batchDelegateToSchema : Sdk.BatchDelegateOptions.t -> Result JsValue.
Variable getInterpolatedStringFactory : string -> ResolverDataBasedFactory string.
(** [applySchemaTransforms] of @graphql-mesh/utils runs the transforms it is
    given; a transform may throw. *)
Variable applySchemaTransforms :
  GraphQLSchema -> MeshSource.t -> list MeshTransform -> Result GraphQLSchema.
Variable applyResolversHooksToSchema :
  GraphQLSchema -> gmap string MeshContextEntry -> GraphQLSchema.
Variable jitExecutorFactory :
  GraphQLSchema -> string -> Facade.ExecutionArgs -> Result ExecutionResult.
Variable makeExecute :
  (Facade.ExecutionArgs -> Result ExecutionResult) ->
  Facade.ExecutionArgs -> Result ExecutionResult.

(** The body of [options.sources.map(async apiSource => ...)] up to its
    [await]: it runs at once, for every source in turn. *)
Definition callHandler (apiSource : ApiSource.t) : Run unit :=
  emit (GetMeshSourceCalled (ApiSource.name apiSource)).

(** [apiSchema] when the push is reached, for a source whose handler
    resolved to [source]: the schema of the source, through
    [applySchemaTransforms] when there are bare transforms. *)
Definition apiSchemaFor (apiSource : ApiSource.t) (source : MeshSource.t)
    : Result GraphQLSchema :=
  let apiSchema := MeshSource.schema source in
  let '(wrapTransforms, noWrapTransforms) := groupTransforms (ApiSource.transforms apiSource) in
  if bool_decide (length noWrapTransforms ≠ 0)
  then applySchemaTransforms apiSchema source noWrapTransforms
  else Ok apiSchema.

(** The object pushed to [rawSources], with [apiSchema] as its schema. *)
Definition rawSourceFor (apiSource : ApiSource.t) (source : MeshSource.t)
    (apiSchema : GraphQLSchema) : RawSourceOutput.t :=
  let apiName := ApiSource.name apiSource in
  let '(wrapTransforms, noWrapTransforms) := groupTransforms (ApiSource.transforms apiSource) in
  {| RawSourceOutput.name := apiName;
     RawSourceOutput.schema := apiSchema;
     RawSourceOutput.executor := MeshSource.executor source;
     RawSourceOutput.transforms := wrapTransforms;
     RawSourceOutput.contextVariables := default [] (MeshSource.contextVariables source);
     RawSourceOutput.handler := ApiSource.handler apiSource;
     (* 'batch' in source ? source.batch : true *)
     RawSourceOutput.batch :=
       match MeshSource.batch source with
       | Some batch => batch
       | None => Some true
       end;
     RawSourceOutput.merge := ApiSource.merge apiSource |}.

(** The rest of that body, run when the promise of [getMeshSource()] has
    settled. The [try] block holds the [await], the bare transforms and the
    push: whatever is thrown there is caught, logged and marks the whole
    construction as failed. *)
Definition afterHandler (apiSource : ApiSource.t) : Run unit :=
  let apiName := ApiSource.name apiSource in
  try_catch
    (source <- lift (getMeshSource (ApiSource.handler apiSource)) ;;
     apiSchema <- lift (apiSchemaFor apiSource source) ;;
     rawSources_push (rawSourceFor apiSource source apiSchema))
    (fun e =>
       emit (ConsoleLog e) ;;
       emit (LoggerError apiName ("Failed to generate schema: " +:+ messageOrString e)) ;;
       set_failed).

(** [await Promise.allSettled(options.sources.map(...))]. [settled] lists
    the sources in the order in which their promises settle. *)
Definition collectSources (sources settled : list ApiSource.t) : Run unit :=
  forEach callHandler sources ;;
  forEach afterHandler settled.

(** What the [try] block comes to for one source: the raw source it
    pushes, or what it throws, be it the rejection of the handler or the
    error of a bare transform. *)
Definition settle (apiSource : ApiSource.t) : Result RawSourceOutput.t :=
  match getMeshSource (ApiSource.handler apiSource) with
  | Ok source =>
      match apiSchemaFor apiSource source with
      | Ok apiSchema => Ok (rawSourceFor apiSource source apiSchema)
      | Throw e => Throw e
      end
  | Throw e => Throw e
  end.

(** What one settled source contributes: the raw source it pushes, the
    lines it logs, and whether it sets [failed]. *)
Definition pushedBy (apiSource : ApiSource.t) : option RawSourceOutput.t :=
  match settle apiSource with
  | Ok rawSource => Some rawSource
  | Throw _ => None
  end.

Definition loggedBy (apiSource : ApiSource.t) : list Event :=
  match settle apiSource with
  | Ok _ => []
  | Throw e =>
      [ConsoleLog e;
       LoggerError (ApiSource.name apiSource)
         ("Failed to generate schema: " +:+ messageOrString e)]
  end.

Definition rejected (apiSource : ApiSource.t) : bool :=
  match settle apiSource with
  | Ok _ => false
  | Throw _ => true
  end.

(** [rootTypes], in the key order of the object literal. *)
Definition rootTypes (transformedSchema : GraphQLSchema)
    : list (OperationTypeNode * option GraphQLObjectType) :=
  [ (query, getQueryType transformedSchema);
    (mutation, getMutationType transformedSchema);
    (subscription, getSubscriptionType transformedSchema) ].

(** [rawSourceContext] after the two nested [for ... in] loops. *)
Definition inContextSdk (rawSource : RawSourceOutput.t)
    (transformedSchema : GraphQLSchema) : gmap string RawSourceContextEntry :=
  foldl
    (fun rawSourceContext '(operationType, rootType) =>
       match rootType with
       | Some rootType =>
           let rootTypeFieldMap := getFields rootType in
           <[typeName rootType :=
               RootFields
                 (foldl
                    (fun fields '(fieldName, rootTypeField) =>
                       <[fieldName :=
                           Sdk.inContextSdkField parse print delegateToSchema
                             batchDelegateToSchema rawSource transformedSchema
                             operationType fieldName rootTypeField]> fields)
                    ∅ rootTypeFieldMap)]> rawSourceContext
       | None => rawSourceContext
       end)
    {[ "rawSource" := TheRawSource rawSource ]}
    (rootTypes transformedSchema).

(** [await Promise.all(rawSources.map(async rawSource => ...))]: the
    bodies have no [await], so they run in array order; [index] is the
    position of [rawSource] in the array, its key in [sourceMap]. The first
    body that throws decides the rejection. *)
Fixpoint attachInContextSdk (sourceMap : gmap nat GraphQLSchema) (index : nat)
    (rawSources : list RawSourceOutput.t)
    (meshContext : gmap string MeshContextEntry)
    : Result (gmap string MeshContextEntry) :=
  match rawSources with
  | [] => Ok meshContext
  | rawSource :: rest =>
      match sourceMap !! index with
      | None =>
          Throw (TypeError "Cannot read properties of undefined (reading 'getQueryType')")
      | Some transformedSchema =>
          attachInContextSdk sourceMap (S index) rest
            (<[RawSourceOutput.name rawSource :=
                 SourceContext (inContextSdk rawSource transformedSchema)]> meshContext)
      end
  end.

Definition getMesh (options : GetMeshOptions) (settled : list ApiSource.t)
    : Run MeshInstance :=
  collectSources (sources options) settled ;;
  st <- get ;;
  if failed st then throw (Error SCHEMAS_FAILED)
  else
    let rawSources := rawSources st in
    let input := {|
      mi_rawSources := rawSources;
      mi_typeDefs := additionalTypeDefs options;
      mi_resolvers := additionalResolvers options;
      mi_transforms := transforms options;
    |} in
    emit (GetUnifiedSchemaCalled input) ;;
    unifiedSchema <- lift (merger options input) ;;
    let factoryMap :=
      LiveQuery.liveQueryInvalidationFactoryMap getInterpolatedStringFactory
        (liveQueryInvalidations options) in
    emit (PubSubSubscribed "resolverDone") ;;
    let meshContext : gmap string MeshContextEntry :=
      <["liveQueryStore" := TheLiveQueryStore]>
        (<["cache" := TheCache]> (<["pubsub" := ThePubSub]> ∅)) in
    let sourceMap := sourceMap unifiedSchema in
    meshContext <- lift (attachInContextSdk sourceMap 0 rawSources meshContext) ;;
    let unifiedSchema := applyResolversHooksToSchema (unified unifiedSchema) meshContext in
    let jitExecutor := jitExecutorFactory unifiedSchema "unified" in
    let liveQueryExecute := makeExecute (fun executionArgs => jitExecutor executionArgs) in
    ret {|
      execute := Facade.meshExecute parse print unifiedSchema liveQueryExecute;
      schema := unifiedSchema;
      instance_rawSources := rawSources;
      sdkRequester :=
        Facade.localRequester parse print printWithCache unifiedSchema liveQueryExecute;
      meshContext := meshContext;
      instance_sourceMap := sourceMap;
      onResolverDone := LiveQuery.resolverDoneSubscriber factoryMap;
    |}.

End WithLibraries.

(** Modelled from the spec: the Schema Merger ([options.merger], one of the
    merger packages) is not among the sources. It "consumes the raw source
    list plus extra type definitions/resolvers and produces one unified
    schema plus a map from each raw source to its corresponding transformed
    sub-schema view", with the invariant that "every RawSource in the
    registry has exactly one entry". How the unified schema and each
    sub-schema view are computed is left to [unify] and [transformedView]. *)
Definition specMerger (unify : MergerInput -> GraphQLSchema)
    (transformedView : RawSourceOutput.t -> GraphQLSchema)
    (input : MergerInput) : Result UnifiedSchema :=
  Ok {| unified := unify input;
        sourceMap := map_seq 0 (transformedView <$> mi_rawSources input) |}.

End Runtime.

(** ** The Neo4J handler (packages/handlers/neo4j/src/index.ts) *)
Module Neo4J.

(** [YamlConfig.Neo4JHandler] *)
Record Config : Type := {
  url : string;
  username : string;
  password : string;
  alwaysIncludeRelationships : option bool;
  database : option string;
  cacheIntrospection : option bool;
}.

(** [neo4j.auth.basic(username, password)] *)
Record AuthToken : Type := {
  scheme : string;
  principal : string;
  credentials : string;
}.

Definition auth_basic (username password : string) : AuthToken :=
  {| scheme := "basic"; principal := username; credentials := password |}.

(** A driver object: [driverId] is its identity, the number of drivers
    opened before it. *)
Record Driver : Type := {
  driverId : nat;
  driverUrl : string;
  driverAuth : AuthToken;
}.

(** The listeners the handler hands to the pubsub. *)
Inductive Listener : Type :=
| CloseThisDriver.   (* () => this.driver.close() *)

(** The handler instance with the collaborators it was constructed with. *)
Record World : Type := {
  driver : option Driver;                      (* this.driver *)
  opened : list Driver;                        (* every driver neo4j.driver returned *)
  subscriptions : list (string * Listener);    (* this.pubsub *)
  cache : gmap string string;                  (* this.cache *)
}.

Abbreviation Run := (M World JsError).

(** The world right after [new Neo4JHandler({ name, cache, config, pubsub })]:
    the constructor only stores its arguments. *)
Definition constructed (cache : gmap string string)
    (subscriptions : list (string * Listener)) : World :=
  {| driver := None; opened := []; subscriptions := subscriptions; cache := cache |}.

Definition neo4j_driver (url : string) (auth : AuthToken) : Run Driver :=
  fun w =>
    let d := {| driverId := length (opened w); driverUrl := url; driverAuth := auth |} in
    (Ok d, {| driver := driver w; opened := (opened w ++ [d])%list;
              subscriptions := subscriptions w; cache := cache w |}).

Definition set_driver (d : Driver) : Run unit :=
  modify (fun w => {| driver := Some d; opened := opened w;
                      subscriptions := subscriptions w; cache := cache w |}).

Definition pubsub_subscribe (topic : string) (listener : Listener) : Run unit :=
  modify (fun w => {| driver := driver w; opened := opened w;
                      subscriptions := (subscriptions w ++ [(topic, listener)])%list;
                      cache := cache w |}).

Definition cache_get (key : string) : Run (option string) :=
  fun w => (Ok (cache w !! key), w).

Definition cache_set (key value : string) : Run unit :=
  modify (fun w => {| driver := driver w; opened := opened w;
                      subscriptions := subscriptions w;
                      cache := <[key := value]> (cache w) |}).

Section Handler.

Variable name : string.
Variable config : Config.

(** neo4j-graphql-js *)
Variable inferSchema : Driver -> option bool -> Result string.
Variable makeAugmentedSchema : string -> Result GraphQLSchema.

Definition getDriver : Run Driver :=
  w <- get ;;
  match driver w with
  | Some d => ret d
  | None =>
      d <- neo4j_driver (url config) (auth_basic (username config) (password config)) ;;
      set_driver d ;;
      pubsub_subscribe "destroy" CloseThisDriver ;;
      ret d
  end.

(** The closure returned under the key [contextBuilder]. *)
Definition contextBuilder : Run (Driver * option string) :=
  d <- getDriver ;;
  ret (d, database config).

Definition getMeshSource : Run MeshSource.t :=
  let cacheKey := name +:+ "_introspection" in
  cached <-
    (if truthy_bool (cacheIntrospection config) then cache_get cacheKey else ret None) ;;
  typeDefs <-
    (if negb (truthy_string cached) then
       d <- getDriver ;;
       typeDefs <- lift (inferSchema d (alwaysIncludeRelationships config)) ;;
       (if truthy_bool (cacheIntrospection config)
        then cache_set cacheKey typeDefs else ret tt) ;;
       ret typeDefs
     else ret (default "" cached)) ;;
  schema <- lift (makeAugmentedSchema typeDefs) ;;
  ret {| MeshSource.schema := schema;
         MeshSource.executor := None;
         MeshSource.contextVariables := None;
         MeshSource.batch := None;
         MeshSource.contextBuilder := Some (ContextBuilderHandle 0) |}.

(** [n] calls of [getDriver] in a row, with what each returned. *)
Fixpoint getDriver_times (n : nat) : Run (list Driver) :=
  match n with
  | O => ret []
  | S n' =>
      d <- getDriver ;;
      ds <- getDriver_times n' ;;
      ret (d :: ds)
  end.

End Handler.

(** What the first [getDriver] call returns and leaves behind. *)
Definition afterFirstCall (config : Config) (w : World) : Driver * World :=
  let d := {| driverId := length (opened w); driverUrl := url config;
              driverAuth := auth_basic (username config) (password config) |} in
  (d, {| driver := Some d;
         opened := (opened w ++ [d])%list;
         subscriptions := (subscriptions w ++ [("destroy", CloseThisDriver)])%list;
         cache := cache w |}).

(** The handler holds at most one driver: either none was opened and the
    pubsub is as the handler found it, or the one that was opened is the
    stored one and a single [destroy] listener was added. *)
Definition holdsOneDriverAtMost (subs : list (string * Listener)) (w : World) : Prop :=
  match driver w with
  | None => opened w = [] /\ subscriptions w = subs
  | Some d =>
      opened w = [d] /\
      subscriptions w = (subs ++ [("destroy", CloseThisDriver)])%list
  end.

(** How many listeners a topic has. *)
Definition listeners (topic : string) (w : World) : nat :=
  length (filter (fun s => s.1 = topic) (subscriptions w)).

End Neo4J.


(** ** Concrete inputs used to run the definitions *)
Module Samples.

Definition movieType : GraphQLObjectType :=
  {| typeName := "Query"; getFields := [("Movie", {| type := "[Movie]" |})] |}.

Definition movieSchema : GraphQLSchema :=
  {| getQueryType := Some movieType; getMutationType := None; getSubscriptionType := None |}.

Definition neo4jConfig : Neo4J.Config :=
  {| Neo4J.url := "bolt://localhost:7687";
     Neo4J.username := "neo4j";
     Neo4J.password := "secret";
     Neo4J.alwaysIncludeRelationships := None;
     Neo4J.database := None;
     Neo4J.cacheIntrospection := Some true |}.

Definition inferMovies (d : Neo4J.Driver) (alwaysIncludeRelationships : option bool)
    : Result string :=
  Ok "type Movie { title: String }".

Definition augmentMovies (typeDefs : string) : Result GraphQLSchema := Ok movieSchema.

Definition freshNeo4J : Neo4J.World := Neo4J.constructed ∅ [].

(** [obj[key]] on a value. *)
Definition property (key : string) (v : JsValue) : JsValue :=
  match v with
  | JObj fields =>
      match find (fun kv => String.eqb kv.1 key) fields with
      | Some kv => kv.2
      | None => JUndefined
      end
  | _ => JUndefined
  end.

(** A stand-in for [getInterpolatedStringFactory] that knows the one
    placeholder [{args.id}] of the template [id:{args.id}]. *)
Definition interpolateArgsId (template : string) : ResolverDataBasedFactory string :=
  fun resolverData =>
    if String.eqb template "id:{args.id}" then
      match property "id" (Interpolation.args resolverData) with
      | JStr id => "id:" +:+ id
      | _ => "id:"
      end
    else template.

Definition todoInvalidations : option (list LiveQueryInvalidation) :=
  Some [ {| field := "Query.todo"; invalidate := ["id:{args.id}"] |} ].

Definition queryType : GraphQLObjectType :=
  {| typeName := "Query"; getFields := [("todo", {| type := "Todo" |})] |}.

Definition todoInfo : GraphQLResolveInfo :=
  {| Mesh.fieldName := Some "todo"; parentType := Some queryType |}.

Definition todoResolverData : ResolverData :=
  {| root := JUndefined; args := JObj [("id", JStr "42")]; context := JObj [];
     info := Some todoInfo |}.

Definition todoResolved : ResolverDoneEvent :=
  {| result := JObj [("id", JStr "42"); ("done", JBool true)];
     resolverData := Some todoResolverData |}.


(** A table parser: two spellings of the selection [id name], printed in
    the second spelling. It stands in for graphql's [parse] and [print]. *)
Definition idNameDocument : DocumentNode :=
  {| definitions :=
       [OperationDefinition
          {| operation := query; name := None;
             selectionSet := [FieldNode "id" []; FieldNode "name" []] |}] |}.

Definition parseIdName (text : string) : Result DocumentNode :=
  if String.eqb text "{id name}" then Ok idNameDocument
  else if String.eqb text "{ id name }" then Ok idNameDocument
  else Throw (GraphQLSyntaxError "Syntax Error").

Definition printIdName (d : DocumentNode) : string := "{ id name }".

Definition todoHandler : MeshHandler :=
  {| handlerId := 0;
     getMeshSource :=
       Ok {| MeshSource.schema :=
               {| getQueryType := Some queryType; getMutationType := None;
                  getSubscriptionType := None |};
             MeshSource.executor := Some (ExecutorHandle 0);
             MeshSource.contextVariables := None;
             MeshSource.batch := None;
             MeshSource.contextBuilder := None |} |}.

Definition todoSchema : GraphQLSchema :=
  {| getQueryType := Some queryType; getMutationType := None;
     getSubscriptionType := None |}.

Definition todoRawSource : RawSourceOutput.t :=
  {| RawSourceOutput.name := "Todos";
     RawSourceOutput.schema := todoSchema;
     RawSourceOutput.executor := Some (ExecutorHandle 0);
     RawSourceOutput.transforms := [];
     RawSourceOutput.contextVariables := [];
     RawSourceOutput.handler := todoHandler;
     RawSourceOutput.batch := Some true;
     RawSourceOutput.merge := None |}.

(** [argsFromKeys: ids => ({ ids })] *)
Definition idsFromKeys (keys : list string) : JsValue :=
  JObj [("ids", JArr (map JStr keys))].

(** Delegation stand-ins that answer with a fixed value. *)
Definition delegateAnswer (options : Sdk.IDelegateToSchemaOptions.t) : Result JsValue :=
  Ok (JObj [("id", JStr "42")]).

Definition batchAnswer (options : Sdk.BatchDelegateOptions.t) : Result JsValue :=
  Ok (JObj [("id", JStr "batched")]).

(** A call that supplies [key] and [argsFromKeys]. *)
Definition keyedCall (key : string) : Sdk.Call.t :=
  {| Sdk.Call.root := JUndefined;
     Sdk.Call.args := JObj [("id", JStr "42")];
     Sdk.Call.context := JObj [];
     Sdk.Call.info := None;
     Sdk.Call.selectionSet := None;
     Sdk.Call.key := Some key;
     Sdk.Call.argsFromKeys := Some idsFromKeys;
     Sdk.Call.valuesFromResults := None |}.

Definition todoField (call : Sdk.Call.t) : Sdk.Run JsValue :=
  Sdk.inContextSdkField parseIdName printIdName delegateAnswer batchAnswer
    todoRawSource todoSchema query "todo" {| type := "Todo" |} call.


(** Documents and executors for the facade. *)
Definition getTodo : OperationDefinitionNode :=
  {| operation := query; name := Some "GetTodo";
     selectionSet := [FieldNode "todo" [FieldNode "id" []]] |}.

Definition listTodos : OperationDefinitionNode :=
  {| operation := query; name := Some "ListTodos";
     selectionSet := [FieldNode "todos" [FieldNode "id" []]] |}.

Definition oneOperation : DocumentNode :=
  {| definitions := [OperationDefinition getTodo] |}.

Definition twoOperations : DocumentNode :=
  {| definitions := [OperationDefinition getTodo; OperationDefinition listTodos] |}.

Definition parseGetTodo (text : string) : Result DocumentNode :=
  if String.eqb text "query GetTodo { todo { id } }" then Ok oneOperation
  else Throw (GraphQLSyntaxError "Syntax Error").

Definition printAny (d : DocumentNode) : string := "query GetTodo { todo { id } }".

Definition notFound : GraphQLError := {| message := "Todo not found" |}.

(** An executor that answers [{ data: { foo: 1 }, errors: undefined }]. *)
Definition executeFine (executionArgs : Facade.ExecutionArgs) : Result ExecutionResult :=
  Ok {| data := Some (JObj [("foo", JNum 1)]); errors := Some None |}.

(** An executor that answers [{ data: null, errors: [notFound] }]. *)
Definition executeFailing (executionArgs : Facade.ExecutionArgs) : Result ExecutionResult :=
  Ok {| data := Some JNull; errors := Some (Some [notFound]) |}.

(** An executor that answers [{}]. *)
Definition executeEmpty (executionArgs : Facade.ExecutionArgs) : Result ExecutionResult :=
  Ok {| data := None; errors := None |}.


(** A mesh of two sources, with library stand-ins that change nothing. *)
Definition moviesHandler : MeshHandler :=
  {| handlerId := 1;
     getMeshSource :=
       Ok {| MeshSource.schema := movieSchema;
             MeshSource.executor := None;
             MeshSource.contextVariables := None;
             MeshSource.batch := Some (Some false);
             MeshSource.contextBuilder := Some (ContextBuilderHandle 0) |} |}.


Definition todosSource : ApiSource.t :=
  {| ApiSource.name := "Todos"; ApiSource.handler := todoHandler;
     ApiSource.transforms := []; ApiSource.merge := None |}.

Definition moviesSource : ApiSource.t :=
  {| ApiSource.name := "Movies"; ApiSource.handler := moviesHandler;
     ApiSource.transforms := [{| transformName := "prefix"; noWrap := false |}];
     ApiSource.merge := None |}.


Definition keepSchema (s : GraphQLSchema) (source : MeshSource.t)
    (transforms : list MeshTransform) : Result GraphQLSchema := Ok s.

Definition keepHooks (s : GraphQLSchema) (meshContext : gmap string Runtime.MeshContextEntry)
    : GraphQLSchema := s.

Definition jitFine (s : GraphQLSchema) (name : string) := executeFine.

Definition sameExecute (f : Facade.ExecutionArgs -> Result ExecutionResult) := f.

Definition optionsFor (sources : list ApiSource.t) : Runtime.GetMeshOptions :=
  {| Runtime.sources := sources;
     Runtime.merger :=
       Runtime.specMerger (fun _ => todoSchema) RawSourceOutput.schema;
     Runtime.additionalTypeDefs := None;
     Runtime.additionalResolvers := JUndefined;
     Runtime.transforms := [];
     Runtime.liveQueryInvalidations := todoInvalidations |}.

Definition getMeshFor (sources settled : list ApiSource.t) :=
  Runtime.getMesh parseIdName printIdName printIdName delegateAnswer batchAnswer
    interpolateArgsId keepSchema keepHooks jitFine sameExecute
    (optionsFor sources) settled Runtime.initial.

End Samples.

(** ** The rest of the surface of [getMesh]: [meshSubscribe], the function
    handed to the live query store, [contextBuilder] *)
Module Surface.

(** The argument object of the JIT executor. *)
Record JitExecutorArgs : Type := {
  document : DocumentNode;
  context : JsValue;
  variables : JsValue;
  operationName : option string;
  rootValue : JsValue;
}.

(** The destructuring of the function given to [liveQueryStore.makeExecute]:
    [({ document, contextValue: context, variableValues: variables,
        rootValue, operationName })]. *)
Definition toJitExecutorArgs (executionArgs : Facade.ExecutionArgs) : JitExecutorArgs :=
  {| document := Facade.document executionArgs;
     context := Facade.contextValue executionArgs;
     variables := Facade.variableValues executionArgs;
     operationName := Facade.operationName executionArgs;
     rootValue := Facade.rootValue executionArgs |}.

Inductive Effect : Type :=
| JitExecute (args : JitExecutorArgs).

Abbreviation Run := (M (list Effect) JsError).

Definition emit (e : Effect) : Run unit := modify (fun trace => (trace ++ [e])%list).

Section WithEnvironment.

Variable parse : string -> Result DocumentNode.
Variable print : DocumentNode -> string.
Variable jitExecutor : JitExecutorArgs -> Result ExecutionResult.

(** The function given to [liveQueryStore.makeExecute]. *)
Definition liveQueryExecutor (executionArgs : Facade.ExecutionArgs) : Run ExecutionResult :=
  let args := toJitExecutorArgs executionArgs in
  emit (JitExecute args) ;;
  lift (jitExecutor args).

Definition meshSubscribe (documentOrSDL : Facade.GraphQLOperation)
    (variables context rootValue : JsValue)
    (operationName : option string) : Run ExecutionResult :=
  let variables := Facade.orDefault variables Facade.EMPTY_VARIABLES_VALUE in
  let context := Facade.orDefault context Facade.EMPTY_CONTEXT_VALUE in
  let rootValue := Facade.orDefault rootValue Facade.EMPTY_ROOT_VALUE in
  '(document, sdl) <- lift (Facade.getDocumentNodeAndSDL parse print documentOrSDL) ;;
  operationName <-
    (if negb (truthy_string operationName) then
       match getOperationAST document None with
       | Some operationAst => ret (name operationAst)
       | None => throw (TypeError "Cannot read properties of null (reading 'name')")
       end
     else ret operationName) ;;
  let args := {|
    document := document;
    context := context;
    rootValue := rootValue;
    variables := variables;
    operationName := operationName;
  |} in
  emit (JitExecute args) ;;
  lift (jitExecutor args).

End WithEnvironment.

(** How a call of [meshExecute] or [meshSubscribe] gets to its executor:
    not at all, because it throws first, or with the parsed document and an
    operation name. *)
Inductive Way : Type :=
| Stops (e : JsError)
| Runs (executionParams : Facade.ExecutionArgs).

(** [contextBuilder: async ctx => ctx || {}] *)
Definition contextBuilder (ctx : JsValue) : JsValue :=
  if truthy ctx then ctx else JObj [].

End Surface.

(** ** Using a Neo4J handler: its three methods in any order, and teardown *)
Module Neo4JUse.
Import Neo4J.

Inductive Method : Type :=
| GetDriver
| GetMeshSource
| ContextBuilder.

Section Handler.

Variable name : string.
Variable config : Config.
Variable inferSchema : Driver -> option bool -> Result string.
Variable makeAugmentedSchema : string -> Result GraphQLSchema.

(** The world after one method call, whatever it returned or threw. *)
Definition after (w : World) (m : Method) : World :=
  match m with
  | GetDriver => (getDriver config w).2
  | GetMeshSource => (getMeshSource name config inferSchema makeAugmentedSchema w).2
  | ContextBuilder => (contextBuilder config w).2
  end.

Definition afterAll (methods : list Method) (w : World) : World :=
  foldl after w methods.

End Handler.

(** The key under which the handler caches the inferred type definitions. *)
Definition cacheKey (name : string) : string := name +:+ "_introspection".

(** The handler with the drivers that were closed, oldest first. *)
Record Process : Type := {
  world : World;
  closed : list Driver;
}.

(** A listener being called: [() => this.driver.close()]. *)
Definition runListener (l : Listener) : M Process JsError unit :=
  fun p =>
    match l with
    | CloseThisDriver =>
        match driver (world p) with
        | Some d => (Ok tt, {| world := world p; closed := (closed p ++ [d])%list |})
        | None =>
            (Throw (TypeError "Cannot read properties of undefined (reading 'close')"), p)
        end
    end.

(** Modelled from the spec: the pubsub is not among the sources. Its
    "publish(eventName, payload) -> void" calls, in subscription order, the
    listeners subscribed under that event name. *)
Fixpoint deliver (topic : string) (subs : list (string * Listener)) : M Process JsError unit :=
  match subs with
  | [] => ret tt
  | (t, l) :: rest =>
      (if String.eqb t topic then runListener l else ret tt) ;;
      deliver topic rest
  end.

Definition pubsub_publish (topic : string) : M Process JsError unit :=
  fun p => deliver topic (subscriptions (world p)) p.

(** [destroy: () => pubsub.publish('destroy', undefined)] of the mesh
    instance. *)
Definition destroy : M Process JsError unit := pubsub_publish "destroy".

End Neo4JUse.

(** ** Calls of a generated field callable *)
Module SdkUse.

(** [{ ...call, selectionSet }] *)
Definition withSelectionSet (call : Sdk.Call.t)
    (selectionSet : option Sdk.SelectionSetParamOrFactory) : Sdk.Call.t :=
  {| Sdk.Call.root := Sdk.Call.root call;
     Sdk.Call.args := Sdk.Call.args call;
     Sdk.Call.context := Sdk.Call.context call;
     Sdk.Call.info := Sdk.Call.info call;
     Sdk.Call.selectionSet := selectionSet;
     Sdk.Call.key := Sdk.Call.key call;
     Sdk.Call.argsFromKeys := Sdk.Call.argsFromKeys call;
     Sdk.Call.valuesFromResults := Sdk.Call.valuesFromResults call |}.

End SdkUse.

(** ** More concrete inputs *)
Module MoreSamples.

Definition neo4jUncached : Neo4J.Config :=
  {| Neo4J.url := "bolt://localhost:7687";
     Neo4J.username := "neo4j";
     Neo4J.password := "secret";
     Neo4J.alwaysIncludeRelationships := Some true;
     Neo4J.database := Some "movies";
     Neo4J.cacheIntrospection := None |}.

Definition inferUnreachable (d : Neo4J.Driver) (alwaysIncludeRelationships : option bool)
    : Result string :=
  Throw (Error "ServiceUnavailable").

Definition augmentNothing (typeDefs : string) : Result GraphQLSchema :=
  Throw (GraphQLSyntaxError "Syntax Error: Unexpected Name").


(** A source that bears the name of a key of the mesh context. *)
Definition cacheNamedSource : ApiSource.t :=
  {| ApiSource.name := "cache"; ApiSource.handler := Samples.moviesHandler;
     ApiSource.transforms := []; ApiSource.merge := None |}.


(** A merger that rejects, and one whose map only covers the first raw
    source. *)
Definition conflictingMerger (input : MergerInput) : Result UnifiedSchema :=
  Throw (Error "Unable to merge GraphQL type").

Definition forgetfulMerger (input : MergerInput) : Result UnifiedSchema :=
  Ok {| unified := Samples.todoSchema; sourceMap := {[ 0 := Samples.todoSchema ]} |}.

Definition optionsWith (merger : MergerInput -> Result UnifiedSchema)
    (sources : list ApiSource.t) : Runtime.GetMeshOptions :=
  {| Runtime.sources := sources;
     Runtime.merger := merger;
     Runtime.additionalTypeDefs := None;
     Runtime.additionalResolvers := JUndefined;
     Runtime.transforms := [];
     Runtime.liveQueryInvalidations := Samples.todoInvalidations |}.

Definition getMeshWith (merger : MergerInput -> Result UnifiedSchema)
    (sources settled : list ApiSource.t) :=
  Runtime.getMesh Samples.parseIdName Samples.printIdName Samples.printIdName
    Samples.delegateAnswer Samples.batchAnswer Samples.interpolateArgsId
    Samples.keepSchema Samples.keepHooks Samples.jitFine Samples.sameExecute
    (optionsWith merger sources) settled Runtime.initial.


(** A stand-in for [applySchemaTransforms] that knows two bare transforms:
    [prefix], which gives the prefixed schema, and [rename], which throws. *)
Definition prefixedSchema : GraphQLSchema :=
  {| getQueryType :=
       Some {| typeName := "Query"; getFields := [("Todos_todo", {| type := "Todo" |})] |};
     getMutationType := None; getSubscriptionType := None |}.

Definition renameFails (s : GraphQLSchema) (source : MeshSource.t)
    (transforms : list MeshTransform) : Result GraphQLSchema :=
  if existsb (fun t => String.eqb (transformName t) "rename") transforms
  then Throw (Error "Cannot rename type Query")
  else if existsb (fun t => String.eqb (transformName t) "prefix") transforms
  then Ok prefixedSchema
  else Ok s.

(** A healthy handler behind a bare transform that applies, and behind one
    that throws. *)
Definition prefixedSource : ApiSource.t :=
  {| ApiSource.name := "Prefixed"; ApiSource.handler := Samples.todoHandler;
     ApiSource.transforms := [{| transformName := "prefix"; noWrap := true |}];
     ApiSource.merge := None |}.

Definition renamedSource : ApiSource.t :=
  {| ApiSource.name := "Renamed"; ApiSource.handler := Samples.todoHandler;
     ApiSource.transforms := [{| transformName := "rename"; noWrap := true |}];
     ApiSource.merge := None |}.


Definition getMeshRenaming (sources settled : list ApiSource.t) :=
  Runtime.getMesh Samples.parseIdName Samples.printIdName Samples.printIdName
    Samples.delegateAnswer Samples.batchAnswer Samples.interpolateArgsId
    renameFails Samples.keepHooks Samples.jitFine Samples.sameExecute
    (Samples.optionsFor sources) settled Runtime.initial.


(** A stand-in for [getInterpolatedStringFactory] that knows the
    placeholders [{args.id}] and [{result.id}]. *)
Definition interpolateIds (template : string) : ResolverDataBasedFactory string :=
  fun resolverData =>
    if String.eqb template "id:{args.id}" then
      match Samples.property "id" (Interpolation.args resolverData) with
      | JStr id => "id:" +:+ id
      | _ => "id:"
      end
    else if String.eqb template "Todo:{result.id}" then
      match Samples.property "id" (Interpolation.result resolverData) with
      | JStr id => "Todo:" +:+ id
      | _ => "Todo:"
      end
    else template.

(** [Mutation.addTodo] resolved with [args.id = "42"] to the todo [7]. *)
Definition mutationType : GraphQLObjectType :=
  {| typeName := "Mutation"; getFields := [("addTodo", {| type := "Todo" |})] |}.

Definition addTodoInfo : GraphQLResolveInfo :=
  {| Mesh.fieldName := Some "addTodo"; parentType := Some mutationType |}.

Definition addTodoResolverData : ResolverData :=
  {| root := JUndefined; args := JObj [("id", JStr "42")]; context := JObj [];
     info := Some addTodoInfo |}.

Definition addTodoResolved : ResolverDoneEvent :=
  {| result := JObj [("id", JStr "7"); ("done", JBool false)];
     resolverData := Some addTodoResolverData |}.

Definition addTodoRule : LiveQueryInvalidation :=
  {| field := "Mutation.addTodo"; invalidate := ["id:{args.id}"; "Todo:{result.id}"] |}.

Definition optionsInvalidating (sources : list ApiSource.t) : Runtime.GetMeshOptions :=
  {| Runtime.sources := sources;
     Runtime.merger :=
       Runtime.specMerger (fun _ => Samples.todoSchema) RawSourceOutput.schema;
     Runtime.additionalTypeDefs := None;
     Runtime.additionalResolvers := JUndefined;
     Runtime.transforms := [];
     Runtime.liveQueryInvalidations := Some [addTodoRule] |}.

Definition getMeshInvalidating (sources settled : list ApiSource.t) :=
  Runtime.getMesh Samples.parseIdName Samples.printIdName Samples.printIdName
    Samples.delegateAnswer Samples.batchAnswer interpolateIds
    Samples.keepSchema Samples.keepHooks Samples.jitFine Samples.sameExecute
    (optionsInvalidating sources) settled Runtime.initial.

(** An event whose field name is present and empty, and a rule under the
    path that such an event would have. *)
Definition namelessInfo : GraphQLResolveInfo :=
  {| Mesh.fieldName := Some ""; parentType := Some Samples.queryType |}.

Definition namelessResolved : ResolverDoneEvent :=
  {| result := JNull;
     resolverData :=
       Some {| root := JUndefined; args := JObj []; context := JObj [];
               info := Some namelessInfo |} |}.

Definition namelessRule : LiveQueryInvalidation :=
  {| field := "Query."; invalidate := ["Query.todos"] |}.


(** Two rules for the same field. *)
Definition repeatedInvalidations : list LiveQueryInvalidation :=
  [ {| field := "Query.todo"; invalidate := ["Query.todos"; "Query.stats"] |};
    {| field := "Query.todo"; invalidate := ["id:{args.id}"] |} ].


(** An executor that rejects, and one that answers
    [{ data: { foo: 1 }, errors: [] }]. *)
Definition executeRejecting (executionArgs : Facade.ExecutionArgs) : Result ExecutionResult :=
  Throw (Error "socket hang up").

Definition executeEmptyErrors (executionArgs : Facade.ExecutionArgs)
    : Result ExecutionResult :=
  Ok {| data := Some (JObj [("foo", JNum 1)]); errors := Some (Some []) |}.

(** An executor that answers [{ data: null }]. *)
Definition executeNull (executionArgs : Facade.ExecutionArgs) : Result ExecutionResult :=
  Ok {| data := Some JNull; errors := None |}.

End MoreSamples.
(** * Properties *)

Ltac unfold_monad :=
  unfold bind, ret, throw, get, modify, lift, try_catch in *.

(** ** The Neo4J handler *)
Module Neo4JFacts.
Import Neo4J.

Lemma getDriver_first config w :
  driver w = None ->
  getDriver config w = (Ok (afterFirstCall config w).1, (afterFirstCall config w).2).
Proof.
  intros Hnone. unfold getDriver, neo4j_driver, set_driver, pubsub_subscribe.
  unfold_monad. rewrite Hnone. reflexivity.
Qed.

Lemma getDriver_later config w d :
  driver w = Some d -> getDriver config w = (Ok d, w).
Proof.
  intros Hsome. unfold getDriver. unfold_monad. rewrite Hsome. reflexivity.
Qed.

Lemma getDriver_times_later config n w d :
  driver w = Some d -> getDriver_times config n w = (Ok (replicate n d), w).
Proof.
  intros Hsome. induction n as [|n IH]; [reflexivity|].
  cbn [getDriver_times replicate]. unfold bind at 1.
  rewrite (getDriver_later _ _ _ Hsome). unfold bind at 1. rewrite IH. reflexivity.
Qed.

(** C9. On a freshly constructed handler no driver has been opened; after
    any number [n + 1] of [getDriver] calls exactly one driver has been
    opened (by the first call), every call has returned that same driver,
    and exactly one listener has been added to the pubsub, on [destroy]. *)
Theorem getDriver_opens_once_and_subscribes_once
    (config : Config) (cache : gmap string string)
    (subs : list (string * Listener)) (n : nat) :
  let w0 := constructed cache subs in
  driver w0 = None /\ opened w0 = [] /\ subscriptions w0 = subs /\
  exists d w,
    getDriver_times config (S n) w0 = (Ok (replicate (S n) d), w) /\
    getDriver config w0 = (Ok d, w) /\
    driver w = Some d /\
    opened w = [d] /\
    subscriptions w = (subs ++ [("destroy", CloseThisDriver)])%list /\
    listeners "destroy" w = S (listeners "destroy" w0).
Proof.
  intros w0. repeat split; try reflexivity.
  exists (afterFirstCall config w0).1, (afterFirstCall config w0).2.
  assert (Hfirst := getDriver_first config w0 eq_refl).
  split.
  - cbn [getDriver_times]. unfold bind at 1. rewrite Hfirst.
    unfold bind at 1.
    rewrite (getDriver_times_later config n (afterFirstCall config w0).2
               (afterFirstCall config w0).1) by reflexivity.
    reflexivity.
  - split; [exact Hfirst|]. repeat split; try reflexivity.
    unfold listeners. cbn [afterFirstCall snd subscriptions w0 constructed].
    rewrite filter_app, length_app. cbn. rewrite decide_True by reflexivity. cbn. lia.
Qed.

(** The handler never opens a second driver, whatever state it is in: a
    stored driver is returned as it is. *)
Lemma getDriver_preserves_opened config w d :
  driver w = Some d ->
  forall n, (getDriver_times config n w).2 = w.
Proof.
  intros Hsome n. rewrite (getDriver_times_later _ _ _ _ Hsome). reflexivity.
Qed.

Lemma getDriver_succeeds config w :
  exists d w', getDriver config w = (Ok d, w').
Proof.
  destruct (driver w) as [d|] eqn:Hd.
  - exists d, w. by apply getDriver_later.
  - eexists _, _. by apply getDriver_first.
Qed.

Lemma constructed_holdsOneDriverAtMost cache subs :
  holdsOneDriverAtMost subs (constructed cache subs).
Proof. by split. Qed.

Lemma getDriver_holdsOneDriverAtMost config subs w :
  holdsOneDriverAtMost subs w ->
  holdsOneDriverAtMost subs (getDriver config w).2.
Proof.
  unfold holdsOneDriverAtMost. destruct (driver w) as [d|] eqn:Hd.
  - rewrite (getDriver_later _ _ _ Hd). cbn. by rewrite Hd.
  - rewrite (getDriver_first _ _ Hd). cbn. by intros [-> ->].
Qed.

(** [getMeshSource] and the context builder reach the driver through
    [getDriver] only, so they keep the handler at one driver at most. *)
Lemma getMeshSource_holdsOneDriverAtMost name config inferSchema makeAugmentedSchema subs w :
  holdsOneDriverAtMost subs w ->
  holdsOneDriverAtMost subs
    (getMeshSource name config inferSchema makeAugmentedSchema w).2.
Proof.
  intros Hinv. unfold getMeshSource. unfold bind at 1.
  assert (Hcached : exists cached,
    (if truthy_bool (cacheIntrospection config)
     then cache_get (name +:+ "_introspection") else ret None) w = (Ok cached, w)).
  { destruct (truthy_bool (cacheIntrospection config)); by eexists. }
  destruct Hcached as [cached ->]. unfold bind at 1.
  destruct (negb (truthy_string cached)).
  - unfold bind at 1.
    pose proof (getDriver_holdsOneDriverAtMost config subs w Hinv) as Hinv'.
    destruct (getDriver_succeeds config w) as (d & w' & Hd). rewrite Hd in *. cbn in Hinv'.
    unfold bind at 1. unfold lift at 1.
    destruct (inferSchema d _) as [typeDefs|e]; [|exact Hinv'].
    unfold bind at 1.
    assert (Hset : exists w'',
      (if truthy_bool (cacheIntrospection config)
       then cache_set (name +:+ "_introspection") typeDefs else ret ()) w' = (Ok tt, w'') /\
      holdsOneDriverAtMost subs w'').
    { destruct (truthy_bool (cacheIntrospection config)); eexists; (split; [reflexivity|]).
      - exact Hinv'.
      - exact Hinv'. }
    destruct Hset as (w'' & -> & Hinv''). unfold ret at 1.
    unfold bind, lift, ret. by destruct (makeAugmentedSchema typeDefs).
  - unfold ret at 1. unfold bind, lift, ret.
    by destruct (makeAugmentedSchema _).
Qed.

Lemma contextBuilder_holdsOneDriverAtMost config subs w :
  holdsOneDriverAtMost subs w ->
  holdsOneDriverAtMost subs (contextBuilder config w).2.
Proof.
  intros Hinv. unfold contextBuilder, bind.
  pose proof (getDriver_holdsOneDriverAtMost config subs w Hinv) as Hinv'.
  destruct (getDriver_succeeds config w) as (d & w' & Hd). by rewrite Hd in *.
Qed.

End Neo4JFacts.

Module Neo4JSourceFacts.
Import Neo4J.

(** C8, as the code has it. Whenever [getMeshSource()] of the Neo4J handler
    succeeds, the object it returns holds the schema that
    [makeAugmentedSchema] built and a [contextBuilder]; it has no
    [executor], no [contextVariables] and no [batch] key. *)
Theorem neo4j_getMeshSource_shape
    (name : string) (config : Config)
    (inferSchema : Driver -> option bool -> Result string)
    (makeAugmentedSchema : string -> Result GraphQLSchema)
    (w w' : World) (source : MeshSource.t) :
  getMeshSource name config inferSchema makeAugmentedSchema w = (Ok source, w') ->
  (exists typeDefs, makeAugmentedSchema typeDefs = Ok (MeshSource.schema source)) /\
  is_Some (MeshSource.contextBuilder source) /\
  MeshSource.executor source = None /\
  MeshSource.contextVariables source = None /\
  MeshSource.batch source = None.
Proof.
  unfold getMeshSource. unfold bind at 1.
  destruct (if truthy_bool (cacheIntrospection config) then _ else _) as [[cached|e] w1];
    [|discriminate].
  unfold bind at 1.
  destruct (if negb (truthy_string cached) then _ else _) as [[typeDefs|e] w2];
    [|discriminate].
  unfold bind, lift, ret.
  destruct (makeAugmentedSchema typeDefs) as [schema|e] eqn:Hmake; [|discriminate].
  intros [= <- <-]. cbn. split; [by exists typeDefs|]. split; [by eexists|done].
Qed.

Lemma neo4j_getMeshSource_shape_witness :
  exists source w',
    getMeshSource "movies" Samples.neo4jConfig Samples.inferMovies Samples.augmentMovies
      Samples.freshNeo4J = (Ok source, w') /\
    MeshSource.executor source = None /\ is_Some (MeshSource.contextBuilder source).
Proof.
  eexists _, _. split; [reflexivity|].
  pose proof (neo4j_getMeshSource_shape "movies" Samples.neo4jConfig
                Samples.inferMovies Samples.augmentMovies Samples.freshNeo4J _ _ eq_refl)
    as (_ & Hbuilder & Hexecutor & _).
  split; [exact Hexecutor | exact Hbuilder].
Defined.

(** C8, as the spec has it, fails: a successful [getMeshSource()] of the
    Neo4J handler returns an object without an [executor]. *)
Lemma neo4j_getMeshSource_without_executor :
  exists source w',
    getMeshSource "movies" Samples.neo4jConfig Samples.inferMovies Samples.augmentMovies
      Samples.freshNeo4J = (Ok source, w') /\
    ~ is_Some (MeshSource.executor source).
Proof.
  eexists _, _. split; [vm_compute; reflexivity|].
  cbn. intros [x Hx]. discriminate.
Qed.

End Neo4JSourceFacts.

(** ** Live query invalidation *)
Module LiveQueryFacts.
Import LiveQuery.

(** The guard lets an event through exactly when it carries resolver data
    with an info that has a parent type and a non-empty field name. *)
Lemma carried_Some event rd pt fn :
  carried event = Some (rd, pt, fn) <->
  resolverData event = Some rd /\
  exists i, info rd = Some i /\ parentType i = Some pt /\
            Mesh.fieldName i = Some fn /\ fn <> "".
Proof.
  unfold carried. split.
  - destruct (resolverData event) as [rd'|]; [|discriminate].
    destruct (info rd') as [i|] eqn:Hi; [|discriminate].
    destruct (parentType i) as [pt'|] eqn:Hpt; [|discriminate].
    destruct (Mesh.fieldName i) as [fn'|] eqn:Hfn; cbn; [|discriminate].
    destruct (String.eqb fn' "") eqn:Hempty; cbn; [discriminate|].
    intros [= <- <- <-]. split; [done|]. exists i. repeat split; try done.
    by apply String.eqb_neq.
  - intros (-> & i & -> & -> & -> & Hne). cbn.
    apply String.eqb_neq in Hne. by rewrite Hne.
Qed.

Lemma carried_None event :
  carried event = None <->
  resolverData event = None \/
  exists rd, resolverData event = Some rd /\
    (info rd = None \/
     exists i, info rd = Some i /\
       (parentType i = None \/ truthy_string (Mesh.fieldName i) = false)).
Proof.
  unfold carried. split.
  - destruct (resolverData event) as [rd|]; [|by left].
    intros H. right. exists rd. split; [done|].
    destruct (info rd) as [i|]; [|by left].
    right. exists i. split; [done|].
    destruct (parentType i) as [pt|]; [|by left].
    right. by destruct (truthy_string (Mesh.fieldName i)).
  - intros [ -> | (rd & -> & [ -> | (i & -> & [ -> | -> ]) ]) ]; try done.
    by destruct (parentType i).
Qed.

Lemma truthy_string_false (s : option string) :
  truthy_string s = false <-> s = None \/ s = Some "".
Proof.
  destruct s as [s|]; cbn.
  - split.
    + intros H. right. f_equal. apply String.eqb_eq.
      by destruct (String.eqb s "").
    + intros [[=]|[= ->]]. reflexivity.
  - split; [by left|done].
Qed.

(** C4, as the code has it. For a [resolverDone] event that carries a
    parent type and a non-empty field name, the subscriber looks up
    [parentType.name + "." + fieldName] in the factory map: when the path
    is a key, every factory under it is run on the object that has the
    root, args, context and info of the resolver data and the result of the
    event, and the resulting paths are invalidated as one batch; when it is
    not, nothing is invalidated. So the store is touched if and only if the
    path is a key. An event without resolver data, info or parent type, or
    whose field name is missing or empty, invalidates nothing. *)
Theorem resolverDone_invalidates_registered_paths
    (factoryMap : gmap string (list (ResolverDataBasedFactory string)))
    (event : ResolverDoneEvent) (store : Store) :
  (forall rd i pt fn,
      resolverData event = Some rd -> info rd = Some i ->
      parentType i = Some pt -> Mesh.fieldName i = Some fn -> fn <> "" ->
      let path := typeName pt +:+ "." +:+ fn in
      let merged :=
        {| Interpolation.root := root rd;
           Interpolation.args := args rd;
           Interpolation.context := context rd;
           Interpolation.info := Some i;
           Interpolation.result := result event |} in
      (forall factories, factoryMap !! path = Some factories ->
         resolverDoneSubscriber factoryMap event store =
           (Ok tt,
            (store ++ [map (fun factory => factory merged) factories])%list)) /\
      (factoryMap !! path = None ->
         resolverDoneSubscriber factoryMap event store = (Ok tt, store)) /\
      ((resolverDoneSubscriber factoryMap event store).2 <> store <->
         is_Some (factoryMap !! path))) /\
  ((resolverData event = None \/
    exists rd, resolverData event = Some rd /\
      (info rd = None \/
       exists i, info rd = Some i /\
         (parentType i = None \/ Mesh.fieldName i = None \/ Mesh.fieldName i = Some ""))) ->
     resolverDoneSubscriber factoryMap event store = (Ok tt, store)).
Proof.
  split.
  - intros rd i pt fn Hrd Hi Hpt Hfn Hne path merged.
    assert (Hc : carried event = Some (rd, pt, fn)).
    { apply carried_Some. split; [done|]. by exists i. }
    assert (Hmerged : spread rd (result event) = merged).
    { unfold spread, merged. by rewrite Hi. }
    unfold resolverDoneSubscriber. rewrite Hc, Hmerged. fold path.
    destruct (factoryMap !! path) as [factories|] eqn:Hlook.
    + split; [|split].
      * intros ? [= <-]. reflexivity.
      * discriminate.
      * split; [by eexists|]. intros _. cbn.
        intros Heq. apply (f_equal length) in Heq.
        rewrite length_app in Heq. cbn in Heq. lia.
    + split; [|split].
      * discriminate.
      * reflexivity.
      * cbn. split; [done|]. by intros [? ?].
  - intros Hlacks.
    assert (Hc : carried event = None).
    { apply carried_None. destruct Hlacks as [Hnone|(rd & Hrd & Hrest)]; [by left|].
      right. exists rd. split; [done|]. destruct Hrest as [Hnone|(i & Hi & Hpart)]; [by left|].
      right. exists i. split; [done|]. destruct Hpart as [Hpt|Hfn]; [by left|].
      right. by apply truthy_string_false. }
    unfold resolverDoneSubscriber. by rewrite Hc.
Qed.

End LiveQueryFacts.

Module LiveQueryExamples.
Import LiveQuery.

(** The keys of the factory map are the configured fields. *)
Lemma liveQueryInvalidationFactoryMap_keys
    (getInterpolatedStringFactory : string -> ResolverDataBasedFactory string)
    (liveQueryInvalidations : option (list LiveQueryInvalidation)) (path : string) :
  is_Some (liveQueryInvalidationFactoryMap getInterpolatedStringFactory
             liveQueryInvalidations !! path) <->
  exists rule, rule ∈ default [] liveQueryInvalidations /\ field rule = path.
Proof.
  unfold liveQueryInvalidationFactoryMap.
  set (step := fun factoryMap rule => _).
  assert (Hgen : forall rules (acc : gmap string (list (ResolverDataBasedFactory string))),
             is_Some (foldl step acc rules !! path) <->
             is_Some (acc !! path) \/ exists rule, rule ∈ rules /\ field rule = path).
  { induction rules as [|rule rules IH]; intros acc; cbn [foldl].
    - split; [by left|]. intros [H|(rule & Hin & _)]; [done|]. by apply elem_of_nil in Hin.
    - rewrite IH. unfold step. split.
      + intros [Hacc|(r & Hin & Hr)].
        * destruct (decide (field rule = path)) as [Heq|Hne].
          -- right. exists rule. split; [apply list_elem_of_here|done].
          -- left. by rewrite lookup_insert_ne in Hacc.
        * right. exists r. split; [by apply list_elem_of_further|done].
      + intros [Hacc|(r & Hin & Hr)].
        * left. destruct (decide (field rule = path)) as [Heq|Hne].
          -- rewrite Heq, lookup_insert_eq. by eexists.
          -- by rewrite lookup_insert_ne.
        * apply elem_of_cons in Hin as [->|Hin].
          -- left. rewrite Hr, lookup_insert_eq. by eexists.
          -- right. by exists r. }
  rewrite Hgen. rewrite lookup_empty. split.
  - intros [[? ?]|H]; [done|exact H].
  - intros H. by right.
Qed.

(** The rule [Query.todo -> id:{args.id}], after [Query.todo] resolved
    with [args.id = "42"], invalidates [id:42] and nothing else. The rule
    [Mutation.addTodo -> id:{args.id}, Todo:{result.id}], after
    [Mutation.addTodo] resolved with [args.id = "42"] to the todo [7],
    invalidates [id:42] and [Todo:7] as one batch. *)
Lemma todo_resolved_invalidates_id_42 :
  resolverDoneSubscriber
    (liveQueryInvalidationFactoryMap Samples.interpolateArgsId Samples.todoInvalidations)
    Samples.todoResolved [] = (Ok tt, [["id:42"]]) /\
  resolverDoneSubscriber
    (liveQueryInvalidationFactoryMap MoreSamples.interpolateIds
       (Some [MoreSamples.addTodoRule]))
    MoreSamples.addTodoResolved [["id:1"]] = (Ok tt, [["id:1"]; ["id:42"; "Todo:7"]]).
Proof.
  split.
  - pose proof (LiveQueryFacts.resolverDone_invalidates_registered_paths
                  (liveQueryInvalidationFactoryMap Samples.interpolateArgsId
                     Samples.todoInvalidations)
                  Samples.todoResolved []) as [Hcarried _].
    destruct (Hcarried Samples.todoResolverData Samples.todoInfo Samples.queryType "todo"
                eq_refl eq_refl eq_refl eq_refl ltac:(discriminate)) as (Hkey & _ & _).
    exact (Hkey _ eq_refl).
  - pose proof (LiveQueryFacts.resolverDone_invalidates_registered_paths
                  (liveQueryInvalidationFactoryMap MoreSamples.interpolateIds
                     (Some [MoreSamples.addTodoRule]))
                  MoreSamples.addTodoResolved [["id:1"]]) as [Hcarried _].
    destruct (Hcarried MoreSamples.addTodoResolverData MoreSamples.addTodoInfo
                MoreSamples.mutationType "addTodo"
                eq_refl eq_refl eq_refl eq_refl ltac:(discriminate)) as (Hkey & _ & _).
    exact (Hkey _ eq_refl).
Defined.

(** C4 as the spec has it fails at a field name that is present and empty:
    the event carries a parent type and a field name, its path [Query.] is a
    key of the factory map, and yet nothing is invalidated. *)
Lemma empty_fieldName_invalidates_nothing :
  let factoryMap :=
    liveQueryInvalidationFactoryMap MoreSamples.interpolateIds
      (Some [MoreSamples.namelessRule]) in
  (exists rd i pt fn,
     resolverData MoreSamples.namelessResolved = Some rd /\ info rd = Some i /\
     parentType i = Some pt /\ Mesh.fieldName i = Some fn /\
     is_Some (factoryMap !! (typeName pt +:+ "." +:+ fn))) /\
  resolverDoneSubscriber factoryMap MoreSamples.namelessResolved [] = (Ok tt, []).
Proof.
  cbn zeta. split; [|reflexivity].
  eexists _, _, _, _. repeat (split; [reflexivity|]).
  by eexists.
Qed.

End LiveQueryExamples.

(** ** In-context SDK *)
Module SdkFacts.
Import Sdk.

Section Dispatch.

Variable parse : string -> Result DocumentNode.
Variable print : DocumentNode -> string.
Variable delegateToSchema : IDelegateToSchemaOptions.t -> Result JsValue.
Variable batchDelegateToSchema : BatchDelegateOptions.t -> Result JsValue.
Variable rawSource : RawSourceOutput.t.
Variable transformedSchema : GraphQLSchema.
Variable operationType : OperationTypeNode.
Variable fieldName : string.
Variable rootTypeField : GraphQLField.

Let callable :=
  inContextSdkField parse print delegateToSchema batchDelegateToSchema rawSource
    transformedSchema operationType fieldName rootTypeField.
Let common :=
  commonDelegateOptions rawSource transformedSchema operationType fieldName rootTypeField.

(** What the single delegated call is made with. *)
Let single (call : Call.t) : IDelegateToSchemaOptions.t :=
  {| IDelegateToSchemaOptions.common := common call;
     IDelegateToSchemaOptions.args := Call.args call;
     IDelegateToSchemaOptions.transforms :=
       selectionSetTransforms parse print fieldName (Call.selectionSet call) |}.

Lemma not_batched_run (call : Call.t) (trace : list Effect) :
  (Call.key call = None \/ Call.key call = Some "" \/ Call.argsFromKeys call = None) ->
  callable call trace =
    (match delegateToSchema (single call) with
     | Ok result =>
         Ok (match Call.valuesFromResults call with
             | Some valuesFromResults => valuesFromResults result None
             | None => result
             end)
     | Throw e => Throw e
     end,
     (trace ++ [DelegateToSchema (single call)])%list).
Proof.
  intros Hmissing. unfold callable, inContextSdkField.
  assert (Hrun :
    (emit (DelegateToSchema (single call)) ;;
     result <- lift (delegateToSchema (single call)) ;;
     match Call.valuesFromResults call with
     | Some valuesFromResults => ret (valuesFromResults result None)
     | None => ret result
     end) trace =
    (match delegateToSchema (single call) with
     | Ok result =>
         Ok (match Call.valuesFromResults call with
             | Some valuesFromResults => valuesFromResults result None
             | None => result
             end)
     | Throw e => Throw e
     end,
     (trace ++ [DelegateToSchema (single call)])%list)).
  { unfold emit. unfold_monad.
    destruct (delegateToSchema (single call)); [|reflexivity].
    by destruct (Call.valuesFromResults call). }
  destruct (Call.key call) as [key|] eqn:Hkey;
    destruct (Call.argsFromKeys call) as [argsFromKeys|] eqn:Hargs;
    try exact Hrun.
  destruct Hmissing as [?|[[= ->]|?]]; try discriminate.
  cbn. exact Hrun.
Qed.

(** C1, as the code has it. When the call supplies a non-empty [key] and an
    [argsFromKeys], the callable makes exactly one library call,
    [batchDelegateToSchema], with the key, [argsFromKeys] and
    [valuesFromResults] of the call (and no [args]), and returns what it
    returns. In every other case ([key] missing or empty, or [argsFromKeys]
    missing) it makes exactly one library call, [delegateToSchema], with
    [args] as given. *)
Theorem inContextSdkField_dispatch (call : Call.t) (trace : list Effect) :
  (forall key argsFromKeys,
      Call.key call = Some key -> key <> "" ->
      Call.argsFromKeys call = Some argsFromKeys ->
      let batchDelegationOptions :=
        {| BatchDelegateOptions.common := common call;
           BatchDelegateOptions.key := key;
           BatchDelegateOptions.argsFromKeys := argsFromKeys;
           BatchDelegateOptions.valuesFromResults := Call.valuesFromResults call;
           BatchDelegateOptions.transforms :=
             selectionSetTransforms parse print fieldName (Call.selectionSet call) |} in
      callable call trace =
        (batchDelegateToSchema batchDelegationOptions,
         (trace ++ [BatchDelegateToSchema batchDelegationOptions])%list)) /\
  (Call.key call = None \/ Call.key call = Some "" \/ Call.argsFromKeys call = None ->
     (callable call trace).2 = (trace ++ [DelegateToSchema (single call)])%list /\
     IDelegateToSchemaOptions.args (single call) = Call.args call /\
     (callable call trace).1 =
       match delegateToSchema (single call) with
       | Ok result =>
           Ok (match Call.valuesFromResults call with
               | Some valuesFromResults => valuesFromResults result None
               | None => result
               end)
       | Throw e => Throw e
       end).
Proof.
  split.
  - intros key argsFromKeys Hkey Hne Hargs options.
    unfold callable, inContextSdkField. rewrite Hkey, Hargs. cbn.
    apply String.eqb_neq in Hne. rewrite Hne. cbn.
    unfold emit. unfold_monad. fold (common call). fold options.
    by destruct (batchDelegateToSchema options).
  - intros Hmissing. rewrite (not_batched_run call trace Hmissing). done.
Qed.

End Dispatch.

(** A call with key ["user-1"] and [argsFromKeys] is batched ... *)
Lemma keyed_call_is_batched :
  exists options,
    Samples.todoField (Samples.keyedCall "user-1") [] =
      (Samples.batchAnswer options, [BatchDelegateToSchema options]) /\
    BatchDelegateOptions.key options = "user-1".
Proof.
  eexists. split.
  - apply (proj1 (inContextSdkField_dispatch Samples.parseIdName Samples.printIdName
                    Samples.delegateAnswer Samples.batchAnswer Samples.todoRawSource
                    Samples.todoSchema query "todo" {| type := "Todo" |}
                    (Samples.keyedCall "user-1") [])
             "user-1" Samples.idsFromKeys eq_refl ltac:(discriminate) eq_refl).
  - reflexivity.
Defined.

(** ... but C1 as the spec has it fails: a call that supplies both [key]
    and [argsFromKeys], with the empty string as key, is not batched. It is
    delegated on its own, with [args]. *)
Lemma empty_key_call_is_not_batched :
  let call := Samples.keyedCall "" in
  is_Some (Call.key call) /\ is_Some (Call.argsFromKeys call) /\
  exists options,
    (Samples.todoField call []).2 = [DelegateToSchema options] /\
    IDelegateToSchemaOptions.args options = Call.args call /\
    forall batched, (Samples.todoField call []).2 <> [BatchDelegateToSchema batched].
Proof.
  cbn zeta. split; [by eexists|]. split; [by eexists|].
  eexists. split; [reflexivity|]. split; [reflexivity|].
  intros batched. cbn. discriminate.
Qed.

End SdkFacts.

Module SelectionSetFacts.
Import Sdk.

Section Normalization.

Variable parse : string -> Result DocumentNode.
Variable print : DocumentNode -> string.

Let normalize := normalizeSelectionSetParamOrFactory parse print.

(** A factory is normalized as what it returns. *)
Lemma normalize_factory (f : SelectionSetNode -> SelectionSetParam)
    (subtree : SelectionSetNode) :
  normalize (Factory f) subtree = normalize (Param (f subtree)) subtree.
Proof. reflexivity. Qed.

(** A selection set node passes through unchanged. *)
Lemma normalize_selectionSet (s subtree : SelectionSetNode) :
  normalize (Param (ParamSelectionSet s)) subtree = Ok s.
Proof. reflexivity. Qed.

(** The subtree only matters to a factory. *)
Lemma normalize_param_subtree (p : SelectionSetParam) (subtree subtree' : SelectionSetNode) :
  normalize (Param p) subtree = normalize (Param p) subtree'.
Proof. reflexivity. Qed.

Lemma normalize_document_of_text (text : string) (d : DocumentNode)
    (subtree : SelectionSetNode) :
  parse text = Ok d -> parse (print d) = Ok d ->
  normalize (Param (ParamDocument d)) subtree = normalize (Param (ParamString text)) subtree.
Proof.
  intros Hparse Hprint. unfold normalize. cbn. unfold parseSelectionSet.
  by rewrite Hparse, Hprint.
Qed.

(** C5. Let [text] be selection-set text and [d] the document that [parse]
    gives for it, one that [print] and [parse] take back to itself (the
    round trip of graphql's printer). Then the text, the document, a
    factory returning the text and a factory returning the document are all
    normalized to the same value, for every subtree; and when that value is
    a selection set, normalizing it again, directly or through a factory,
    gives it back. *)
Theorem normalizeSelectionSetParamOrFactory_agrees
    (text : string) (d : DocumentNode)
    (textFactory documentFactory : SelectionSetNode -> SelectionSetParam)
    (subtree : SelectionSetNode) :
  parse text = Ok d ->
  parse (print d) = Ok d ->
  textFactory subtree = ParamString text ->
  documentFactory subtree = ParamDocument d ->
  let normalized := normalize (Param (ParamString text)) subtree in
  normalize (Param (ParamDocument d)) subtree = normalized /\
  normalize (Factory textFactory) subtree = normalized /\
  normalize (Factory documentFactory) subtree = normalized /\
  forall s, normalized = Ok s ->
    normalize (Param (ParamSelectionSet s)) subtree = normalized /\
    normalize (Factory (fun _ => ParamSelectionSet s)) subtree = normalized.
Proof.
  intros Hparse Hprint Htext Hdocument normalized.
  split; [by apply normalize_document_of_text|].
  split; [by rewrite normalize_factory, Htext|].
  split; [rewrite normalize_factory, Hdocument; by apply normalize_document_of_text|].
  intros s Hs. rewrite normalize_factory, normalize_selectionSet. by rewrite Hs.
Qed.

End Normalization.

Lemma normalizeSelectionSetParamOrFactory_agrees_witness :
  let normalize := normalizeSelectionSetParamOrFactory Samples.parseIdName Samples.printIdName in
  let selection := [FieldNode "id" []; FieldNode "name" []] in
  normalize (Param (ParamString "{id name}")) [] = Ok selection /\
  normalize (Param (ParamDocument Samples.idNameDocument)) [] = Ok selection /\
  normalize (Factory (fun _ => ParamString "{id name}")) [] = Ok selection /\
  normalize (Factory (fun _ => ParamDocument Samples.idNameDocument)) [] = Ok selection /\
  normalize (Param (ParamSelectionSet selection)) [] = Ok selection.
Proof.
  cbn zeta.
  destruct (normalizeSelectionSetParamOrFactory_agrees
              Samples.parseIdName Samples.printIdName
              "{id name}" Samples.idNameDocument
              (fun _ => ParamString "{id name}")
              (fun _ => ParamDocument Samples.idNameDocument)
              [] eq_refl eq_refl eq_refl eq_refl) as (Hd & Ht & Hf & Hagain).
  assert (Hvalue :
    normalizeSelectionSetParamOrFactory Samples.parseIdName Samples.printIdName
      (Param (ParamString "{id name}")) [] =
    Ok [FieldNode "id" []; FieldNode "name" []]) by reflexivity.
  destruct (Hagain _ Hvalue) as [Hs _].
  rewrite Hd, Ht, Hf, Hs. repeat split; exact Hvalue.
Defined.

End SelectionSetFacts.

(** ** Execution facade *)
Module FacadeFacts.
Import Facade.

Section Execute.

Variable parse : string -> Result DocumentNode.
Variable print : DocumentNode -> string.
Variable unifiedSchema : GraphQLSchema.
Variable liveQueryExecute : ExecutionArgs -> Result ExecutionResult.

Let execute := meshExecute parse print unifiedSchema liveQueryExecute.

(** [executionParams] for a document and an operation name. *)
Let paramsFor (document : DocumentNode) (variableValues contextValue rootValue : JsValue)
    (operationName : option string) : ExecutionArgs :=
  {| document := document;
     contextValue := orDefault contextValue EMPTY_CONTEXT_VALUE;
     rootValue := orDefault rootValue EMPTY_ROOT_VALUE;
     variableValues := orDefault variableValues EMPTY_VARIABLES_VALUE;
     schema := unifiedSchema;
     operationName := operationName |}.

Lemma getDocumentNodeAndSDL_document documentOrSDL document sdl :
  getDocumentNodeAndSDL parse print documentOrSDL = Ok (document, sdl) ->
  match documentOrSDL with
  | OfDocument d => document = d
  | OfSDL text => parse text = Ok document
  end.
Proof.
  destruct documentOrSDL as [d|text]; cbn.
  - by intros [= <- _].
  - destruct (parse text); [|discriminate]. by intros [= <- _].
Qed.

Lemma meshExecute_named documentOrSDL variableValues contextValue rootValue
    operationName trace document sdl :
  getDocumentNodeAndSDL parse print documentOrSDL = Ok (document, sdl) ->
  truthy_string operationName = true ->
  let executionParams :=
    paramsFor document variableValues contextValue rootValue operationName in
  execute documentOrSDL variableValues contextValue rootValue operationName trace =
    (liveQueryExecute executionParams, (trace ++ [LiveQueryExecute executionParams])%list).
Proof.
  intros Hdoc Htruthy executionParams. unfold execute, meshExecute.
  unfold bind at 1. unfold lift at 1. rewrite Hdoc. rewrite Htruthy. cbn.
  unfold emit. unfold_monad. reflexivity.
Qed.

Lemma meshExecute_unnamed documentOrSDL variableValues contextValue rootValue
    operationName trace document sdl operationAst :
  getDocumentNodeAndSDL parse print documentOrSDL = Ok (document, sdl) ->
  truthy_string operationName = false ->
  getOperationAST document None = Some operationAst ->
  let executionParams :=
    paramsFor document variableValues contextValue rootValue (name operationAst) in
  execute documentOrSDL variableValues contextValue rootValue operationName trace =
    (liveQueryExecute executionParams, (trace ++ [LiveQueryExecute executionParams])%list).
Proof.
  intros Hdoc Hfalsy Hast executionParams. unfold execute, meshExecute.
  unfold bind at 1. unfold lift at 1. rewrite Hdoc. rewrite Hfalsy, Hast. cbn.
  unfold emit. unfold_monad. reflexivity.
Qed.

(** Without a name, a document that has no single operation makes
    [meshExecute] throw before anything is executed. *)
Lemma meshExecute_unnamed_no_single_operation documentOrSDL variableValues
    contextValue rootValue operationName trace document sdl :
  getDocumentNodeAndSDL parse print documentOrSDL = Ok (document, sdl) ->
  truthy_string operationName = false ->
  getOperationAST document None = None ->
  execute documentOrSDL variableValues contextValue rootValue operationName trace =
    (Throw (TypeError "Cannot read properties of null (reading 'name')"), trace).
Proof.
  intros Hdoc Hfalsy Hast. unfold execute, meshExecute.
  unfold bind at 1. unfold lift at 1. rewrite Hdoc. rewrite Hfalsy, Hast. reflexivity.
Qed.

(** C6, as the code has it. The operation is turned into a document: a
    document node is taken as it is, SDL text is parsed. A non-empty
    [operationName] reaches the one execution unchanged. When
    [operationName] is missing or the empty string and the document has a
    single operation definition, the execution gets the name of that
    definition. *)
Theorem meshExecute_operationName
    (documentOrSDL : GraphQLOperation) (variableValues contextValue rootValue : JsValue)
    (operationName : option string) (trace : list Effect)
    (document : DocumentNode) (sdl : string) :
  getDocumentNodeAndSDL parse print documentOrSDL = Ok (document, sdl) ->
  match documentOrSDL with
  | OfDocument d => document = d
  | OfSDL text => parse text = Ok document
  end /\
  (forall given, operationName = Some given -> given <> "" ->
     let executionParams :=
       paramsFor document variableValues contextValue rootValue (Some given) in
     execute documentOrSDL variableValues contextValue rootValue operationName trace =
       (liveQueryExecute executionParams,
        (trace ++ [LiveQueryExecute executionParams])%list)) /\
  (operationName = None \/ operationName = Some "" ->
   forall operationAst, getOperationAST document None = Some operationAst ->
     let executionParams :=
       paramsFor document variableValues contextValue rootValue (name operationAst) in
     execute documentOrSDL variableValues contextValue rootValue operationName trace =
       (liveQueryExecute executionParams,
        (trace ++ [LiveQueryExecute executionParams])%list)).
Proof.
  intros Hdoc. split; [by eapply getDocumentNodeAndSDL_document|]. split.
  - intros given -> Hne. apply (meshExecute_named _ _ _ _ _ _ _ _ Hdoc).
    cbn. apply String.eqb_neq in Hne. by rewrite Hne.
  - intros Hmissing operationAst Hast.
    apply (meshExecute_unnamed _ _ _ _ _ _ _ _ _ Hdoc); [|done].
    by destruct Hmissing as [->| ->].
Qed.

End Execute.

Lemma meshExecute_operationName_witness :
  let execute := meshExecute Samples.parseGetTodo Samples.printAny Samples.todoSchema
                   Samples.executeFine in
  (execute (OfDocument Samples.twoOperations) JUndefined JUndefined JUndefined
     (Some "ListTodos") []).2 =
    [LiveQueryExecute
       {| document := Samples.twoOperations; contextValue := JObj []; rootValue := JObj [];
          variableValues := JObj []; schema := Samples.todoSchema;
          operationName := Some "ListTodos" |}] /\
  (execute (OfSDL "query GetTodo { todo { id } }") JUndefined JUndefined JUndefined None []).2 =
    [LiveQueryExecute
       {| document := Samples.oneOperation; contextValue := JObj []; rootValue := JObj [];
          variableValues := JObj []; schema := Samples.todoSchema;
          operationName := Some "GetTodo" |}].
Proof.
  cbn zeta. split.
  - destruct (meshExecute_operationName Samples.parseGetTodo Samples.printAny
                Samples.todoSchema Samples.executeFine
                (OfDocument Samples.twoOperations) JUndefined JUndefined JUndefined
                (Some "ListTodos") [] Samples.twoOperations _ eq_refl)
      as (_ & Hnamed & _).
    rewrite (Hnamed "ListTodos" eq_refl ltac:(discriminate)). reflexivity.
  - destruct (meshExecute_operationName Samples.parseGetTodo Samples.printAny
                Samples.todoSchema Samples.executeFine
                (OfSDL "query GetTodo { todo { id } }") JUndefined JUndefined JUndefined
                None [] Samples.oneOperation _ eq_refl)
      as (_ & _ & Hderived).
    rewrite (Hderived (or_introl eq_refl) Samples.getTodo eq_refl). reflexivity.
Defined.

(** C6 as the spec has it fails: the empty string given as [operationName]
    does not reach the execution; the name of the document's operation
    does. *)
Lemma meshExecute_empty_operationName_replaced :
  exists executionParams,
    (meshExecute Samples.parseGetTodo Samples.printAny Samples.todoSchema
       Samples.executeFine (OfDocument Samples.oneOperation)
       JUndefined JUndefined JUndefined (Some "") []).2
      = [LiveQueryExecute executionParams] /\
    operationName executionParams = Some "GetTodo" /\
    operationName executionParams <> Some "".
Proof.
  eexists. split; [reflexivity|]. split; [reflexivity|]. cbn. discriminate.
Qed.

End FacadeFacts.

(** ** SDK requester *)
Module RequesterFacts.
Import Facade.

Section Requester.

Variable parse : string -> Result DocumentNode.
Variable print : DocumentNode -> string.
Variable printWithCache : DocumentNode -> string.
Variable unifiedSchema : GraphQLSchema.
Variable liveQueryExecute : ExecutionArgs -> Result ExecutionResult.

Let execute := meshExecute parse print unifiedSchema liveQueryExecute.
Let request := localRequester parse print printWithCache unifiedSchema liveQueryExecute.

Variable document : DocumentNode.
Variables variables contextValue rootValue : JsValue.
Variable operationName : option string.
Variables trace trace' : list Effect.
Variable executionResult : ExecutionResult.

Hypothesis executed :
  execute (OfDocument document) variables contextValue rootValue operationName trace
    = (Ok executionResult, trace').

(** Data and no errors: the data is returned. *)
Lemma localRequester_returns_data :
  truthy (read_data executionResult) = true ->
  read_errors executionResult = None ->
  request document variables contextValue rootValue operationName trace
    = (Ok (read_data executionResult), trace').
Proof using executed.
  intros Hdata Herrors. unfold request, localRequester. unfold bind at 1.
  fold execute. rewrite executed.
  assert (Hkey : has_data_key executionResult = true).
  { unfold has_data_key, read_data in *. destruct (data executionResult); [|discriminate].
    by apply bool_decide_eq_true. }
  rewrite Hkey, Hdata, Herrors. reflexivity.
Qed.

(** Errors, and a document with a single operation: the aggregate error is
    thrown, with the errors, the document, the variables and the data. *)
Lemma localRequester_throws_aggregate es operationAst :
  read_errors executionResult = Some es ->
  getOperationAST document None = Some operationAst ->
  exists message,
    request document variables contextValue rootValue operationName trace
      = (Throw (GraphQLMeshSdkError (Some es) document variables
                  (read_data executionResult) message),
         (trace' ++ [LoggerError (printWithCache document) variables])%list).
Proof using executed.
  intros Herrors Hast. eexists. unfold request, localRequester. unfold bind at 1.
  fold execute. rewrite executed.
  assert (Hkey : has_errors_key executionResult = true).
  { unfold has_errors_key, read_errors in *.
    destruct (GraphQL.errors executionResult) eqn:E; [|discriminate].
    by apply bool_decide_eq_true. }
  rewrite Hkey, Herrors, orb_true_r.
  rewrite andb_false_r. unfold new_GraphQLMeshSdkError. rewrite Hast.
  unfold emit. unfold_monad. reflexivity.
Qed.

(** Errors, and a document without a single operation: building the
    aggregate error fails, and a [TypeError] is thrown in its place. *)
Lemma localRequester_throws_TypeError es :
  read_errors executionResult = Some es ->
  getOperationAST document None = None ->
  request document variables contextValue rootValue operationName trace
    = (Throw (TypeError "Cannot read properties of null (reading 'operation')"),
       (trace' ++ [LoggerError (printWithCache document) variables])%list).
Proof using executed.
  intros Herrors Hast. unfold request, localRequester. unfold bind at 1.
  fold execute. rewrite executed.
  assert (Hkey : has_errors_key executionResult = true).
  { unfold has_errors_key, read_errors in *.
    destruct (GraphQL.errors executionResult) eqn:E; [|discriminate].
    by apply bool_decide_eq_true. }
  rewrite Hkey, Herrors, orb_true_r.
  rewrite andb_false_r. unfold new_GraphQLMeshSdkError. rewrite Hast.
  unfold emit. unfold_monad. reflexivity.
Qed.

(** Neither key: the requester fails at once. *)
Lemma localRequester_not_implemented :
  data executionResult = None ->
  GraphQL.errors executionResult = None ->
  request document variables contextValue rootValue operationName trace
    = (Throw (Error "Not implemented"), trace').
Proof using executed.
  intros Hdata Herrors. unfold request, localRequester. unfold bind at 1.
  fold execute. rewrite executed.
  unfold has_data_key, has_errors_key. rewrite Hdata, Herrors.
  rewrite !bool_decide_eq_false_2 by (intros [? ?]; discriminate). reflexivity.
Qed.

End Requester.

(** [{ data: { foo: 1 }, errors: undefined }] gives [{ foo: 1 }]. *)
Lemma localRequester_foo :
  (localRequester Samples.parseGetTodo Samples.printAny Samples.printAny
     Samples.todoSchema Samples.executeFine Samples.oneOperation
     JUndefined JUndefined JUndefined None []).1 = Ok (JObj [("foo", JNum 1)]).
Proof. reflexivity. Qed.

(** [{ data: null, errors: [E] }] throws the aggregate error wrapping [[E]]. *)
Lemma localRequester_wraps_errors :
  (localRequester Samples.parseGetTodo Samples.printAny Samples.printAny
     Samples.todoSchema Samples.executeFailing Samples.oneOperation
     JUndefined JUndefined JUndefined None []).1 =
  Throw (GraphQLMeshSdkError (Some [Samples.notFound]) Samples.oneOperation JUndefined JNull
           "GraphQL Mesh SDK query GetTodo failed!").
Proof. reflexivity. Qed.

(** C3 at a document with two operations. The requester is asked for the
    operation [ListTodos] of a document that also defines [GetTodo]; the
    execution answers [{ data: null, errors: [E] }]. The requester logs the
    failure and then throws a [TypeError], not the aggregate error: the
    message of [GraphQLMeshSdkError] is built from [getOperationAST(document)],
    which is [null] for a document with two operations. *)
Theorem localRequester_two_operations_throws_TypeError :
  getOperationAST Samples.twoOperations None = None /\
  localRequester Samples.parseGetTodo Samples.printAny Samples.printAny
    Samples.todoSchema Samples.executeFailing Samples.twoOperations
    JUndefined JUndefined JUndefined (Some "ListTodos") [] =
  (Throw (TypeError "Cannot read properties of null (reading 'operation')"),
   [LiveQueryExecute
      {| document := Samples.twoOperations; contextValue := JObj []; rootValue := JObj [];
         variableValues := JObj []; schema := Samples.todoSchema;
         operationName := Some "ListTodos" |};
    LoggerError "query GetTodo { todo { id } }" JUndefined]).
Proof. split; reflexivity. Qed.

End RequesterFacts.

(** ** Source registry *)
Module RegistryFacts.
Import Runtime.

Section Registry.

Variable applySchemaTransforms :
  GraphQLSchema -> MeshSource.t -> list MeshTransform -> Result GraphQLSchema.

Lemma forEach_callHandler sources st :
  forEach callHandler sources st =
    (Ok tt,
     {| rawSources := rawSources st; failed := failed st;
        events := (events st
                   ++ map (fun a => GetMeshSourceCalled (ApiSource.name a)) sources)%list |}).
Proof.
  revert st. induction sources as [|a sources IH]; intros st.
  - cbn. unfold ret. rewrite app_nil_r. by destruct st.
  - cbn [forEach]. unfold bind at 1. unfold callHandler at 1, emit, modify.
    rewrite IH. cbn. by rewrite <- app_assoc.
Qed.

(** The [try] block ran through: the raw source is pushed and nothing else
    changes. *)
Lemma afterHandler_pushes apiSource rawSource st :
  settle applySchemaTransforms apiSource = Ok rawSource ->
  afterHandler applySchemaTransforms apiSource st =
    (Ok tt,
     {| rawSources := (rawSources st ++ [rawSource])%list;
        failed := failed st; events := events st |}).
Proof.
  unfold settle, afterHandler, rawSources_push. unfold_monad.
  destruct (getMeshSource (ApiSource.handler apiSource)) as [source|e]; [|discriminate].
  destruct (apiSchemaFor applySchemaTransforms apiSource source) as [apiSchema|e];
    [|discriminate].
  by intros [= <-].
Qed.

(** Something was thrown in the [try] block: nothing is pushed, the error
    is logged and the construction is marked as failed. *)
Lemma afterHandler_catches apiSource e st :
  settle applySchemaTransforms apiSource = Throw e ->
  afterHandler applySchemaTransforms apiSource st =
    (Ok tt,
     {| rawSources := rawSources st; failed := true;
        events := (events st
                   ++ [ConsoleLog e;
                       LoggerError (ApiSource.name apiSource)
                         ("Failed to generate schema: " +:+ messageOrString e)])%list |}).
Proof.
  unfold settle, afterHandler, set_failed, emit. unfold_monad.
  destruct (getMeshSource (ApiSource.handler apiSource)) as [source|e'].
  - destruct (apiSchemaFor applySchemaTransforms apiSource source) as [apiSchema|e'];
      [discriminate|].
    intros [= ->]. cbn. by rewrite <- app_assoc.
  - intros [= ->]. cbn. by rewrite <- app_assoc.
Qed.

Lemma omap_step {A B : Type} (f : A -> option B) (x : A) (l : list A) :
  omap f (x :: l) =
    match f x with
    | Some y => y :: omap f l
    | None => omap f l
    end.
Proof. reflexivity. Qed.

Lemma forEach_afterHandler settled st :
  forEach (afterHandler applySchemaTransforms) settled st =
    (Ok tt,
     {| rawSources := (rawSources st ++ omap (pushedBy applySchemaTransforms) settled)%list;
        failed := failed st || existsb (rejected applySchemaTransforms) settled;
        events := (events st ++ flat_map (loggedBy applySchemaTransforms) settled)%list |}).
Proof.
  revert st. induction settled as [|a settled IH]; intros st.
  - cbn. unfold ret. rewrite !app_nil_r, orb_false_r. by destruct st.
  - cbn [forEach]. unfold bind at 1.
    rewrite omap_step. cbn [flat_map existsb].
    destruct (settle applySchemaTransforms a) as [rawSource|e] eqn:Hsettled.
    + assert (Hp : pushedBy applySchemaTransforms a = Some rawSource)
        by (unfold pushedBy; by rewrite Hsettled).
      assert (Hl : loggedBy applySchemaTransforms a = [])
        by (unfold loggedBy; by rewrite Hsettled).
      assert (Hr : rejected applySchemaTransforms a = false)
        by (unfold rejected; by rewrite Hsettled).
      rewrite (afterHandler_pushes _ _ _ Hsettled), IH, Hp, Hl, Hr.
      cbn [rawSources failed events app orb]. by rewrite <- app_assoc.
    + assert (Hp : pushedBy applySchemaTransforms a = None)
        by (unfold pushedBy; by rewrite Hsettled).
      assert (Hl : loggedBy applySchemaTransforms a =
                   [ConsoleLog e;
                    LoggerError (ApiSource.name a)
                      ("Failed to generate schema: " +:+ messageOrString e)])
        by (unfold loggedBy; by rewrite Hsettled).
      assert (Hr : rejected applySchemaTransforms a = true)
        by (unfold rejected; by rewrite Hsettled).
      rewrite (afterHandler_catches _ _ _ Hsettled), IH, Hp, Hl, Hr.
      cbn [rawSources failed events app orb]. rewrite <- app_assoc, orb_true_r. done.
Qed.

Lemma collectSources_run sources settled st :
  collectSources applySchemaTransforms sources settled st =
    (Ok tt,
     {| rawSources := (rawSources st ++ omap (pushedBy applySchemaTransforms) settled)%list;
        failed := failed st || existsb (rejected applySchemaTransforms) settled;
        events := (events st
                   ++ map (fun a => GetMeshSourceCalled (ApiSource.name a)) sources
                   ++ flat_map (loggedBy applySchemaTransforms) settled)%list |}).
Proof.
  unfold collectSources. unfold bind. rewrite forEach_callHandler.
  rewrite forEach_afterHandler.
  cbn [rawSources failed events]. by rewrite <- app_assoc.
Qed.

Lemma rawSourceFor_name apiSource source apiSchema :
  RawSourceOutput.name (rawSourceFor apiSource source apiSchema)
    = ApiSource.name apiSource.
Proof. reflexivity. Qed.

Lemma settle_name apiSource rawSource :
  settle applySchemaTransforms apiSource = Ok rawSource ->
  RawSourceOutput.name rawSource = ApiSource.name apiSource.
Proof.
  unfold settle.
  destruct (getMeshSource (ApiSource.handler apiSource)) as [source|e]; [|discriminate].
  destruct (apiSchemaFor applySchemaTransforms apiSource source) as [apiSchema|e];
    [|discriminate].
  by intros [= <-].
Qed.

(** C10. Take a source whose handler resolves to [source]. When its bare
    transforms apply, it is registered by pushing one raw source, under the
    name of the source and with the transformed schema; the [batch] of that
    raw source is [true] when [source] has no [batch] key, and the value
    under that key, whatever it is, when it has one. When a bare transform
    throws, nothing is registered for the source: the error is logged and
    the construction is marked as failed. *)
Theorem rawSource_batch_defaults_to_true
    (apiSource : ApiSource.t) (source : MeshSource.t) (st : State) :
  getMeshSource (ApiSource.handler apiSource) = Ok source ->
  (forall apiSchema,
     apiSchemaFor applySchemaTransforms apiSource source = Ok apiSchema ->
     exists rawSource,
       afterHandler applySchemaTransforms apiSource st =
         (Ok tt,
          {| rawSources := (rawSources st ++ [rawSource])%list;
             failed := failed st; events := events st |}) /\
       RawSourceOutput.name rawSource = ApiSource.name apiSource /\
       RawSourceOutput.schema rawSource = apiSchema /\
       (MeshSource.batch source = None -> RawSourceOutput.batch rawSource = Some true) /\
       (forall batch, MeshSource.batch source = Some batch ->
          RawSourceOutput.batch rawSource = batch)) /\
  (forall e,
     apiSchemaFor applySchemaTransforms apiSource source = Throw e ->
     afterHandler applySchemaTransforms apiSource st =
       (Ok tt,
        {| rawSources := rawSources st; failed := true;
           events := (events st
                      ++ [ConsoleLog e;
                          LoggerError (ApiSource.name apiSource)
                            ("Failed to generate schema: " +:+ messageOrString e)])%list |})).
Proof.
  intros Hok. split.
  - intros apiSchema Hschema. exists (rawSourceFor apiSource source apiSchema).
    split; [|split; [reflexivity|split; [reflexivity|split]]].
    + apply afterHandler_pushes. unfold settle. by rewrite Hok, Hschema.
    + intros Hnone. cbn. by rewrite Hnone.
    + intros batch Hsome. cbn. by rewrite Hsome.
  - intros e Hthrown. apply afterHandler_catches. unfold settle. by rewrite Hok, Hthrown.
Qed.

End Registry.

Lemma rawSource_batch_defaults_to_true_witness :
  (exists rawSource,
     afterHandler Samples.keepSchema Samples.todosSource initial =
       (Ok tt, {| rawSources := [rawSource]; failed := false; events := [] |}) /\
     RawSourceOutput.batch rawSource = Some true) /\
  (exists rawSource,
     afterHandler Samples.keepSchema Samples.moviesSource initial =
       (Ok tt, {| rawSources := [rawSource]; failed := false; events := [] |}) /\
     RawSourceOutput.batch rawSource = Some false) /\
  (exists rawSource,
     afterHandler MoreSamples.renameFails MoreSamples.prefixedSource initial =
       (Ok tt, {| rawSources := [rawSource]; failed := false; events := [] |}) /\
     RawSourceOutput.schema rawSource = MoreSamples.prefixedSchema /\
     RawSourceOutput.batch rawSource = Some true) /\
  afterHandler MoreSamples.renameFails MoreSamples.renamedSource initial =
    (Ok tt,
     {| rawSources := []; failed := true;
        events := [ConsoleLog (Error "Cannot rename type Query");
                   LoggerError "Renamed"
                     "Failed to generate schema: Cannot rename type Query"] |}).
Proof.
  split; [|split; [|split]].
  - destruct (rawSource_batch_defaults_to_true Samples.keepSchema Samples.todosSource
                _ initial eq_refl) as [Hpushed _].
    destruct (Hpushed _ eq_refl) as (rawSource & Hrun & _ & _ & Hdefault & _).
    exists rawSource. split; [exact Hrun | exact (Hdefault eq_refl)].
  - destruct (rawSource_batch_defaults_to_true Samples.keepSchema Samples.moviesSource
                _ initial eq_refl) as [Hpushed _].
    destruct (Hpushed _ eq_refl) as (rawSource & Hrun & _ & _ & _ & Hgiven).
    exists rawSource. split; [exact Hrun | exact (Hgiven _ eq_refl)].
  - destruct (rawSource_batch_defaults_to_true MoreSamples.renameFails
                MoreSamples.prefixedSource _ initial eq_refl) as [Hpushed _].
    destruct (Hpushed MoreSamples.prefixedSchema eq_refl)
      as (rawSource & Hrun & _ & Hschema & Hdefault & _).
    exists rawSource. split; [exact Hrun|]. split; [exact Hschema | exact (Hdefault eq_refl)].
  - destruct (rawSource_batch_defaults_to_true MoreSamples.renameFails
                MoreSamples.renamedSource _ initial eq_refl) as [_ Hcaught].
    exact (Hcaught (Error "Cannot rename type Query") eq_refl).
Defined.

End RegistryFacts.

(** ** [getMesh] as a whole *)
Module GetMeshFacts.
Import Runtime.

Section GetMesh.

Variable parse : string -> Result DocumentNode.
Variable print : DocumentNode -> string.
Variable printWithCache : DocumentNode -> string.
Variable delegateToSchema : Sdk.IDelegateToSchemaOptions.t -> Result JsValue.
Variable batchDelegateToSchema : Sdk.BatchDelegateOptions.t -> Result JsValue.
Variable getInterpolatedStringFactory : string -> ResolverDataBasedFactory string.
Variable applySchemaTransforms :
  GraphQLSchema -> MeshSource.t -> list MeshTransform -> Result GraphQLSchema.
Variable applyResolversHooksToSchema :
  GraphQLSchema -> gmap string MeshContextEntry -> GraphQLSchema.
Variable jitExecutorFactory :
  GraphQLSchema -> string -> Facade.ExecutionArgs -> Result ExecutionResult.
Variable makeExecute :
  (Facade.ExecutionArgs -> Result ExecutionResult) ->
  Facade.ExecutionArgs -> Result ExecutionResult.

Let mesh :=
  getMesh parse print printWithCache delegateToSchema batchDelegateToSchema
    getInterpolatedStringFactory applySchemaTransforms applyResolversHooksToSchema
    jitExecutorFactory makeExecute.
Let attach := attachInContextSdk parse print delegateToSchema batchDelegateToSchema.
Let sdkOf := inContextSdk parse print delegateToSchema batchDelegateToSchema.

(** The state in which the barrier leaves [getMesh]. *)
Let settledState (options : GetMeshOptions) (settled : list ApiSource.t) : State :=
  {| rawSources := omap (pushedBy applySchemaTransforms) settled;
     failed := existsb (rejected applySchemaTransforms) settled;
     events :=
       (map (fun a => GetMeshSourceCalled (ApiSource.name a)) (sources options)
        ++ flat_map (loggedBy applySchemaTransforms) settled)%list |}.

Let mergerInput (options : GetMeshOptions) (settled : list ApiSource.t) : MergerInput :=
  {| mi_rawSources := omap (pushedBy applySchemaTransforms) settled;
     mi_typeDefs := additionalTypeDefs options;
     mi_resolvers := additionalResolvers options;
     mi_transforms := transforms options |}.

Lemma attach_total sourceMap rawSources :
  forall index meshContext,
    (forall j, j < length rawSources -> is_Some (sourceMap !! (index + j))) ->
    exists meshContext', attach sourceMap index rawSources meshContext = Ok meshContext'.
Proof.
  induction rawSources as [|rawSource rest IH]; intros index meshContext Hall.
  - by eexists.
  - cbn. destruct (Hall 0 ltac:(cbn; lia)) as [transformedSchema Hlook].
    rewrite Nat.add_0_r in Hlook. rewrite Hlook.
    apply IH. intros j Hj. replace (S index + j) with (index + S j) by lia.
    apply Hall. cbn. lia.
Qed.

Lemma attach_ok_covers sourceMap rawSources :
  forall index meshContext meshContext',
    attach sourceMap index rawSources meshContext = Ok meshContext' ->
    forall j, j < length rawSources -> is_Some (sourceMap !! (index + j)).
Proof.
  induction rawSources as [|rawSource rest IH]; intros index meshContext meshContext' Hok j Hj.
  - cbn in Hj. lia.
  - cbn in Hok. destruct (sourceMap !! index) as [transformedSchema|] eqn:Hlook;
      [|discriminate].
    destruct j as [|j].
    + rewrite Nat.add_0_r. by eexists.
    + replace (index + S j) with (S index + j) by lia.
      eapply IH; [exact Hok|]. cbn in Hj. lia.
Qed.

(** A failed source makes [getMesh] throw the one fixed error, after the
    barrier. *)
Lemma getMesh_some_rejected options settled :
  existsb (rejected applySchemaTransforms) settled = true ->
  mesh options settled initial =
    (Throw (Error SCHEMAS_FAILED), settledState options settled).
Proof.
  intros Hrejected. unfold mesh, getMesh. unfold bind at 1.
  rewrite RegistryFacts.collectSources_run. cbn [initial rawSources failed events app orb].
  unfold bind at 1. unfold get at 1. cbn [failed]. unfold settledState.
  rewrite Hrejected. reflexivity.
Qed.

(** Without a failed source [getMesh] goes on to the merger. *)
Lemma getMesh_none_rejected options settled :
  existsb (rejected applySchemaTransforms) settled = false ->
  let st := settledState options settled in
  let input := mergerInput options settled in
  let merging :=
    {| rawSources := rawSources st; failed := false;
       events := (events st ++ [GetUnifiedSchemaCalled input])%list |} in
  let subscribed :=
    {| rawSources := rawSources st; failed := false;
       events := (events st ++ [GetUnifiedSchemaCalled input]
                  ++ [PubSubSubscribed "resolverDone"])%list |} in
  match merger options input with
  | Throw e => mesh options settled initial = (Throw e, merging)
  | Ok unifiedSchema =>
      match attach (sourceMap unifiedSchema) 0 (rawSources st)
              (<["liveQueryStore" := TheLiveQueryStore]>
                 (<["cache" := TheCache]> (<["pubsub" := ThePubSub]> ∅))) with
      | Throw e => mesh options settled initial = (Throw e, subscribed)
      | Ok meshContext =>
          exists instance,
            mesh options settled initial = (Ok instance, subscribed) /\
            instance_rawSources instance = rawSources st /\
            instance_sourceMap instance = sourceMap unifiedSchema /\
            Runtime.meshContext instance = meshContext /\
            onResolverDone instance =
              LiveQuery.resolverDoneSubscriber
                (LiveQuery.liveQueryInvalidationFactoryMap getInterpolatedStringFactory
                   (liveQueryInvalidations options))
      end
  end.
Proof.
  intros Hnone st input merging subscribed.
  assert (Hstart : forall k : State -> Run MeshInstance,
    (collectSources applySchemaTransforms (sources options) settled ;;
     st <- get ;; if failed st then throw (Error SCHEMAS_FAILED) else k st) initial
    = k st st).
  { intros k. unfold bind at 1.
    rewrite RegistryFacts.collectSources_run. cbn [initial rawSources failed events app orb].
    unfold bind at 1. unfold get at 1. cbn [failed].
    subst st. unfold settledState. by rewrite Hnone. }
  subst st input merging subscribed.
  unfold settledState, mergerInput, attach in *. cbn [rawSources events].
  destruct (merger options _) as [unifiedSchema|e] eqn:Hmerge.
  - destruct (attachInContextSdk _ _ _ _ _ _ _ _) as [meshContext|e] eqn:Hattach.
    + eexists. split.
      { unfold mesh, getMesh. rewrite Hstart.
        unfold emit. unfold_monad. cbn [rawSources failed events].
        rewrite Hmerge, Hattach, Hnone, (app_assoc _ [_] [_]). reflexivity. }
      done.
    + unfold mesh, getMesh. rewrite Hstart.
      unfold emit. unfold_monad. cbn [rawSources failed events].
      by rewrite Hmerge, Hattach, Hnone, (app_assoc _ [_] [_]).
  - unfold mesh, getMesh. rewrite Hstart.
    unfold emit. unfold_monad. cbn [rawSources failed events].
    by rewrite Hmerge, Hnone.
Qed.

(** Every callable that [getMesh] puts into the context of a raw source is
    [inContextSdkField] for that raw source, its transformed schema, one of
    the three operation types and the field it is stored under. *)
Lemma inContextSdk_callables rawSource transformedSchema typeName fields fieldName callable :
  inContextSdk parse print delegateToSchema batchDelegateToSchema rawSource transformedSchema
    !! typeName = Some (RootFields fields) ->
  fields !! fieldName = Some callable ->
  exists operationType rootTypeField,
    callable =
      Sdk.inContextSdkField parse print delegateToSchema batchDelegateToSchema
        rawSource transformedSchema operationType fieldName rootTypeField.
Proof.
  unfold inContextSdk.
  set (generated := fun (fields : gmap string Callable) =>
         forall fieldName callable, fields !! fieldName = Some callable ->
           exists operationType rootTypeField,
             callable =
               Sdk.inContextSdkField parse print delegateToSchema batchDelegateToSchema
                 rawSource transformedSchema operationType fieldName rootTypeField).
  assert (Hfields : forall operationType rootTypeFieldMap acc,
            generated acc ->
            generated
              (foldl (fun fields '(fieldName, rootTypeField) =>
                        <[fieldName :=
                            Sdk.inContextSdkField parse print delegateToSchema
                              batchDelegateToSchema rawSource transformedSchema
                              operationType fieldName rootTypeField]> fields)
                     acc rootTypeFieldMap)).
  { intros operationType rootTypeFieldMap.
    induction rootTypeFieldMap as [|[fn rootTypeField] rest IH]; intros acc Hacc; [done|].
    cbn [foldl]. apply IH. intros fn' c.
    destruct (decide (fn = fn')) as [->|Hne].
    - rewrite lookup_insert_eq. intros [= <-]. by exists operationType, rootTypeField.
    - rewrite lookup_insert_ne by done. apply Hacc. }
  assert (Hroots : forall roots (acc : gmap string RawSourceContextEntry),
            (forall typeName fields, acc !! typeName = Some (RootFields fields) ->
                                     generated fields) ->
            forall typeName fields,
              foldl (fun rawSourceContext '(operationType, rootType) =>
                       match rootType with
                       | Some rootType =>
                           <[Schema.typeName rootType :=
                               RootFields
                                 (foldl (fun fields '(fieldName, rootTypeField) =>
                                           <[fieldName :=
                                               Sdk.inContextSdkField parse print
                                                 delegateToSchema batchDelegateToSchema
                                                 rawSource transformedSchema operationType
                                                 fieldName rootTypeField]> fields)
                                        ∅ (getFields rootType))]> rawSourceContext
                       | None => rawSourceContext
                       end) acc roots !! typeName = Some (RootFields fields) ->
              generated fields).
  { induction roots as [|[operationType [rootType|]] rest IH]; intros acc Hacc tn fs;
      cbn [foldl].
    - apply Hacc.
    - apply IH. intros tn' fs'.
      destruct (decide (Schema.typeName rootType = tn')) as [->|Hne].
      + rewrite lookup_insert_eq. intros [= <-]. apply Hfields. intros ? ?.
        by rewrite lookup_empty.
      + rewrite lookup_insert_ne by done. apply Hacc.
    - by apply IH. }
  intros Hlookup. eapply Hroots; [|exact Hlookup].
  intros tn fs. destruct (decide ("rawSource" = tn)) as [<-|Hne].
  - rewrite lookup_singleton_eq. discriminate.
  - by rewrite lookup_singleton_ne.
Qed.

Lemma rejected_true a :
  rejected applySchemaTransforms a = true <->
  exists e, settle applySchemaTransforms a = Throw e.
Proof.
  unfold rejected. destruct (settle applySchemaTransforms a) as [rawSource|e].
  - split; [discriminate|]. by intros [e [=]].
  - split; [by exists e|done].
Qed.

Lemma existsb_rejected settled :
  existsb (rejected applySchemaTransforms) settled = true <->
  exists a e, a ∈ settled /\ settle applySchemaTransforms a = Throw e.
Proof.
  rewrite existsb_exists. split.
  - intros (a & Hin & Hr). apply rejected_true in Hr as [e He].
    exists a, e. split; [by apply list_elem_of_In|done].
  - intros (a & e & Hin & He). exists a. split; [by apply list_elem_of_In|].
    apply rejected_true. by exists e.
Qed.

Lemma omap_pushedBy_all_settled settled :
  (forall a, a ∈ settled -> exists rawSource, settle applySchemaTransforms a = Ok rawSource) ->
  Forall2 (fun a rawSource => settle applySchemaTransforms a = Ok rawSource)
          settled (omap (pushedBy applySchemaTransforms) settled).
Proof.
  induction settled as [|a settled IH]; intros Hall; [constructor|].
  rewrite RegistryFacts.omap_step.
  destruct (Hall a ltac:(apply list_elem_of_here)) as [rawSource Hsettled].
  unfold pushedBy at 1. rewrite Hsettled. constructor.
  - done.
  - apply IH. intros b Hb. apply Hall. by apply list_elem_of_further.
Qed.



Lemma all_settled_none_rejected settled :
  (forall a, a ∈ settled -> exists rawSource, settle applySchemaTransforms a = Ok rawSource) ->
  existsb (rejected applySchemaTransforms) settled = false.
Proof.
  intros Hall. destruct (existsb (rejected applySchemaTransforms) settled) eqn:Hrejected;
    [|done].
  apply existsb_rejected in Hrejected as (a & e & Hin & Hthrow).
  destruct (Hall a Hin) as [rawSource Hsettled]. congruence.
Qed.

(** Whatever the merger is: when [getMesh] succeeds, the map it took from
    the unified schema has a sub-schema for every raw source of the
    instance. A map that misses one makes [getMesh] throw. *)
Lemma getMesh_ok_sourceMap_covers options settled instance st :
  mesh options settled initial = (Ok instance, st) ->
  forall i, i < length (instance_rawSources instance) ->
            is_Some (instance_sourceMap instance !! i).
Proof.
  intros Hok.
  destruct (existsb (rejected applySchemaTransforms) settled) eqn:Hrejected.
  - rewrite (getMesh_some_rejected _ _ Hrejected) in Hok. discriminate.
  - pose proof (getMesh_none_rejected options settled Hrejected) as Hrun.
    cbn zeta in Hrun. destruct (merger options _) as [unifiedSchema|e].
    + destruct (attach _ _ _ _) as [meshContext|e] eqn:Hattach.
      * destruct Hrun as (instance' & Hrun & Hraw & Hmap & _).
        rewrite Hrun in Hok. injection Hok as <- _.
        rewrite Hraw, Hmap. intros i Hi.
        exact (attach_ok_covers _ _ _ _ _ Hattach i Hi).
      * rewrite Hrun in Hok. discriminate.
    + rewrite Hrun in Hok. discriminate.
Qed.

Lemma attach_throws_TypeError sourceMap rawSources :
  forall index meshContext e,
    attach sourceMap index rawSources meshContext = Throw e ->
    e = TypeError "Cannot read properties of undefined (reading 'getQueryType')".
Proof.
  induction rawSources as [|rawSource rest IH]; intros index meshContext e; cbn.
  - discriminate.
  - destruct (sourceMap !! index); [apply IH|]. by intros [= <-].
Qed.

Lemma attach_keeps_other_names sourceMap rawSources :
  forall index meshContext meshContext' n,
    attach sourceMap index rawSources meshContext = Ok meshContext' ->
    n ∉ map RawSourceOutput.name rawSources ->
    meshContext' !! n = meshContext !! n.
Proof.
  induction rawSources as [|rawSource rest IH]; intros index meshContext meshContext' n; cbn.
  - by intros [= <-].
  - destruct (sourceMap !! index) as [transformedSchema|]; [|discriminate].
    intros Hattach Hn. apply not_elem_of_cons in Hn as [Hne Hn].
    rewrite (IH _ _ _ _ Hattach Hn). by rewrite lookup_insert_ne.
Qed.

Lemma attach_last_of_a_name sourceMap before rawSource after :
  forall index meshContext meshContext',
    attach sourceMap index (before ++ rawSource :: after) meshContext = Ok meshContext' ->
    RawSourceOutput.name rawSource ∉ map RawSourceOutput.name after ->
    exists transformedSchema,
      sourceMap !! (index + length before) = Some transformedSchema /\
      meshContext' !! RawSourceOutput.name rawSource
        = Some (SourceContext (sdkOf rawSource transformedSchema)).
Proof.
  induction before as [|r before IH]; intros index meshContext meshContext'; cbn.
  - destruct (sourceMap !! index) as [transformedSchema|] eqn:Hlook; [|discriminate].
    intros Hattach Hlast. exists transformedSchema. rewrite Nat.add_0_r.
    split; [done|].
    rewrite (attach_keeps_other_names _ _ _ _ _ _ Hattach Hlast).
    by rewrite lookup_insert_eq.
  - destruct (sourceMap !! index) as [transformedSchema|]; [|discriminate].
    intros Hattach Hlast. replace (index + S (length before)) with (S index + length before)
      by lia.
    by eapply IH.
Qed.

(** C7, as the code has it. Take sources that all come through their [try]
    block (the handler resolves and the bare transforms apply), in whatever
    order they settle, and a merger that resolves. The merger was handed one
    raw source per configured source, the one pushed for it, under its
    name. [getMesh] then succeeds exactly when the map attached to the
    unified schema has a sub-schema for each of these raw sources. When it
    succeeds, the instance lists these raw sources, and for every raw source
    the sub-schema found under it is the one from which the in-context SDK
    under its name was generated (where several raw sources bear one name,
    the last of them owns the name). *)
Theorem getMesh_one_rawSource_per_source
    (options : GetMeshOptions) (settled : list ApiSource.t)
    (unifiedSchema : UnifiedSchema) :
  settled ≡ₚ sources options ->
  (forall a, a ∈ sources options ->
     exists rawSource, settle applySchemaTransforms a = Ok rawSource) ->
  merger options (mergerInput options settled) = Ok unifiedSchema ->
  let run := mesh options settled initial in
  let registered := mi_rawSources (mergerInput options settled) in
  GetUnifiedSchemaCalled (mergerInput options settled) ∈ events run.2 /\
  length registered = length (sources options) /\
  Forall2 (fun a rawSource => settle applySchemaTransforms a = Ok rawSource)
          settled registered /\
  map RawSourceOutput.name registered ≡ₚ map ApiSource.name (sources options) /\
  ((exists instance, run.1 = Ok instance) <->
   (forall i, i < length (sources options) -> is_Some (sourceMap unifiedSchema !! i))) /\
  (forall instance, run.1 = Ok instance ->
     instance_rawSources instance = registered /\
     instance_sourceMap instance = sourceMap unifiedSchema /\
     forall i rawSource,
       registered !! i = Some rawSource ->
       exists transformedSchema,
         instance_sourceMap instance !! i = Some transformedSchema /\
         (RawSourceOutput.name rawSource
            ∉ map RawSourceOutput.name (drop (S i) registered) ->
          meshContext instance !! RawSourceOutput.name rawSource
            = Some (SourceContext (sdkOf rawSource transformedSchema)))).
Proof.
  intros Hperm Hall Hmerger run registered.
  assert (Hall' : forall a, a ∈ settled ->
            exists rawSource, settle applySchemaTransforms a = Ok rawSource).
  { intros a Ha. apply Hall. by rewrite <- Hperm. }
  pose proof (all_settled_none_rejected settled Hall') as Hnone.
  pose proof (omap_pushedBy_all_settled settled Hall') as Hpushed.
  pose proof (getMesh_none_rejected options settled Hnone) as Hrun.
  cbn zeta in Hrun. unfold settledState in Hrun. cbn [rawSources events] in Hrun.
  rewrite Hmerger in Hrun. fold run in Hrun.
  subst registered. unfold mergerInput at 2 3 4 5 6 7. cbn [mi_rawSources].
  set (raws := omap (pushedBy applySchemaTransforms) settled) in *.
  assert (Hlen : length raws = length (sources options)).
  { rewrite <- (Forall2_length _ _ _ Hpushed). by rewrite Hperm. }
  assert (Hcalled : GetUnifiedSchemaCalled (mergerInput options settled) ∈ events run.2).
  { destruct (attach _ _ _ _) as [context|e].
    - destruct Hrun as (instance & -> & _). cbn [snd events].
      rewrite !elem_of_app. right. left. apply list_elem_of_here.
    - rewrite Hrun. cbn [snd events].
      rewrite !elem_of_app. right. left. apply list_elem_of_here. }
  split; [exact Hcalled|]. split; [exact Hlen|]. split; [exact Hpushed|].
  split; [|split].
  - rewrite <- Hperm. clear -Hpushed.
    induction Hpushed as [|a r settled' raws' Hsettled _ IH]; [done|].
    cbn [map]. rewrite (RegistryFacts.settle_name _ _ _ Hsettled). by constructor.
  - split.
    + intros [instance Hok] i Hi.
      destruct (attach _ _ _ _) as [context|e] eqn:Hattach.
      * exact (attach_ok_covers _ _ _ _ _ Hattach i ltac:(by rewrite Hlen)).
      * rewrite Hrun in Hok. discriminate.
    + intros Hcovered.
      destruct (attach_total (sourceMap unifiedSchema) raws 0
                  (<["liveQueryStore" := TheLiveQueryStore]>
                     (<["cache" := TheCache]> (<["pubsub" := ThePubSub]> ∅))))
        as [context Hattach].
      { intros j Hj. apply Hcovered. by rewrite <- Hlen. }
      rewrite Hattach in Hrun. destruct Hrun as (instance & -> & _). by exists instance.
  - intros instance Hok.
    destruct (attach _ _ _ _) as [context|e] eqn:Hattach.
    + destruct Hrun as (instance' & Hrun & Hraw & Hmap & Hcontext & _).
      rewrite Hrun in Hok. injection Hok as <-.
      split; [exact Hraw|]. split; [exact Hmap|].
      intros i rawSource Hi.
      destruct (attach_ok_covers _ _ _ _ _ Hattach i (lookup_lt_Some _ _ _ Hi))
        as [transformedSchema Hlook].
      exists transformedSchema. rewrite Hmap. split; [exact Hlook|].
      intros Hlast. rewrite Hcontext.
      rewrite <- (take_drop_middle _ _ _ Hi) in Hattach.
      destruct (attach_last_of_a_name _ _ _ _ _ _ _ Hattach Hlast)
        as (transformedSchema' & Hlook' & Hsdk).
      rewrite length_take_le in Hlook' by (apply lookup_lt_Some in Hi; lia).
      cbn in Hlook, Hlook'. rewrite Hlook in Hlook'. by injection Hlook' as <-.
    + rewrite Hrun in Hok. discriminate.
Qed.

End GetMesh.

(** Two sources settling in reverse order, with the merger of the spec:
    both are registered, in settle order, and [getMesh] succeeds. *)
Lemma getMesh_one_rawSource_per_source_witness :
  exists instance,
    (Samples.getMeshFor [Samples.todosSource; Samples.moviesSource]
                        [Samples.moviesSource; Samples.todosSource]).1 = Ok instance /\
    length (instance_rawSources instance) = 2 /\
    map RawSourceOutput.name (instance_rawSources instance)
      ≡ₚ ["Todos"; "Movies"] /\
    exists sdk, meshContext instance !! "Movies" = Some (SourceContext sdk).
Proof.
  destruct (getMesh_one_rawSource_per_source
              Samples.parseIdName Samples.printIdName Samples.printIdName
              Samples.delegateAnswer Samples.batchAnswer Samples.interpolateArgsId
              Samples.keepSchema Samples.keepHooks Samples.jitFine Samples.sameExecute
              (Samples.optionsFor [Samples.todosSource; Samples.moviesSource])
              [Samples.moviesSource; Samples.todosSource]
              {| unified := Samples.todoSchema;
                 sourceMap :=
                   map_seq 0 [Samples.movieSchema; Samples.todoSchema] |}
              (perm_swap Samples.todosSource Samples.moviesSource [])
              ltac:(intros a Ha; apply elem_of_cons in Ha as [->|Ha];
                    [by eexists|apply elem_of_cons in Ha as [->|Ha];
                                [by eexists|by apply elem_of_nil in Ha]])
              eq_refl)
    as (_ & Hlen & _ & Hnames & [_ Hsucceeds] & Hinstance).
  destruct Hsucceeds as [instance Hok].
  { intros i Hi. cbn [sourceMap]. rewrite lookup_map_seq_0.
    destruct i as [|[|i]]; [by eexists|by eexists|cbn in Hi; lia]. }
  exists instance. split; [exact Hok|].
  destruct (Hinstance instance Hok) as (Hraw & _ & Hsdk).
  rewrite Hraw. split; [exact Hlen|]. split; [exact Hnames|].
  destruct (Hsdk 0 _ eq_refl) as (transformedSchema & _ & Hcontext).
  eexists. apply Hcontext. cbn. intros Hin.
  apply elem_of_cons in Hin as [Hin|Hin]; [discriminate|]. by apply elem_of_nil in Hin.
Defined.

(** C7 as the spec has it fails: the handler of the one configured source
    resolves, but its bare transform throws; the source is not registered
    and [getMesh] throws. *)
Lemma getMesh_fails_though_every_handler_resolves :
  let run := MoreSamples.getMeshRenaming [MoreSamples.renamedSource]
                                         [MoreSamples.renamedSource] in
  (exists source,
     getMeshSource (ApiSource.handler MoreSamples.renamedSource) = Ok source) /\
  run.1 = Throw (Error SCHEMAS_FAILED) /\
  rawSources run.2 = [] /\
  LoggerError "Renamed" "Failed to generate schema: Cannot rename type Query"
    ∈ events run.2.
Proof.
  cbn zeta. split; [by eexists|]. split; [reflexivity|]. split; [reflexivity|].
  vm_compute. apply list_elem_of_further, list_elem_of_further, list_elem_of_here.
Qed.



End GetMeshFacts.

(** * More properties of the code *)

(** ** The Neo4J handler: caching, failures, teardown *)
Module Neo4JMore.
Import Neo4J Neo4JUse.

Section Handler.

Variable name : string.
Variable config : Config.
Variable makeAugmentedSchema : string -> Result GraphQLSchema.

(** What [getMeshSource] returns once it has type definitions. *)
Let built (typeDefs : string) : Result MeshSource.t :=
  match makeAugmentedSchema typeDefs with
  | Ok schema =>
      Ok {| MeshSource.schema := schema;
            MeshSource.executor := None;
            MeshSource.contextVariables := None;
            MeshSource.batch := None;
            MeshSource.contextBuilder := Some (ContextBuilderHandle 0) |}
  | Throw e => Throw e
  end.

Let store (typeDefs : string) (w : World) : World :=
  {| driver := driver w; opened := opened w; subscriptions := subscriptions w;
     cache := <[cacheKey name := typeDefs]> (cache w) |}.

Lemma getMeshSource_hit inferSchema w typeDefs :
  truthy_bool (cacheIntrospection config) = true ->
  cache w !! cacheKey name = Some typeDefs -> typeDefs <> "" ->
  getMeshSource name config inferSchema makeAugmentedSchema w = (built typeDefs, w).
Proof.
  intros Hon Hcached Hne. unfold getMeshSource. rewrite Hon.
  unfold bind at 1. unfold cache_get. fold (cacheKey name). rewrite Hcached.
  unfold bind at 1. cbn [truthy_string]. apply String.eqb_neq in Hne. rewrite Hne.
  cbn [negb default]. unfold ret at 1. unfold bind, lift, ret, built, id.
  by destruct (makeAugmentedSchema typeDefs).
Qed.

Lemma getMeshSource_miss inferSchema w d w1 :
  truthy_bool (cacheIntrospection config) = false \/
  cache w !! cacheKey name = None \/ cache w !! cacheKey name = Some "" ->
  getDriver config w = (Ok d, w1) ->
  getMeshSource name config inferSchema makeAugmentedSchema w =
    match inferSchema d (alwaysIncludeRelationships config) with
    | Ok typeDefs =>
        (built typeDefs,
         if truthy_bool (cacheIntrospection config) then store typeDefs w1 else w1)
    | Throw e => (Throw e, w1)
    end.
Proof.
  intros Hmiss Hdriver. unfold getMeshSource. unfold bind at 1.
  assert (Hcached : exists cached,
    (if truthy_bool (cacheIntrospection config)
     then cache_get (name +:+ "_introspection") else ret None) w = (Ok cached, w) /\
    truthy_string cached = false).
  { destruct (truthy_bool (cacheIntrospection config)) eqn:Hon.
    - exists (cache w !! cacheKey name). split; [reflexivity|].
      destruct Hmiss as [?|[-> | ->]]; [discriminate|done|done].
    - by exists None. }
  destruct Hcached as (cached & -> & Hfalsy). unfold bind at 1. rewrite Hfalsy.
  cbn [negb]. unfold bind at 1. rewrite Hdriver. unfold bind at 1. unfold lift at 1.
  destruct (inferSchema d _) as [typeDefs|e]; [|reflexivity].
  unfold bind at 1.
  destruct (truthy_bool (cacheIntrospection config)).
  - unfold cache_set, modify. unfold ret at 1. unfold bind, lift, ret, built.
    fold (cacheKey name). unfold store. by destruct (makeAugmentedSchema typeDefs).
  - unfold ret at 1 2. unfold bind, lift, ret, built.
    by destruct (makeAugmentedSchema typeDefs).
Qed.

Lemma hit_or_miss w :
  (truthy_bool (cacheIntrospection config) = true /\
   exists typeDefs, cache w !! cacheKey name = Some typeDefs /\ typeDefs <> "") \/
  (truthy_bool (cacheIntrospection config) = false \/
   cache w !! cacheKey name = None \/ cache w !! cacheKey name = Some "").
Proof.
  destruct (truthy_bool (cacheIntrospection config)); [|by right; left].
  destruct (cache w !! cacheKey name) as [typeDefs|]; [|by right; right; left].
  destruct (decide (typeDefs = "")) as [->|Hne]; [by right; right; right|].
  left. split; [done|]. by exists typeDefs.
Qed.

(** With [cacheIntrospection] on, a successful [getMeshSource] leaves the
    type definitions it built the schema from in the cache, under
    [name + "_introspection"]. Unless they are the empty string, the next
    [getMeshSource] returns the same source from the cache alone: it does
    not depend on [inferSchema] and changes nothing, so it opens no
    driver. *)
Theorem cached_introspection_is_reused
    (inferSchema : Driver -> option bool -> Result string)
    (w w1 : World) (source : MeshSource.t) :
  truthy_bool (cacheIntrospection config) = true ->
  getMeshSource name config inferSchema makeAugmentedSchema w = (Ok source, w1) ->
  exists typeDefs,
    cache w1 !! cacheKey name = Some typeDefs /\
    makeAugmentedSchema typeDefs = Ok (MeshSource.schema source) /\
    (typeDefs <> "" ->
     forall inferSchema',
       getMeshSource name config inferSchema' makeAugmentedSchema w1 = (Ok source, w1)).
Proof.
  intros Hon Hrun.
  assert (Hbuilt : forall typeDefs, built typeDefs = Ok source ->
            makeAugmentedSchema typeDefs = Ok (MeshSource.schema source)).
  { intros typeDefs. unfold built. destruct (makeAugmentedSchema typeDefs); [|discriminate].
    by intros [= <-]. }
  destruct (hit_or_miss w) as [(_ & typeDefs & Hcached & Hne)|Hmiss].
  - rewrite (getMeshSource_hit _ _ _ Hon Hcached Hne) in Hrun.
    injection Hrun as Hsource <-. exists typeDefs.
    split; [done|]. split; [by apply Hbuilt|].
    intros _ inferSchema'. by rewrite (getMeshSource_hit _ _ _ Hon Hcached Hne), Hsource.
  - destruct (Neo4JFacts.getDriver_succeeds config w) as (d & w' & Hdriver).
    rewrite (getMeshSource_miss _ _ _ _ Hmiss Hdriver), Hon in Hrun.
    destruct (inferSchema d _) as [typeDefs|e]; [|discriminate].
    injection Hrun as Hsource <-. exists typeDefs.
    assert (Hstored : cache (store typeDefs w') !! cacheKey name = Some typeDefs)
      by apply lookup_insert_eq.
    split; [done|]. split; [by apply Hbuilt|].
    intros Hne inferSchema'. by rewrite (getMeshSource_hit _ _ _ Hon Hstored Hne), Hsource.
Qed.

(** With [cacheIntrospection] off or missing, [getMeshSource] never reads or
    writes the cache: it always goes through the driver, which is stored
    afterwards whatever the outcome, and a source it returns was built from
    what [inferSchema] answered for that driver. *)
Theorem without_caching_always_infers
    (inferSchema : Driver -> option bool -> Result string) (w : World) :
  truthy_bool (cacheIntrospection config) = false ->
  let run := getMeshSource name config inferSchema makeAugmentedSchema w in
  cache run.2 = cache w /\
  exists d,
    driver run.2 = Some d /\
    (getDriver config w).1 = Ok d /\
    forall source, run.1 = Ok source ->
      exists typeDefs,
        inferSchema d (alwaysIncludeRelationships config) = Ok typeDefs /\
        makeAugmentedSchema typeDefs = Ok (MeshSource.schema source).
Proof.
  intros Hoff run.
  destruct (Neo4JFacts.getDriver_succeeds config w) as (d & w' & Hdriver).
  assert (Hw' : cache w' = cache w /\ driver w' = Some d).
  { destruct (driver w) as [d0|] eqn:Hd.
    - rewrite (Neo4JFacts.getDriver_later _ _ _ Hd) in Hdriver. by injection Hdriver as <- <-.
    - rewrite (Neo4JFacts.getDriver_first _ _ Hd) in Hdriver. by injection Hdriver as <- <-. }
  subst run. rewrite (getMeshSource_miss _ _ _ _ (or_introl Hoff) Hdriver), Hoff, Hdriver.
  destruct (inferSchema d (alwaysIncludeRelationships config)) as [typeDefs|e] eqn:Hinfer;
    cbn [fst snd].
  - split; [apply Hw'|]. exists d. split; [apply Hw'|]. split; [done|].
    intros source Hsource. exists typeDefs. split; [exact Hinfer|].
    unfold built in Hsource. destruct (makeAugmentedSchema typeDefs); [|discriminate].
    by injection Hsource as <-.
  - split; [apply Hw'|]. exists d. split; [apply Hw'|]. split; [done|]. discriminate.
Qed.

(** On a cache miss with [cacheIntrospection] on, the inferred type
    definitions are cached before the schema is built from them. When they
    are not the empty string and [makeAugmentedSchema] rejects them,
    [getMeshSource] throws and the rejected definitions stay cached: every
    later [getMeshSource] throws the same error without asking [inferSchema]
    again. (Empty type definitions are cached too, but read back as a miss.) *)
Theorem rejected_typeDefs_stay_cached
    (inferSchema : Driver -> option bool -> Result string)
    (w w1 : World) (d : Driver) (typeDefs : string) (e : JsError) :
  truthy_bool (cacheIntrospection config) = true ->
  cache w !! cacheKey name = None \/ cache w !! cacheKey name = Some "" ->
  getDriver config w = (Ok d, w1) ->
  inferSchema d (alwaysIncludeRelationships config) = Ok typeDefs ->
  typeDefs <> "" ->
  makeAugmentedSchema typeDefs = Throw e ->
  exists w2,
    getMeshSource name config inferSchema makeAugmentedSchema w = (Throw e, w2) /\
    cache w2 !! cacheKey name = Some typeDefs /\
    forall inferSchema',
      getMeshSource name config inferSchema' makeAugmentedSchema w2 = (Throw e, w2).
Proof.
  intros Hon Hmiss Hdriver Hinfer Hne Hreject. exists (store typeDefs w1).
  assert (Hstored : cache (store typeDefs w1) !! cacheKey name = Some typeDefs)
    by apply lookup_insert_eq.
  assert (Hbuilt : built typeDefs = Throw e) by (unfold built; by rewrite Hreject).
  split; [|split; [done|]].
  - by rewrite (getMeshSource_miss _ _ _ _ (or_intror Hmiss) Hdriver), Hinfer, Hon, Hbuilt.
  - intros inferSchema'. by rewrite (getMeshSource_hit _ _ _ Hon Hstored Hne), Hbuilt.
Qed.

(** When [inferSchema] fails on a freshly constructed handler,
    [getMeshSource] throws its error and writes nothing to the cache, but
    the driver it opened for the attempt stays: it is stored in the handler
    and has its [destroy] listener. *)
Theorem failed_inference_keeps_the_driver
    (inferSchema : Driver -> option bool -> Result string)
    (cache0 : gmap string string) (subs : list (string * Listener)) (e : JsError) :
  truthy_bool (cacheIntrospection config) = false \/
  cache0 !! cacheKey name = None \/ cache0 !! cacheKey name = Some "" ->
  (forall d, inferSchema d (alwaysIncludeRelationships config) = Throw e) ->
  exists d w,
    getMeshSource name config inferSchema makeAugmentedSchema (constructed cache0 subs)
      = (Throw e, w) /\
    cache w = cache0 /\
    driver w = Some d /\ opened w = [d] /\
    subscriptions w = (subs ++ [("destroy", CloseThisDriver)])%list.
Proof.
  intros Hmiss Hfail.
  pose proof (Neo4JFacts.getDriver_first config (constructed cache0 subs) eq_refl) as Hdriver.
  eexists _, _. split.
  - rewrite (getMeshSource_miss inferSchema (constructed cache0 subs) _ _ Hmiss Hdriver),
      Hfail. reflexivity.
  - done.
Qed.

(** Whatever methods of a freshly constructed handler are called, in
    whatever order and whatever they return or throw, the handler opens at
    most one driver and adds at most one listener, on [destroy]: either
    nothing was opened and the pubsub is untouched, or the one driver opened
    is the stored one. *)
Theorem any_use_opens_one_driver_at_most
    (inferSchema : Driver -> option bool -> Result string)
    (cache0 : gmap string string) (subs : list (string * Listener))
    (methods : list Method) :
  let w := afterAll name config inferSchema makeAugmentedSchema methods
             (constructed cache0 subs) in
  (driver w = None /\ opened w = [] /\ subscriptions w = subs) \/
  (exists d, driver w = Some d /\ opened w = [d] /\
             subscriptions w = (subs ++ [("destroy", CloseThisDriver)])%list).
Proof.
  intros w.
  assert (Hinv : holdsOneDriverAtMost subs w).
  { subst w. unfold afterAll.
    generalize (Neo4JFacts.constructed_holdsOneDriverAtMost cache0 subs).
    generalize (constructed cache0 subs). induction methods as [|m rest IH]; intros w0 H0.
    - exact H0.
    - cbn [foldl]. apply IH. destruct m; cbn [after].
      + by apply Neo4JFacts.getDriver_holdsOneDriverAtMost.
      + by apply Neo4JFacts.getMeshSource_holdsOneDriverAtMost.
      + by apply Neo4JFacts.contextBuilder_holdsOneDriverAtMost. }
  unfold holdsOneDriverAtMost in Hinv. destruct (driver w) as [d|].
  - right. by exists d.
  - by left.
Qed.

Lemma deliver_other_topics topic subs p :
  Forall (fun s => s.1 <> topic) subs -> deliver topic subs p = (Ok tt, p).
Proof.
  induction 1 as [|[t l] rest Hne _ IH]; [reflexivity|].
  cbn [deliver]. cbn in Hne. apply String.eqb_neq in Hne. rewrite Hne.
  unfold bind at 1. unfold ret at 1. exact IH.
Qed.

(** Teardown of a mesh that shares its pubsub with the handler, after any
    use of the handler, when the pubsub had no [destroy] listener before:
    [destroy()] calls [close] on the driver the handler opened, once, and on
    nothing when no driver was opened. A second [destroy()] calls [close] on
    the same driver again. *)
Theorem destroy_closes_what_was_opened
    (inferSchema : Driver -> option bool -> Result string)
    (cache0 : gmap string string) (subs : list (string * Listener))
    (methods : list Method) :
  Forall (fun s => s.1 <> "destroy") subs ->
  let w := afterAll name config inferSchema makeAugmentedSchema methods
             (constructed cache0 subs) in
  destroy {| world := w; closed := [] |} = (Ok tt, {| world := w; closed := opened w |}) /\
  (destroy ;; destroy) {| world := w; closed := [] |}
    = (Ok tt, {| world := w; closed := (opened w ++ opened w)%list |}).
Proof.
  intros Hsubs w.
  assert (Hdestroy : forall closed0,
    destroy {| world := w; closed := closed0 |}
      = (Ok tt, {| world := w; closed := (closed0 ++ opened w)%list |})).
  { intros closed0. unfold destroy, pubsub_publish. cbn [world].
    destruct (any_use_opens_one_driver_at_most inferSchema cache0 subs methods)
      as [(Hd & Ho & Hs)|(d & Hd & Ho & Hs)]; fold w in Hd, Ho, Hs; rewrite Hs, Ho.
    - rewrite deliver_other_topics by done. by rewrite app_nil_r.
    - assert (Hgen : forall subs0 p, Forall (fun s => s.1 <> "destroy") subs0 ->
                deliver "destroy" (subs0 ++ [("destroy", CloseThisDriver)]) p
                  = runListener CloseThisDriver p).
      { induction 1 as [|[t l] rest Hne _ IH].
        - cbn. unfold bind, ret, runListener. by destruct (driver (world p)).
        - cbn [app deliver]. cbn in Hne. apply String.eqb_neq in Hne. rewrite Hne.
          unfold bind at 1. unfold ret at 1. exact IH. }
      rewrite Hgen by done. unfold runListener. cbn [world closed]. by rewrite Hd. }
  split.
  - by rewrite Hdestroy.
  - unfold bind. by rewrite !Hdestroy.
Qed.

End Handler.

Lemma cached_introspection_is_reused_witness :
  exists source w1,
    getMeshSource "movies" Samples.neo4jConfig Samples.inferMovies Samples.augmentMovies
      Samples.freshNeo4J = (Ok source, w1) /\
    getMeshSource "movies" Samples.neo4jConfig MoreSamples.inferUnreachable
      Samples.augmentMovies w1 = (Ok source, w1) /\
    opened w1 = opened (getDriver Samples.neo4jConfig Samples.freshNeo4J).2.
Proof.
  eexists _, _. split; [reflexivity|].
  destruct (cached_introspection_is_reused "movies" Samples.neo4jConfig
              Samples.augmentMovies Samples.inferMovies Samples.freshNeo4J _ _
              eq_refl eq_refl) as (typeDefs & Hcached & _ & Hagain).
  injection Hcached as <-.
  split; [apply Hagain; discriminate|reflexivity].
Defined.

Lemma without_caching_always_infers_witness :
  let run := getMeshSource "movies" MoreSamples.neo4jUncached Samples.inferMovies
               Samples.augmentMovies Samples.freshNeo4J in
  cache run.2 = ∅ /\ is_Some (driver run.2).
Proof.
  destruct (without_caching_always_infers "movies" MoreSamples.neo4jUncached
              Samples.augmentMovies Samples.inferMovies Samples.freshNeo4J eq_refl)
    as (Hcache & d & Hdriver & _).
  split; [exact Hcache|]. by exists d.
Defined.

Lemma rejected_typeDefs_stay_cached_witness :
  exists w2,
    getMeshSource "movies" Samples.neo4jConfig Samples.inferMovies
      MoreSamples.augmentNothing Samples.freshNeo4J
      = (Throw (GraphQLSyntaxError "Syntax Error: Unexpected Name"), w2) /\
    getMeshSource "movies" Samples.neo4jConfig MoreSamples.inferUnreachable
      MoreSamples.augmentNothing w2
      = (Throw (GraphQLSyntaxError "Syntax Error: Unexpected Name"), w2).
Proof.
  destruct (rejected_typeDefs_stay_cached "movies" Samples.neo4jConfig
              MoreSamples.augmentNothing Samples.inferMovies Samples.freshNeo4J _ _
              "type Movie { title: String }"
              (GraphQLSyntaxError "Syntax Error: Unexpected Name")
              eq_refl (or_introl eq_refl)
              (Neo4JFacts.getDriver_first Samples.neo4jConfig Samples.freshNeo4J eq_refl)
              eq_refl ltac:(discriminate) eq_refl) as (w2 & Hfirst & _ & Hlater).
  exists w2. split; [exact Hfirst|apply Hlater].
Defined.

Lemma failed_inference_keeps_the_driver_witness :
  exists d w,
    getMeshSource "movies" Samples.neo4jConfig MoreSamples.inferUnreachable
      Samples.augmentMovies Samples.freshNeo4J = (Throw (Error "ServiceUnavailable"), w) /\
    opened w = [d] /\ listeners "destroy" w = 1.
Proof.
  destruct (failed_inference_keeps_the_driver "movies" Samples.neo4jConfig
              Samples.augmentMovies MoreSamples.inferUnreachable ∅ []
              (Error "ServiceUnavailable")
              (or_intror (or_introl (lookup_empty (cacheKey "movies"))))
              (fun _ => eq_refl)) as (d & w & Hrun & _ & _ & Hopened & Hsubs).
  exists d, w. split; [exact Hrun|]. split; [exact Hopened|].
  unfold listeners. by rewrite Hsubs.
Defined.

Lemma destroy_closes_what_was_opened_witness :
  let w := afterAll "movies" Samples.neo4jConfig Samples.inferMovies Samples.augmentMovies
             [GetMeshSource; ContextBuilder; GetDriver; GetMeshSource]
             (constructed ∅ [("resolverDone", CloseThisDriver)]) in
  exists d, (destroy {| world := w; closed := [] |}).2 = {| world := w; closed := [d] |}.
Proof.
  cbn zeta.
  destruct (destroy_closes_what_was_opened "movies" Samples.neo4jConfig
              Samples.augmentMovies Samples.inferMovies ∅
              [("resolverDone", CloseThisDriver)]
              [GetMeshSource; ContextBuilder; GetDriver; GetMeshSource]) as [Hdestroy _].
  { repeat constructor. cbn. discriminate. }
  rewrite Hdestroy. eexists. reflexivity.
Defined.

End Neo4JMore.

(** ** [getMesh]: the merger, the source map and the mesh context *)
Module GetMeshMore.
Import Runtime.

Section GetMesh.

Variable parse : string -> Result DocumentNode.
Variable print : DocumentNode -> string.
Variable printWithCache : DocumentNode -> string.
Variable delegateToSchema : Sdk.IDelegateToSchemaOptions.t -> Result JsValue.
Variable batchDelegateToSchema : Sdk.BatchDelegateOptions.t -> Result JsValue.
Variable getInterpolatedStringFactory : string -> ResolverDataBasedFactory string.
Variable applySchemaTransforms :
  GraphQLSchema -> MeshSource.t -> list MeshTransform -> Result GraphQLSchema.
Variable applyResolversHooksToSchema :
  GraphQLSchema -> gmap string MeshContextEntry -> GraphQLSchema.
Variable jitExecutorFactory :
  GraphQLSchema -> string -> Facade.ExecutionArgs -> Result ExecutionResult.
Variable makeExecute :
  (Facade.ExecutionArgs -> Result ExecutionResult) ->
  Facade.ExecutionArgs -> Result ExecutionResult.

Let mesh :=
  getMesh parse print printWithCache delegateToSchema batchDelegateToSchema
    getInterpolatedStringFactory applySchemaTransforms applyResolversHooksToSchema
    jitExecutorFactory makeExecute.
Let attach := attachInContextSdk parse print delegateToSchema batchDelegateToSchema.
Let sdkOf := inContextSdk parse print delegateToSchema batchDelegateToSchema.

(** The raw sources and the merger input once every promise has settled. *)
Let registered (settled : list ApiSource.t) : list RawSourceOutput.t :=
  omap (pushedBy applySchemaTransforms) settled.
Let inputFor (options : GetMeshOptions) (settled : list ApiSource.t) : MergerInput :=
  {| mi_rawSources := registered settled;
     mi_typeDefs := additionalTypeDefs options;
     mi_resolvers := additionalResolvers options;
     mi_transforms := transforms options |}.

(** The mesh context before the SDKs are attached. *)
Let bareContext : gmap string MeshContextEntry :=
  <["liveQueryStore" := TheLiveQueryStore]>
    (<["cache" := TheCache]> (<["pubsub" := ThePubSub]> ∅)).

Lemma getMesh_steps options settled :
  existsb (rejected applySchemaTransforms) settled = false ->
  match merger options (inputFor options settled) with
  | Throw e =>
      (mesh options settled initial).1 = Throw e /\
      events (mesh options settled initial).2 =
        (map (fun a => GetMeshSourceCalled (ApiSource.name a)) (sources options)
         ++ flat_map (loggedBy applySchemaTransforms) settled
         ++ [GetUnifiedSchemaCalled (inputFor options settled)])%list
  | Ok unifiedSchema =>
      match attach (sourceMap unifiedSchema) 0 (registered settled) bareContext with
      | Throw e => (mesh options settled initial).1 = Throw e
      | Ok context =>
          exists instance,
            (mesh options settled initial).1 = Ok instance /\
            instance_rawSources instance = registered settled /\
            instance_sourceMap instance = sourceMap unifiedSchema /\
            meshContext instance = context /\
            onResolverDone instance =
              LiveQuery.resolverDoneSubscriber
                (LiveQuery.liveQueryInvalidationFactoryMap getInterpolatedStringFactory
                   (liveQueryInvalidations options))
      end
  end.
Proof.
  intros Hnone.
  pose proof (GetMeshFacts.getMesh_none_rejected parse print printWithCache
                delegateToSchema batchDelegateToSchema getInterpolatedStringFactory
                applySchemaTransforms applyResolversHooksToSchema jitExecutorFactory
                makeExecute options settled Hnone) as Hrun.
  cbn zeta in Hrun. cbn [rawSources events] in Hrun.
  fold (registered settled) in Hrun. fold (inputFor options settled) in Hrun.
  fold bareContext in Hrun. fold attach in Hrun. fold mesh in Hrun.
  destruct (merger options (inputFor options settled)) as [unifiedSchema|e].
  - destruct (attach _ _ _ _) as [context|e].
    + destruct Hrun as (instance & Hrun & Hrest). exists instance.
      by rewrite Hrun.
    + by rewrite Hrun.
  - rewrite Hrun. cbn [fst snd events]. by rewrite <- app_assoc.
Qed.

Lemma getMesh_ok options settled instance st :
  mesh options settled initial = (Ok instance, st) ->
  existsb (rejected applySchemaTransforms) settled = false /\
  exists unifiedSchema,
    merger options (inputFor options settled) = Ok unifiedSchema /\
    attach (sourceMap unifiedSchema) 0 (registered settled) bareContext
      = Ok (meshContext instance) /\
    instance_rawSources instance = registered settled /\
    instance_sourceMap instance = sourceMap unifiedSchema /\
    onResolverDone instance =
      LiveQuery.resolverDoneSubscriber
        (LiveQuery.liveQueryInvalidationFactoryMap getInterpolatedStringFactory
           (liveQueryInvalidations options)).
Proof.
  intros Hok. destruct (existsb (rejected applySchemaTransforms) settled) eqn:Hrejected.
  - unfold mesh in Hok. rewrite (GetMeshFacts.getMesh_some_rejected _ _ _ _ _ _ _ _ _ _ _ _
                                   Hrejected) in Hok. discriminate.
  - split; [done|]. pose proof (getMesh_steps options settled Hrejected) as Hsteps.
    rewrite Hok in Hsteps. cbn [fst snd] in Hsteps.
    destruct (merger options _) as [unifiedSchema|e]; [|by destruct Hsteps].
    exists unifiedSchema. split; [done|].
    destruct (attach _ _ _ _) as [context|e]; [|discriminate].
    destruct Hsteps as (instance' & [= <-] & Hraw & Hmap & <- & Hdone). done.
Qed.

(** An error of the merger is the error of [getMesh], as it is: when every
    source has come through its [try] block (its handler resolved and its
    bare transforms applied) and [getUnifiedSchema] rejects, [getMesh]
    rejects with the same value right after calling it, and has not
    subscribed to [resolverDone]. *)
Theorem merger_error_is_rethrown
    (options : GetMeshOptions) (settled : list ApiSource.t) (e : JsError) :
  (forall a, a ∈ settled ->
     exists rawSource, settle applySchemaTransforms a = Ok rawSource) ->
  merger options (inputFor options settled) = Throw e ->
  let run := mesh options settled initial in
  run.1 = Throw e /\
  last (events run.2) = Some (GetUnifiedSchemaCalled (inputFor options settled)) /\
  forall topic, PubSubSubscribed topic ∉ events run.2.
Proof.
  intros Hall Hmerger run.
  pose proof (getMesh_steps options settled
                (GetMeshFacts.all_settled_none_rejected applySchemaTransforms settled Hall)) as Hsteps.
  rewrite Hmerger in Hsteps. fold run in Hsteps. destruct Hsteps as [Houtcome Hevents].
  split; [done|]. rewrite Hevents. split.
  - by rewrite !app_assoc, last_snoc.
  - intros topic Hin. rewrite !elem_of_app in Hin. destruct Hin as [Hin|[Hin|Hin]].
    + apply list_elem_of_fmap in Hin as (a & [=] & _).
    + apply list_elem_of_In, in_flat_map in Hin as (a & _ & Hin).
      unfold loggedBy in Hin. destruct (settle applySchemaTransforms a).
      * destruct Hin.
      * destruct Hin as [[=]|[[=]|[]]].
    + apply list_elem_of_singleton in Hin. discriminate.
Qed.

(** [getMesh] needs a sub-schema for every raw source in the map the merger
    attaches. When every source has come through its [try] block (its
    handler resolved and its bare transforms applied) and the merger has
    answered: if the map has an entry for each raw source, [getMesh]
    succeeds with that map; if it misses the entry of one raw source,
    [getMesh] throws the [TypeError] of calling [getQueryType] on
    [undefined]. *)
Theorem sourceMap_must_cover_rawSources
    (options : GetMeshOptions) (settled : list ApiSource.t)
    (unifiedSchema : UnifiedSchema) :
  (forall a, a ∈ settled ->
     exists rawSource, settle applySchemaTransforms a = Ok rawSource) ->
  merger options (inputFor options settled) = Ok unifiedSchema ->
  let run := mesh options settled initial in
  ((forall i, i < length settled -> is_Some (sourceMap unifiedSchema !! i)) ->
     exists instance,
       run.1 = Ok instance /\ instance_sourceMap instance = sourceMap unifiedSchema /\
       length (instance_rawSources instance) = length settled) /\
  (forall i, i < length settled -> sourceMap unifiedSchema !! i = None ->
     run.1 = Throw (TypeError "Cannot read properties of undefined (reading 'getQueryType')")).
Proof.
  intros Hall Hmerger run.
  pose proof (getMesh_steps options settled
                (GetMeshFacts.all_settled_none_rejected applySchemaTransforms settled Hall)) as Hsteps.
  rewrite Hmerger in Hsteps. fold run in Hsteps.
  assert (Hlen : length (registered settled) = length settled).
  { symmetry. eapply Forall2_length.
    exact (GetMeshFacts.omap_pushedBy_all_settled applySchemaTransforms settled Hall). }
  split.
  - intros Hcovered.
    destruct (GetMeshFacts.attach_total parse print delegateToSchema batchDelegateToSchema
                (sourceMap unifiedSchema) (registered settled) 0 bareContext)
      as [context Hattach].
    { intros j Hj. apply Hcovered. by rewrite <- Hlen. }
    fold attach in Hattach. rewrite Hattach in Hsteps.
    destruct Hsteps as (instance & Hrun & Hraw & Hmap & _).
    exists instance. split; [done|]. split; [done|]. by rewrite Hraw.
  - intros i Hi Hmissing.
    destruct (attach _ _ _ _) as [context|e] eqn:Hattach.
    + pose proof (GetMeshFacts.attach_ok_covers _ _ _ _ _ _ _ _ _ Hattach i
                    ltac:(by rewrite Hlen)) as [x Hx].
      cbn in Hx. congruence.
    + rewrite Hsteps. f_equal.
      exact (GetMeshFacts.attach_throws_TypeError parse print delegateToSchema
               batchDelegateToSchema _ _ _ _ _ Hattach).
Qed.

(** The mesh context of a mesh that [getMesh] returned. Every raw source
    that is the last of its name gets, under that name, the SDK generated
    from it and from its own entry of the source map. Every other key is as
    in the bare context: [pubsub], [cache] and [liveQueryStore] hold their
    handles unless a source bears that name, in which case the handle is
    replaced by the SDK of that source. *)
Theorem meshContext_holds_the_last_source_of_each_name
    (options : GetMeshOptions) (settled : list ApiSource.t)
    (instance : MeshInstance) (st : State) :
  mesh options settled initial = (Ok instance, st) ->
  (forall i rawSource,
     instance_rawSources instance !! i = Some rawSource ->
     RawSourceOutput.name rawSource
       ∉ map RawSourceOutput.name (drop (S i) (instance_rawSources instance)) ->
     exists transformedSchema,
       instance_sourceMap instance !! i = Some transformedSchema /\
       meshContext instance !! RawSourceOutput.name rawSource
         = Some (SourceContext (sdkOf rawSource transformedSchema))) /\
  (forall n, n ∉ map RawSourceOutput.name (instance_rawSources instance) ->
     meshContext instance !! n =
       if decide (n = "liveQueryStore") then Some TheLiveQueryStore
       else if decide (n = "cache") then Some TheCache
       else if decide (n = "pubsub") then Some ThePubSub
       else None).
Proof.
  intros Hok.
  destruct (getMesh_ok options settled instance st Hok)
    as (_ & unifiedSchema & _ & Hattach & Hraw & Hmap & _).
  rewrite Hraw, Hmap. split.
  - intros i rawSource Hi Hlast.
    rewrite <- (take_drop_middle _ _ _ Hi) in Hattach.
    destruct (GetMeshFacts.attach_last_of_a_name parse print delegateToSchema
                batchDelegateToSchema _ _ _ _ _ _ _ Hattach Hlast)
      as (transformedSchema & Hlook & Hcontext).
    exists transformedSchema. split; [|done].
    rewrite length_take_le in Hlook; [done|].
    apply lookup_lt_Some in Hi. lia.
  - intros n Hn.
    rewrite (GetMeshFacts.attach_keeps_other_names parse print delegateToSchema
               batchDelegateToSchema _ _ _ _ _ _ Hattach Hn).
    unfold bareContext. repeat case_decide; subst; by simplify_map_eq.
Qed.

End GetMesh.


Lemma meshContext_holds_the_last_source_of_each_name_witness :
  exists instance st,
    Samples.getMeshFor [Samples.todosSource; MoreSamples.cacheNamedSource]
                       [Samples.todosSource; MoreSamples.cacheNamedSource]
      = (Ok instance, st) /\
    meshContext instance !! "pubsub" = Some ThePubSub /\
    exists sdk, meshContext instance !! "cache" = Some (SourceContext sdk).
Proof.
  destruct (Samples.getMeshFor [Samples.todosSource; MoreSamples.cacheNamedSource]
                               [Samples.todosSource; MoreSamples.cacheNamedSource])
    as [[instance|e] st] eqn:Hrun; [|vm_compute in Hrun; discriminate].
  exists instance, st. split; [reflexivity|].
  destruct (meshContext_holds_the_last_source_of_each_name
              Samples.parseIdName Samples.printIdName Samples.printIdName
              Samples.delegateAnswer Samples.batchAnswer Samples.interpolateArgsId
              Samples.keepSchema Samples.keepHooks Samples.jitFine Samples.sameExecute
              (Samples.optionsFor [Samples.todosSource; MoreSamples.cacheNamedSource])
              [Samples.todosSource; MoreSamples.cacheNamedSource] instance st Hrun)
    as [Hlast Hother].
  destruct (getMesh_ok _ _ _ _ _ _ _ _ _ _ _ _ _ _ Hrun) as (_ & _ & _ & _ & Hraw & _).
  cbn in Hraw. rewrite Hraw in Hlast, Hother. split.
  - rewrite Hother; [reflexivity|].
    cbn. intros Hin. repeat (apply elem_of_cons in Hin as [Hin|Hin]; [discriminate|]).
    by apply elem_of_nil in Hin.
  - destruct (Hlast 1 _ eq_refl) as (transformedSchema & _ & Hcontext).
    { cbn. apply not_elem_of_nil. }
    eexists. exact Hcontext.
Defined.

Ltac both_samples_resolve :=
  let a := fresh "a" in let Ha := fresh "Ha" in
  intros a Ha;
  repeat (apply elem_of_cons in Ha as [->|Ha]; [by eexists|]);
  by apply elem_of_nil in Ha.

Lemma merger_error_is_rethrown_witness :
  let run := MoreSamples.getMeshWith MoreSamples.conflictingMerger
               [Samples.todosSource; Samples.moviesSource]
               [Samples.moviesSource; Samples.todosSource] in
  run.1 = Throw (Error "Unable to merge GraphQL type") /\
  PubSubSubscribed "resolverDone" ∉ events run.2.
Proof.
  destruct (merger_error_is_rethrown
              Samples.parseIdName Samples.printIdName Samples.printIdName
              Samples.delegateAnswer Samples.batchAnswer Samples.interpolateArgsId
              Samples.keepSchema Samples.keepHooks Samples.jitFine Samples.sameExecute
              (MoreSamples.optionsWith MoreSamples.conflictingMerger
                 [Samples.todosSource; Samples.moviesSource])
              [Samples.moviesSource; Samples.todosSource]
              (Error "Unable to merge GraphQL type")
              ltac:(both_samples_resolve) eq_refl) as (Hthrown & _ & Hquiet).
  split; [exact Hthrown|apply Hquiet].
Defined.

Lemma sourceMap_must_cover_rawSources_witness :
  (MoreSamples.getMeshWith MoreSamples.forgetfulMerger
     [Samples.todosSource; Samples.moviesSource]
     [Samples.todosSource; Samples.moviesSource]).1
  = Throw (TypeError "Cannot read properties of undefined (reading 'getQueryType')").
Proof.
  destruct (sourceMap_must_cover_rawSources
              Samples.parseIdName Samples.printIdName Samples.printIdName
              Samples.delegateAnswer Samples.batchAnswer Samples.interpolateArgsId
              Samples.keepSchema Samples.keepHooks Samples.jitFine Samples.sameExecute
              (MoreSamples.optionsWith MoreSamples.forgetfulMerger
                 [Samples.todosSource; Samples.moviesSource])
              [Samples.todosSource; Samples.moviesSource]
              {| unified := Samples.todoSchema;
                 sourceMap := {[ 0 := Samples.todoSchema ]} |}
              ltac:(both_samples_resolve) eq_refl) as [_ Hmissing].
  apply (Hmissing 1); [cbn; lia|]. by apply lookup_singleton_ne.
Defined.

End GetMeshMore.

(** ** Live query invalidation, from the configuration to the store *)
Module InvalidationMore.
Import LiveQuery.

Section Rules.

Variable getInterpolatedStringFactory : string -> ResolverDataBasedFactory string.

Let step :=
  fun (factoryMap : gmap string (list (ResolverDataBasedFactory string)))
      (liveQueryInvalidation : LiveQueryInvalidation) =>
    <[field liveQueryInvalidation :=
        map getInterpolatedStringFactory (invalidate liveQueryInvalidation)]> factoryMap.

Lemma later_rules_keep_other_fields rules :
  forall acc path,
    (forall rule, rule ∈ rules -> field rule <> path) ->
    foldl step acc rules !! path = acc !! path.
Proof.
  induction rules as [|rule rules IH]; intros acc path Hother; [done|].
  cbn [foldl]. rewrite IH.
  - unfold step. apply lookup_insert_ne. apply Hother, list_elem_of_here.
  - intros r Hr. apply Hother. by apply list_elem_of_further.
Qed.

Lemma lookup_last_rule before rule after :
  (forall later, later ∈ after -> field later <> field rule) ->
  liveQueryInvalidationFactoryMap getInterpolatedStringFactory
    (Some (before ++ rule :: after)%list) !! field rule
  = Some (map getInterpolatedStringFactory (invalidate rule)).
Proof.
  intros Hlast. unfold liveQueryInvalidationFactoryMap. cbn [default].
  fold step. unfold id. rewrite foldl_app. cbn [foldl].
  rewrite later_rules_keep_other_fields by done.
  unfold step at 1. apply lookup_insert_eq.
Qed.

(** When a field is configured more than once, only its last rule counts:
    the factory map holds, under the field, the factories compiled from the
    templates of the last rule, in order, and nothing of the earlier
    rules. Without [liveQueryInvalidations] the map is empty. *)
Theorem last_rule_of_a_field_wins
    (before after : list LiveQueryInvalidation) (rule : LiveQueryInvalidation) :
  (forall later, later ∈ after -> field later <> field rule) ->
  liveQueryInvalidationFactoryMap getInterpolatedStringFactory
    (Some (before ++ rule :: after)%list) !! field rule
  = Some (map getInterpolatedStringFactory (invalidate rule)) /\
  liveQueryInvalidationFactoryMap getInterpolatedStringFactory None = ∅.
Proof. intros Hlast. split; [by apply lookup_last_rule|reflexivity]. Qed.

End Rules.

Lemma last_rule_of_a_field_wins_witness :
  liveQueryInvalidationFactoryMap Samples.interpolateArgsId
    (Some MoreSamples.repeatedInvalidations) !! "Query.todo"
  = Some [Samples.interpolateArgsId "id:{args.id}"].
Proof.
  exact (proj1 (last_rule_of_a_field_wins Samples.interpolateArgsId
                  [ {| field := "Query.todo";
                       invalidate := ["Query.todos"; "Query.stats"] |} ]
                  []
                  {| field := "Query.todo"; invalidate := ["id:{args.id}"] |}
                  ltac:(intros later Hin; by apply elem_of_nil in Hin))).
Defined.

Section ThroughGetMesh.

Variable parse : string -> Result DocumentNode.
Variable print : DocumentNode -> string.
Variable printWithCache : DocumentNode -> string.
Variable delegateToSchema : Sdk.IDelegateToSchemaOptions.t -> Result JsValue.
Variable batchDelegateToSchema : Sdk.BatchDelegateOptions.t -> Result JsValue.
Variable getInterpolatedStringFactory : string -> ResolverDataBasedFactory string.
Variable applySchemaTransforms :
  GraphQLSchema -> MeshSource.t -> list MeshTransform -> Result GraphQLSchema.
Variable applyResolversHooksToSchema :
  GraphQLSchema -> gmap string Runtime.MeshContextEntry -> GraphQLSchema.
Variable jitExecutorFactory :
  GraphQLSchema -> string -> Facade.ExecutionArgs -> Result ExecutionResult.
Variable makeExecute :
  (Facade.ExecutionArgs -> Result ExecutionResult) ->
  Facade.ExecutionArgs -> Result ExecutionResult.

Let mesh :=
  Runtime.getMesh parse print printWithCache delegateToSchema batchDelegateToSchema
    getInterpolatedStringFactory applySchemaTransforms applyResolversHooksToSchema
    jitExecutorFactory makeExecute.

(** From the configuration to the store, for a mesh that [getMesh]
    returned. When [Type.field] resolves and its last rule in
    [liveQueryInvalidations] is [rule], the listener of [resolverDone]
    invalidates, as one batch and in order, each template of [rule]
    interpolated with the object that has the root, args, context and info
    of the resolver data and the result of the event. When no rule names
    [Type.field], it invalidates nothing. *)
Theorem configured_rule_reaches_the_store
    (options : Runtime.GetMeshOptions) (settled : list ApiSource.t)
    (instance : Runtime.MeshInstance) (st : Runtime.State)
    (event : ResolverDoneEvent) (store : Store)
    (rd : ResolverData) (i : GraphQLResolveInfo) (pt : GraphQLObjectType) (fn : string) :
  mesh options settled Runtime.initial = (Ok instance, st) ->
  resolverData event = Some rd -> info rd = Some i ->
  parentType i = Some pt -> Mesh.fieldName i = Some fn -> fn <> "" ->
  let path := typeName pt +:+ "." +:+ fn in
  let merged :=
    {| Interpolation.root := root rd;
       Interpolation.args := args rd;
       Interpolation.context := context rd;
       Interpolation.info := Some i;
       Interpolation.result := result event |} in
  (forall before rule after,
     Runtime.liveQueryInvalidations options = Some (before ++ rule :: after)%list ->
     field rule = path ->
     (forall later, later ∈ after -> field later <> path) ->
     Runtime.onResolverDone instance event store =
       (Ok tt,
        (store ++ [map (fun template => getInterpolatedStringFactory template merged)
                       (invalidate rule)])%list)) /\
  ((forall rule, rule ∈ default [] (Runtime.liveQueryInvalidations options) ->
      field rule <> path) ->
   Runtime.onResolverDone instance event store = (Ok tt, store)).
Proof.
  intros Hok Hrd Hi Hpt Hfn Hne path merged.
  destruct (GetMeshMore.getMesh_ok _ _ _ _ _ _ _ _ _ _ _ _ _ _ Hok)
    as (_ & _ & _ & _ & _ & _ & ->).
  assert (Hc : carried event = Some (rd, pt, fn)).
  { apply LiveQueryFacts.carried_Some. split; [done|]. by exists i. }
  assert (Hmerged : spread rd (result event) = merged).
  { unfold spread, merged. by rewrite Hi. }
  unfold resolverDoneSubscriber. rewrite Hc, Hmerged. fold path. split.
  - intros before rule after Hrules Hfield Hlast. rewrite Hrules, <- Hfield.
    rewrite lookup_last_rule by (by rewrite Hfield).
    unfold liveQueryStore_invalidate, modify. by rewrite map_map.
  - intros Hnone.
    destruct (liveQueryInvalidationFactoryMap _ _ !! path) eqn:Hlook; [|done].
    exfalso.
    destruct (proj1 (LiveQueryExamples.liveQueryInvalidationFactoryMap_keys _ _ path)
                ltac:(by eexists)) as (rule & Hin & Hfield).
    by apply (Hnone rule).
Qed.

End ThroughGetMesh.

(** A mesh configured with the rule
    [Mutation.addTodo -> id:{args.id}, Todo:{result.id}]: after
    [Mutation.addTodo] resolved with [args.id = "42"] to the todo [7], its
    listener invalidates [id:42] and [Todo:7] as one batch. *)
Lemma configured_rule_reaches_the_store_witness :
  exists instance st,
    MoreSamples.getMeshInvalidating [Samples.todosSource] [Samples.todosSource]
      = (Ok instance, st) /\
    Runtime.onResolverDone instance MoreSamples.addTodoResolved []
      = (Ok tt, [["id:42"; "Todo:7"]]).
Proof.
  destruct (MoreSamples.getMeshInvalidating [Samples.todosSource] [Samples.todosSource])
    as [[instance|e] st] eqn:Hrun; [|vm_compute in Hrun; discriminate].
  exists instance, st. split; [reflexivity|].
  destruct (configured_rule_reaches_the_store
              Samples.parseIdName Samples.printIdName Samples.printIdName
              Samples.delegateAnswer Samples.batchAnswer MoreSamples.interpolateIds
              Samples.keepSchema Samples.keepHooks Samples.jitFine Samples.sameExecute
              (MoreSamples.optionsInvalidating [Samples.todosSource]) [Samples.todosSource]
              instance st MoreSamples.addTodoResolved [] MoreSamples.addTodoResolverData
              MoreSamples.addTodoInfo MoreSamples.mutationType "addTodo"
              Hrun eq_refl eq_refl eq_refl eq_refl ltac:(discriminate)) as [Hrule _].
  rewrite (Hrule [] MoreSamples.addTodoRule []
             eq_refl eq_refl ltac:(intros later Hin; by apply elem_of_nil in Hin)).
  reflexivity.
Defined.

End InvalidationMore.

(** ** In-context SDK: what is generated and how a call behaves *)
Module SdkMore.
Import Sdk Runtime.

Section Generated.

Variable parse : string -> Result DocumentNode.
Variable print : DocumentNode -> string.
Variable delegateToSchema : IDelegateToSchemaOptions.t -> Result JsValue.
Variable batchDelegateToSchema : BatchDelegateOptions.t -> Result JsValue.
Variable rawSource : RawSourceOutput.t.
Variable transformedSchema : GraphQLSchema.

Let callableFor :=
  inContextSdkField parse print delegateToSchema batchDelegateToSchema rawSource
    transformedSchema.
Let sdk := inContextSdk parse print delegateToSchema batchDelegateToSchema rawSource
             transformedSchema.

(** The inner loop, over the fields of one root type. *)
Let addField (operationType : OperationTypeNode) :=
  fun (fields : gmap string Callable) '(fieldName, rootTypeField) =>
    <[fieldName := callableFor operationType fieldName rootTypeField]> fields.

(** The outer loop, over the three root types. *)
Let addRoot :=
  fun (rawSourceContext : gmap string RawSourceContextEntry) '(operationType, rootType) =>
    match rootType with
    | Some rootType =>
        <[typeName rootType :=
            RootFields (foldl (addField operationType) ∅ (getFields rootType))]>
          rawSourceContext
    | None => rawSourceContext
    end.

Lemma addField_keeps_other_names operationType rootTypeFieldMap :
  forall acc fn, fn ∉ rootTypeFieldMap.*1 ->
    foldl (addField operationType) acc rootTypeFieldMap !! fn = acc !! fn.
Proof.
  induction rootTypeFieldMap as [|[fn0 f0] rest IH]; intros acc fn Hfn; [done|].
  cbn [foldl]. cbn in Hfn. apply not_elem_of_cons in Hfn as [Hne Hfn].
  rewrite IH by done. cbn. by rewrite lookup_insert_ne.
Qed.

Lemma addField_reaches_every_field operationType rootTypeFieldMap :
  forall acc, NoDup rootTypeFieldMap.*1 ->
    forall fn f, (fn, f) ∈ rootTypeFieldMap ->
      foldl (addField operationType) acc rootTypeFieldMap !! fn
        = Some (callableFor operationType fn f).
Proof.
  induction rootTypeFieldMap as [|[fn0 f0] rest IH]; intros acc Hnodup fn f Hin.
  - by apply elem_of_nil in Hin.
  - cbn in Hnodup. apply NoDup_cons in Hnodup as [Hfresh Hnodup].
    cbn [foldl]. apply elem_of_cons in Hin as [[= -> ->]|Hin].
    + rewrite addField_keeps_other_names by done. cbn. by rewrite lookup_insert_eq.
    + by apply IH.
Qed.

Lemma addRoot_keeps_other_names roots :
  forall acc tn,
    (forall operationType rootType, (operationType, Some rootType) ∈ roots ->
                                    typeName rootType <> tn) ->
    foldl addRoot acc roots !! tn = acc !! tn.
Proof.
  induction roots as [|[op0 [r0|]] rest IH]; intros acc tn Hother; [done| |]; cbn [foldl].
  - rewrite IH.
    + cbn. apply lookup_insert_ne. apply (Hother op0), list_elem_of_here.
    + intros op r Hin. apply (Hother op). by apply list_elem_of_further.
  - apply IH. intros op r Hin. apply (Hother op). by apply list_elem_of_further.
Qed.

Lemma addRoot_reaches_the_root roots operationType rootType :
  (forall operationType' rootType',
     (operationType', Some rootType') ∈ roots ->
     typeName rootType' = typeName rootType ->
     operationType' = operationType /\ rootType' = rootType) ->
  forall acc,
    (operationType, Some rootType) ∈ roots \/
    acc !! typeName rootType
      = Some (RootFields (foldl (addField operationType) ∅ (getFields rootType))) ->
    foldl addRoot acc roots !! typeName rootType
      = Some (RootFields (foldl (addField operationType) ∅ (getFields rootType))).
Proof.
  induction roots as [|[op0 [r0|]] rest IH]; intros Hunique acc Hstart; cbn [foldl].
  - destruct Hstart as [Hin|Hacc]; [by apply elem_of_nil in Hin|done].
  - apply IH.
    { intros op' r' Hin. apply Hunique. by apply list_elem_of_further. }
    destruct (decide (typeName r0 = typeName rootType)) as [Hsame|Hdiff].
    + right. destruct (Hunique op0 r0 (list_elem_of_here _ _) Hsame) as [-> ->].
      cbn. by rewrite lookup_insert_eq.
    + destruct Hstart as [Hin|Hacc].
      * left. apply elem_of_cons in Hin as [[= -> ->]|Hin]; [done|exact Hin].
      * right. cbn. by rewrite lookup_insert_ne.
  - apply IH.
    { intros op' r' Hin. apply Hunique. by apply list_elem_of_further. }
    destruct Hstart as [Hin|Hacc]; [|by right].
    left. apply elem_of_cons in Hin as [[=]|Hin]. exact Hin.
Qed.

(** What the two nested loops of [getMesh] generate for one raw source. For
    a root type of the transformed schema whose name no other root type
    shares, the context of the raw source holds, under the name of the root
    type, one callable per field of that type and nothing else; the callable
    of a field is the one built for the operation type of the root and the
    name of the field. The raw source itself stays under [rawSource] unless
    a root type bears that name. *)
Theorem inContextSdk_has_one_callable_per_root_field
    (operationType : OperationTypeNode) (rootType : GraphQLObjectType) :
  (operationType, Some rootType) ∈ rootTypes transformedSchema ->
  (forall operationType' rootType',
     (operationType', Some rootType') ∈ rootTypes transformedSchema ->
     typeName rootType' = typeName rootType ->
     operationType' = operationType /\ rootType' = rootType) ->
  NoDup (getFields rootType).*1 ->
  (exists fields,
     sdk !! typeName rootType = Some (RootFields fields) /\
     (forall fn f, (fn, f) ∈ getFields rootType ->
                   fields !! fn = Some (callableFor operationType fn f)) /\
     (forall fn, fn ∉ (getFields rootType).*1 -> fields !! fn = None)) /\
  ((forall operationType' rootType',
      (operationType', Some rootType') ∈ rootTypes transformedSchema ->
      typeName rootType' <> "rawSource") ->
   sdk !! "rawSource" = Some (TheRawSource rawSource)).
Proof.
  intros Hin Hunique Hnodup. split.
  - exists (foldl (addField operationType) ∅ (getFields rootType)). split; [|split].
    + exact (addRoot_reaches_the_root _ _ _ Hunique _ (or_introl Hin)).
    + intros fn f Hf. by apply addField_reaches_every_field.
    + intros fn Hfn. by rewrite addField_keeps_other_names.
  - intros Hnames. unfold sdk, inContextSdk.
    transitivity (({[ "rawSource" := TheRawSource rawSource ]}
                     : gmap string RawSourceContextEntry) !! "rawSource").
    + exact (addRoot_keeps_other_names _ _ _ Hnames).
    + apply lookup_singleton_eq.
Qed.

End Generated.

Lemma inContextSdk_has_one_callable_per_root_field_witness :
  exists fields,
    inContextSdk Samples.parseIdName Samples.printIdName Samples.delegateAnswer
      Samples.batchAnswer Samples.todoRawSource Samples.todoSchema !! "Query"
      = Some (RootFields fields) /\
    fields !! "todo" = Some Samples.todoField /\
    fields !! "todos" = None.
Proof.
  destruct (inContextSdk_has_one_callable_per_root_field
              Samples.parseIdName Samples.printIdName Samples.delegateAnswer
              Samples.batchAnswer Samples.todoRawSource Samples.todoSchema
              query Samples.queryType) as [(fields & Hroot & Hfield & Hnone) _].
  - apply list_elem_of_here.
  - intros op' r' Hin _. cbn in Hin.
    apply elem_of_cons in Hin as [[= -> ->]|Hin]; [done|].
    apply elem_of_cons in Hin as [[=]|Hin].
    apply elem_of_cons in Hin as [[=]|Hin]. by apply elem_of_nil in Hin.
  - cbn. apply NoDup_singleton.
  - exists fields. split; [exact Hroot|]. split.
    + exact (Hfield "todo" {| type := "Todo" |} (list_elem_of_here _ _)).
    + apply Hnone. cbn. intros Hin. apply list_elem_of_singleton in Hin. discriminate.
Defined.


Section Calls.

Variable parse : string -> Result DocumentNode.
Variable print : DocumentNode -> string.
Variable delegateToSchema : IDelegateToSchemaOptions.t -> Result JsValue.
Variable batchDelegateToSchema : BatchDelegateOptions.t -> Result JsValue.
Variable rawSource : RawSourceOutput.t.
Variable transformedSchema : GraphQLSchema.
Variable operationType : OperationTypeNode.
Variable fieldName : string.
Variable rootTypeField : GraphQLField.

Let callable :=
  inContextSdkField parse print delegateToSchema batchDelegateToSchema rawSource
    transformedSchema operationType fieldName rootTypeField.

(** A selection set that is the empty string is falsy: the call is
    delegated exactly as the same call without a selection set, with no
    transform at all, batched or not. *)
Theorem empty_selectionSet_string_is_ignored (call : Call.t) (trace : list Effect) :
  callable (SdkUse.withSelectionSet call (Some (Param (ParamString "")))) trace
  = callable (SdkUse.withSelectionSet call None) trace.
Proof. reflexivity. Qed.

(** A call of a generated callable makes exactly one call into the
    delegation libraries, whatever its arguments. A batched call returns
    what [batchDelegateToSchema] returns; when [delegateToSchema] throws,
    the callable throws the same value and [valuesFromResults] has no say;
    when it returns, a supplied [valuesFromResults] is applied to the
    result, without keys. *)
Theorem one_delegation_per_call (call : Call.t) (trace : list Effect) :
  exists effect,
    (callable call trace).2 = (trace ++ [effect])%list /\
    match effect with
    | BatchDelegateToSchema options =>
        (callable call trace).1 = batchDelegateToSchema options
    | DelegateToSchema options =>
        (forall e, delegateToSchema options = Throw e ->
                   (callable call trace).1 = Throw e) /\
        (forall result, delegateToSchema options = Ok result ->
           (callable call trace).1 =
             Ok (match Call.valuesFromResults call with
                 | Some valuesFromResults => valuesFromResults result None
                 | None => result
                 end))
    end.
Proof.
  destruct (Call.key call) as [key|] eqn:Hkey.
  - destruct (Call.argsFromKeys call) as [argsFromKeys|] eqn:Hargs.
    + destruct (decide (key = "")) as [->|Hne].
      * pose proof (SdkFacts.not_batched_run parse print delegateToSchema
                      batchDelegateToSchema rawSource transformedSchema operationType
                      fieldName rootTypeField call trace
                      (or_intror (or_introl Hkey))) as Hrun.
        fold callable in Hrun. rewrite Hrun. eexists. split; [reflexivity|].
        cbn [fst]. split; [by intros e ->|by intros result ->].
      * unfold callable, inContextSdkField. rewrite Hkey, Hargs. cbn [truthy_string].
        apply String.eqb_neq in Hne. rewrite Hne. cbn [negb].
        unfold emit. unfold_monad. eexists. split; reflexivity.
    + pose proof (SdkFacts.not_batched_run parse print delegateToSchema
                    batchDelegateToSchema rawSource transformedSchema operationType
                    fieldName rootTypeField call trace
                    (or_intror (or_intror Hargs))) as Hrun.
      fold callable in Hrun. rewrite Hrun. eexists. split; [reflexivity|].
      cbn [fst]. split; [by intros e ->|by intros result ->].
  - pose proof (SdkFacts.not_batched_run parse print delegateToSchema
                  batchDelegateToSchema rawSource transformedSchema operationType
                  fieldName rootTypeField call trace (or_introl Hkey)) as Hrun.
    fold callable in Hrun. rewrite Hrun. eexists. split; [reflexivity|].
    cbn [fst]. split; [by intros e ->|by intros result ->].
Qed.

End Calls.

End SdkMore.

(** ** Execution facade: [meshExecute], [meshSubscribe], [localRequester] *)
Module FacadeMore.
Import Facade.

Section Execute.

Variable parse : string -> Result DocumentNode.
Variable print : DocumentNode -> string.
Variable printWithCache : DocumentNode -> string.
Variable unifiedSchema : GraphQLSchema.
Variable liveQueryExecute : ExecutionArgs -> Result ExecutionResult.
Variable jitExecutor : Surface.JitExecutorArgs -> Result ExecutionResult.

Let execute := meshExecute parse print unifiedSchema liveQueryExecute.
Let subscribe := Surface.meshSubscribe parse print jitExecutor.
Let request := localRequester parse print printWithCache unifiedSchema liveQueryExecute.

(** [executionParams] for a document and an operation name. *)
Let paramsFor (document : DocumentNode) (variableValues contextValue rootValue : JsValue)
    (operationName : option string) : ExecutionArgs :=
  {| document := document;
     contextValue := orDefault contextValue EMPTY_CONTEXT_VALUE;
     rootValue := orDefault rootValue EMPTY_ROOT_VALUE;
     variableValues := orDefault variableValues EMPTY_VARIABLES_VALUE;
     schema := unifiedSchema;
     operationName := operationName |}.

Let wayOf (documentOrSDL : GraphQLOperation) (variableValues contextValue rootValue : JsValue)
    (operationName : option string) : Surface.Way :=
  match getDocumentNodeAndSDL parse print documentOrSDL with
  | Throw e => Surface.Stops e
  | Ok (document, _) =>
      if truthy_string operationName
      then Surface.Runs (paramsFor document variableValues contextValue rootValue operationName)
      else
        match getOperationAST document None with
        | Some operationAst =>
            Surface.Runs (paramsFor document variableValues contextValue rootValue
                    (name operationAst))
        | None =>
            Surface.Stops (TypeError "Cannot read properties of null (reading 'name')")
        end
  end.

Lemma meshExecute_way documentOrSDL variableValues contextValue rootValue operationName trace :
  execute documentOrSDL variableValues contextValue rootValue operationName trace =
    match wayOf documentOrSDL variableValues contextValue rootValue operationName with
    | Surface.Stops e => (Throw e, trace)
    | Surface.Runs executionParams =>
        (liveQueryExecute executionParams,
         (trace ++ [LiveQueryExecute executionParams])%list)
    end.
Proof.
  unfold wayOf.
  destruct (getDocumentNodeAndSDL parse print documentOrSDL) as [[document sdl]|e] eqn:Hdoc.
  - destruct (truthy_string operationName) eqn:Hname.
    + exact (FacadeFacts.meshExecute_named _ _ _ _ _ _ _ _ _ _ _ _ Hdoc Hname).
    + destruct (getOperationAST document None) as [operationAst|] eqn:Hast.
      * exact (FacadeFacts.meshExecute_unnamed _ _ _ _ _ _ _ _ _ _ _ _ _ Hdoc Hname Hast).
      * exact (FacadeFacts.meshExecute_unnamed_no_single_operation
                 _ _ _ _ _ _ _ _ _ _ _ _ Hdoc Hname Hast).
  - unfold execute, meshExecute. unfold bind at 1. unfold lift at 1. by rewrite Hdoc.
Qed.

Lemma meshSubscribe_way documentOrSDL variableValues contextValue rootValue operationName trace :
  subscribe documentOrSDL variableValues contextValue rootValue operationName trace =
    match wayOf documentOrSDL variableValues contextValue rootValue operationName with
    | Surface.Stops e => (Throw e, trace)
    | Surface.Runs executionParams =>
        (jitExecutor (Surface.toJitExecutorArgs executionParams),
         (trace ++ [Surface.JitExecute (Surface.toJitExecutorArgs executionParams)])%list)
    end.
Proof.
  unfold wayOf, subscribe, Surface.meshSubscribe. unfold bind at 1. unfold lift at 1.
  destruct (getDocumentNodeAndSDL parse print documentOrSDL) as [[document sdl]|e];
    [|reflexivity].
  destruct (truthy_string operationName) eqn:Hname; cbn [negb].
  - unfold Surface.emit. unfold_monad. reflexivity.
  - destruct (getOperationAST document None) as [operationAst|]; [|reflexivity].
    unfold Surface.emit. unfold_monad. reflexivity.
Qed.

(** [meshExecute] calls the executor at most once. It calls it exactly once,
    with the unified schema, and returns or throws what the executor does,
    unless it throws before: the error of parsing the SDL text, or a
    [TypeError] when no name was given and the document has no single
    operation. In that case nothing is executed. *)
Theorem meshExecute_executes_once_or_throws_first
    (documentOrSDL : GraphQLOperation) (variableValues contextValue rootValue : JsValue)
    (operationName : option string) (trace : list Effect) :
  let run := execute documentOrSDL variableValues contextValue rootValue operationName trace in
  (exists executionParams,
     run = (liveQueryExecute executionParams,
            (trace ++ [LiveQueryExecute executionParams])%list) /\
     schema executionParams = unifiedSchema /\
     exists sdl, getDocumentNodeAndSDL parse print documentOrSDL
                 = Ok (document executionParams, sdl)) \/
  (exists e,
     run = (Throw e, trace) /\
     (getDocumentNodeAndSDL parse print documentOrSDL = Throw e \/
      (truthy_string operationName = false /\
       e = TypeError "Cannot read properties of null (reading 'name')" /\
       exists document sdl,
         getDocumentNodeAndSDL parse print documentOrSDL = Ok (document, sdl) /\
         getOperationAST document None = None))).
Proof.
  intros run. subst run. rewrite meshExecute_way. unfold wayOf.
  destruct (getDocumentNodeAndSDL parse print documentOrSDL) as [[document sdl]|e].
  - destruct (truthy_string operationName).
    + left. eexists. split; [reflexivity|]. split; [reflexivity|]. by exists sdl.
    + destruct (getOperationAST document None) as [operationAst|] eqn:Hast.
      * left. eexists. split; [reflexivity|]. split; [reflexivity|]. by exists sdl.
      * right. eexists. split; [reflexivity|]. right. split; [done|]. split; [done|].
        by exists document, sdl.
  - right. exists e. split; [reflexivity|]. by left.
Qed.

(** [meshSubscribe] follows [meshExecute] up to the executor: for the same
    arguments both throw the same error before executing anything, or both
    execute once, [meshExecute] through the live query executor with some
    [executionParams] and [meshSubscribe] by calling the JIT executor
    itself with the document, context, variables, root value and operation
    name of those [executionParams], which is what the function given to
    the live query store does with them. *)
Theorem meshSubscribe_follows_meshExecute
    (documentOrSDL : GraphQLOperation) (variables context rootValue : JsValue)
    (operationName : option string)
    (trace : list Effect) (subscribed : list Surface.Effect) :
  let executed := execute documentOrSDL variables context rootValue operationName trace in
  let streamed :=
    subscribe documentOrSDL variables context rootValue operationName subscribed in
  (exists e, executed = (Throw e, trace) /\ streamed = (Throw e, subscribed)) \/
  (exists executionParams,
     executed = (liveQueryExecute executionParams,
                 (trace ++ [LiveQueryExecute executionParams])%list) /\
     streamed = (jitExecutor (Surface.toJitExecutorArgs executionParams),
                 (subscribed
                  ++ [Surface.JitExecute (Surface.toJitExecutorArgs executionParams)])%list) /\
     streamed = Surface.liveQueryExecutor jitExecutor executionParams subscribed).
Proof.
  intros executed streamed. subst executed streamed.
  rewrite meshExecute_way, meshSubscribe_way.
  destruct (wayOf _ _ _ _ _) as [e|executionParams].
  - left. by exists e.
  - right. exists executionParams. split; [done|]. split; [done|].
    unfold Surface.liveQueryExecutor, Surface.emit. unfold_monad. reflexivity.
Qed.

(** Whatever [meshExecute] throws, the requester throws: the error of
    parsing, the [TypeError] of a nameless document without a single
    operation, or what the executor rejected with. Nothing is logged and no
    aggregate error is built. *)
Theorem localRequester_rethrows_what_meshExecute_throws
    (document : DocumentNode) (variables contextValue rootValue : JsValue)
    (operationName : option string) (trace trace' : list Effect) (e : JsError) :
  execute (OfDocument document) variables contextValue rootValue operationName trace
    = (Throw e, trace') ->
  request document variables contextValue rootValue operationName trace = (Throw e, trace') /\
  forall query logged, LoggerError query logged ∈ trace' -> LoggerError query logged ∈ trace.
Proof.
  intros Hthrown. split.
  - unfold request, localRequester. unfold bind. fold execute. by rewrite Hthrown.
  - rewrite meshExecute_way in Hthrown.
    destruct (wayOf _ _ _ _ _) as [e'|executionParams].
    + by injection Hthrown as _ <-.
    + injection Hthrown as _ <-. intros query logged Hin.
      apply elem_of_app in Hin as [Hin|Hin]; [done|].
      apply list_elem_of_singleton in Hin. discriminate.
Qed.

End Execute.

(** [contextBuilder] of the mesh instance gives back a truthy context as
    it is and an empty object for anything falsy ([undefined], [null],
    [false], [0], the empty string). So it never returns a falsy value, and
    applying it twice is applying it once. *)
Theorem contextBuilder_gives_an_object_for_falsy (ctx : JsValue) :
  truthy (Surface.contextBuilder ctx) = true /\
  (truthy ctx = true -> Surface.contextBuilder ctx = ctx) /\
  (truthy ctx = false -> Surface.contextBuilder ctx = JObj []) /\
  Surface.contextBuilder (Surface.contextBuilder ctx) = Surface.contextBuilder ctx.
Proof.
  unfold Surface.contextBuilder.
  destruct (truthy ctx) eqn:Hctx.
  - rewrite Hctx. by repeat split.
  - by repeat split.
Qed.

End FacadeMore.

(** ** SDK requester: the three ways out after an execution *)
Module RequesterMore.
Import Facade.

Section Requester.

Variable parse : string -> Result DocumentNode.
Variable print : DocumentNode -> string.
Variable printWithCache : DocumentNode -> string.
Variable unifiedSchema : GraphQLSchema.
Variable liveQueryExecute : ExecutionArgs -> Result ExecutionResult.

Let execute := meshExecute parse print unifiedSchema liveQueryExecute.
Let request := localRequester parse print printWithCache unifiedSchema liveQueryExecute.

(** When the execution answers with data that is an object (or anything
    truthy) and with [errors] missing or [undefined], the requester returns
    that data and logs nothing. *)
Theorem requester_returns_the_data
    (document : DocumentNode) (variables contextValue rootValue : JsValue)
    (operationName : option string) (trace trace' : list Effect)
    (executionResult : ExecutionResult) :
  execute (OfDocument document) variables contextValue rootValue operationName trace
    = (Ok executionResult, trace') ->
  truthy (read_data executionResult) = true ->
  read_errors executionResult = None ->
  request document variables contextValue rootValue operationName trace
    = (Ok (read_data executionResult), trace').
Proof.
  intros Hexecuted Hdata Herrors.
  exact (RequesterFacts.localRequester_returns_data _ _ _ _ _ _ _ _ _ _ _ _ _
           Hexecuted Hdata Herrors).
Qed.

(** When the execution answers with an [errors] list, even an empty one and
    even beside data, and the document has a single operation, the requester
    logs the printed document with the variables and throws the aggregate
    error: it carries that list, the document, the variables as the caller
    passed them and the data, and its message names the operation type and
    the operation name (nothing for an anonymous operation). *)
Theorem requester_throws_for_any_errors_list
    (document : DocumentNode) (variables contextValue rootValue : JsValue)
    (operationName : option string) (trace trace' : list Effect)
    (executionResult : ExecutionResult)
    (es : list GraphQLError) (operationAst : OperationDefinitionNode) :
  execute (OfDocument document) variables contextValue rootValue operationName trace
    = (Ok executionResult, trace') ->
  read_errors executionResult = Some es ->
  getOperationAST document None = Some operationAst ->
  request document variables contextValue rootValue operationName trace
    = (Throw (GraphQLMeshSdkError (Some es) document variables
                (read_data executionResult)
                ("GraphQL Mesh SDK " +:+ operationTypeName (operation operationAst)
                   +:+ " " +:+ default "" (name operationAst) +:+ " failed!")),
       (trace' ++ [LoggerError (printWithCache document) variables])%list).
Proof.
  intros Hexecuted Herrors Hast.
  unfold request, localRequester. unfold bind at 1. fold execute. rewrite Hexecuted.
  assert (Hkey : has_errors_key executionResult = true).
  { unfold has_errors_key, read_errors in *.
    destruct (GraphQL.errors executionResult); [|discriminate].
    by apply bool_decide_eq_true. }
  rewrite Hkey, Herrors, orb_true_r, andb_false_r.
  unfold new_GraphQLMeshSdkError. rewrite Hast.
  assert (Hshown : (if truthy_string (name operationAst)
                    then default "" (name operationAst) else "")
                   = default "" (name operationAst)).
  { destruct (name operationAst) as [n|]; [|done]. cbn.
    destruct (String.eqb n "") eqn:Hn; [|done]. by apply String.eqb_eq in Hn as ->. }
  rewrite Hshown. unfold emit. unfold_monad. reflexivity.
Qed.

(** When the execution answers with an object that has neither a [data]
    nor an [errors] key, the requester throws [Error('Not implemented')]
    and logs nothing. *)
Theorem requester_rejects_a_result_without_keys
    (document : DocumentNode) (variables contextValue rootValue : JsValue)
    (operationName : option string) (trace trace' : list Effect)
    (executionResult : ExecutionResult) :
  execute (OfDocument document) variables contextValue rootValue operationName trace
    = (Ok executionResult, trace') ->
  data executionResult = None ->
  GraphQL.errors executionResult = None ->
  request document variables contextValue rootValue operationName trace
    = (Throw (Error "Not implemented"), trace').
Proof.
  intros Hexecuted Hdata Herrors.
  exact (RequesterFacts.localRequester_not_implemented _ _ _ _ _ _ _ _ _ _ _ _ _
           Hexecuted Hdata Herrors).
Qed.

(** When the execution answers with falsy data (say [null]) and with
    [errors] missing or [undefined], the requester neither returns the data
    nor throws the aggregate error: it logs the printed document with the
    variables and throws a [TypeError], because the aggregate error cannot
    be built without a list of errors (nor, before that, for a document
    without a single operation). *)
Theorem requester_cannot_wrap_missing_errors
    (document : DocumentNode) (variables contextValue rootValue : JsValue)
    (operationName : option string) (trace trace' : list Effect)
    (executionResult : ExecutionResult) :
  execute (OfDocument document) variables contextValue rootValue operationName trace
    = (Ok executionResult, trace') ->
  is_Some (data executionResult) \/ is_Some (GraphQL.errors executionResult) ->
  truthy (read_data executionResult) = false ->
  read_errors executionResult = None ->
  exists message,
    request document variables contextValue rootValue operationName trace
      = (Throw (TypeError message),
         (trace' ++ [LoggerError (printWithCache document) variables])%list).
Proof.
  intros Hexecuted Hkeys Hdata Herrors.
  unfold request, localRequester. unfold bind at 1. fold execute. rewrite Hexecuted.
  assert (Hkey : has_data_key executionResult || has_errors_key executionResult = true).
  { unfold has_data_key, has_errors_key. apply orb_true_iff.
    destruct Hkeys as [H|H]; [left|right]; by apply bool_decide_eq_true. }
  rewrite Hkey, Hdata, Herrors. cbn [andb].
  unfold new_GraphQLMeshSdkError, emit. unfold_monad.
  destruct (getOperationAST document None); by eexists.
Qed.

End Requester.

Lemma requester_cannot_wrap_missing_errors_witness :
  exists message,
    (localRequester Samples.parseGetTodo Samples.printAny Samples.printAny
       Samples.todoSchema MoreSamples.executeNull Samples.oneOperation
       JUndefined JUndefined JUndefined None []).1
    = Throw (TypeError message).
Proof.
  destruct (requester_cannot_wrap_missing_errors Samples.parseGetTodo Samples.printAny
              Samples.printAny Samples.todoSchema MoreSamples.executeNull
              Samples.oneOperation JUndefined JUndefined JUndefined None [] _
              {| data := Some JNull; errors := None |}
              eq_refl (or_introl (mk_is_Some _ _ eq_refl)) eq_refl eq_refl)
    as [message Hthrown].
  exists message. by rewrite Hthrown.
Defined.

Lemma requester_returns_the_data_witness :
  localRequester Samples.parseGetTodo Samples.printAny Samples.printAny
    Samples.todoSchema Samples.executeFine Samples.oneOperation
    JUndefined JUndefined JUndefined None []
  = (Ok (JObj [("foo", JNum 1)]),
     [LiveQueryExecute
        {| document := Samples.oneOperation; contextValue := JObj []; rootValue := JObj [];
           variableValues := JObj []; schema := Samples.todoSchema;
           operationName := Some "GetTodo" |}]).
Proof.
  exact (requester_returns_the_data Samples.parseGetTodo Samples.printAny Samples.printAny
           Samples.todoSchema Samples.executeFine Samples.oneOperation
           JUndefined JUndefined JUndefined None [] _
           {| data := Some (JObj [("foo", JNum 1)]); errors := Some None |}
           eq_refl eq_refl eq_refl).
Defined.

Lemma requester_throws_for_any_errors_list_witness :
  (localRequester Samples.parseGetTodo Samples.printAny Samples.printAny
     Samples.todoSchema MoreSamples.executeEmptyErrors Samples.oneOperation
     (JObj [("id", JStr "42")]) JUndefined JUndefined None []).1
  = Throw (GraphQLMeshSdkError (Some []) Samples.oneOperation (JObj [("id", JStr "42")])
             (JObj [("foo", JNum 1)]) "GraphQL Mesh SDK query GetTodo failed!").
Proof.
  rewrite (requester_throws_for_any_errors_list Samples.parseGetTodo Samples.printAny
             Samples.printAny Samples.todoSchema MoreSamples.executeEmptyErrors
             Samples.oneOperation (JObj [("id", JStr "42")]) JUndefined JUndefined None [] _
             {| data := Some (JObj [("foo", JNum 1)]); errors := Some (Some []) |}
             [] Samples.getTodo eq_refl eq_refl eq_refl).
  reflexivity.
Defined.

Lemma requester_rejects_a_result_without_keys_witness :
  (localRequester Samples.parseGetTodo Samples.printAny Samples.printAny
     Samples.todoSchema Samples.executeEmpty Samples.oneOperation
     JUndefined JUndefined JUndefined None []).1
  = Throw (Error "Not implemented").
Proof.
  rewrite (requester_rejects_a_result_without_keys Samples.parseGetTodo Samples.printAny
             Samples.printAny Samples.todoSchema Samples.executeEmpty Samples.oneOperation
             JUndefined JUndefined JUndefined None [] _
             {| data := None; errors := None |} eq_refl eq_refl eq_refl).
  reflexivity.
Defined.

Lemma localRequester_rethrows_what_meshExecute_throws_witness :
  (localRequester Samples.parseGetTodo Samples.printAny Samples.printAny
     Samples.todoSchema MoreSamples.executeRejecting Samples.oneOperation
     JUndefined JUndefined JUndefined None []).1
  = Throw (Error "socket hang up").
Proof.
  destruct (FacadeMore.localRequester_rethrows_what_meshExecute_throws
              Samples.parseGetTodo Samples.printAny Samples.printAny Samples.todoSchema
              MoreSamples.executeRejecting Samples.oneOperation
              JUndefined JUndefined JUndefined None [] _ (Error "socket hang up") eq_refl)
    as [Hthrown _].
  rewrite Hthrown. reflexivity.
Defined.

End RequesterMore.
